(** * CAN log decoder (can_ui_tool.py): a shallow embedding and its properties

    The decoding loop of [can_ui_tool.py] (lines 40-110) turns each line of a
    captured CAN log into a dictionary [linedict], using the tables of the DBC
    workbook, and appends it to [allDicts]; a line that raises is reported with
    [st.warning] and skipped.

    Conventions of the model:
    - a Python [str] is a [string]; each character stands for one code point
      below 256 (the Latin-1 range), so text outside that range is not covered;
    - a Python [int] is a [Z], a [float] is a binary64 [PrimFloat.float],
      [bytes] is a [list Z] of values below 256;
    - a [dict] with string keys is a [gmap string value];
    - a raised exception is the [Raise] case of [result];
    - the calls of [st.warning] are collected, in order, in a list;
    - a pandas table indexed by its key column is a [gmap] from the key to
      the cell of the one column the program reads ([msgType] or [name]);
      keys are unique; a cell holds whatever the sheet has there, a text, a
      number, or the float [nan] of an empty cell. *)

From Stdlib Require Import ZArith String Ascii PrimFloat Uint63 Lia.
From stdpp Require Import base option list gmap strings.

Set Warnings "-inexact-float".
Local Open Scope Z_scope.

(** ** Exceptions and the error monad *)

Inductive exn : Type :=
  | IndexError
  | KeyError
  | ValueError
  | AttributeError.

Inductive result (A : Type) : Type :=
  | Ok (a : A)
  | Raise (e : exn).
Arguments Ok {A} a.
Arguments Raise {A} e.

Definition bind {A B : Type} (r : result A) (k : A → result B) : result B :=
  match r with
  | Ok a => k a
  | Raise e => Raise e
  end.

Notation "'let*' x ':=' r 'in' k" := (bind r (fun x => k))
  (at level 10, x name, r at level 100, k at level 200).

(** ** The Python built-ins the loop uses *)

Module Py.

(** Code point of a character. *)
Definition ord (c : ascii) : Z := Z.of_N (N_of_ascii c).
Definition chr (n : Z) : ascii := ascii_of_N (Z.to_N n).

Fixpoint len (s : string) : Z :=
  match s with
  | EmptyString => 0
  | String _ s' => 1 + len s'
  end.

Fixpoint str_drop (n : nat) (s : string) : string :=
  match n, s with
  | O, _ => s
  | S n', String _ s' => str_drop n' s'
  | S _, EmptyString => EmptyString
  end.

Fixpoint str_take (n : nat) (s : string) : string :=
  match n, s with
  | O, _ => EmptyString
  | S n', String c s' => String c (str_take n' s')
  | S _, EmptyString => EmptyString
  end.

(** [s[lo:hi]] with step 1. An omitted bound is [None]; a negative bound
    counts from the end; both are clamped to [0 .. len s]
    (PySlice_AdjustIndices). A slice never raises. *)
Definition adjust_index (n : Z) (i : Z) : Z :=
  if i <? 0 then Z.max 0 (i + n) else Z.min i n.

Definition slice (s : string) (lo hi : option Z) : string :=
  let n := len s in
  let start := match lo with Some i => adjust_index n i | None => 0 end in
  let stop := match hi with Some i => adjust_index n i | None => n end in
  if start <? stop
  then str_take (Z.to_nat (stop - start)) (str_drop (Z.to_nat start) s)
  else EmptyString.

(** [l[i]] for a non-negative literal index. *)
Definition getitem {A : Type} (l : list A) (i : nat) : result A :=
  match l !! i with
  | Some x => Ok x
  | None => Raise IndexError
  end.

(** [s.split(sep)] for a one-character separator: every occurrence
    separates, adjacent separators give empty strings, and the result is
    never empty. *)
Fixpoint split (sep : ascii) (s : string) : list string :=
  match s with
  | EmptyString => [EmptyString]
  | String c s' =>
      if bool_decide (c = sep) then EmptyString :: split sep s'
      else match split sep s' with
           | t :: ts => String c t :: ts
           | [] => [String c EmptyString]
           end
  end.

(** [sep.join(l)] for a one-character separator. *)
Fixpoint join (sep : ascii) (l : list string) : string :=
  match l with
  | [] => EmptyString
  | [t] => t
  | t :: ts => t +:+ String sep (join sep ts)
  end.

(** [c in s] for a character. *)
Fixpoint has_char (c : ascii) (s : string) : bool :=
  match s with
  | EmptyString => false
  | String a s' => bool_decide (a = c) || has_char c s'
  end.

(** [x in l] for a list of strings. *)
Definition contains_item (x : string) (l : list string) : bool :=
  bool_decide (x ∈ l).

(** [s.lower()] on code points below 256: A-Z and the accented capitals
    U+00C0-U+00DE (without the multiplication sign U+00D7) move up by 32. *)
Definition lower_char (c : ascii) : ascii :=
  let n := ord c in
  if ((65 <=? n) && (n <=? 90)) || ((192 <=? n) && (n <=? 222) && negb (n =? 215))
  then chr (n + 32) else c.

Fixpoint lower (s : string) : string :=
  match s with
  | EmptyString => EmptyString
  | String c s' => String (lower_char c) (lower s')
  end.

Fixpoint startswith (p s : string) : bool :=
  match p, s with
  | EmptyString, _ => true
  | String a p', String b s' => bool_decide (a = b) && startswith p' s'
  | String _ _, EmptyString => false
  end.

(** [needle in hay] for strings: substring containment. *)
Fixpoint contains (needle hay : string) : bool :=
  startswith needle hay ||
  match hay with
  | EmptyString => false
  | String _ hay' => contains needle hay'
  end.

(** Value of a character as a digit in bases up to 36 (_PyLong_DigitValue). *)
Definition digit_value (c : ascii) : option Z :=
  let n := ord c in
  if (48 <=? n) && (n <=? 57) then Some (n - 48)
  else if (97 <=? n) && (n <=? 122) then Some (n - 87)
  else if (65 <=? n) && (n <=? 90) then Some (n - 55)
  else None.

Definition hex_value (c : ascii) : option Z :=
  match digit_value c with
  | Some d => if d <? 16 then Some d else None
  | None => None
  end.

Definition dec_value (c : ascii) : option Z :=
  match digit_value c with
  | Some d => if d <? 10 then Some d else None
  | None => None
  end.

(** Py_ISSPACE: the ASCII white space. *)
Definition is_ascii_space (c : ascii) : bool :=
  let n := ord c in ((9 <=? n) && (n <=? 13)) || (n =? 32).

(** White space that [int] strips: the ASCII white space, and the code
    points above 127 that are Unicode white space (U+0085, U+00A0), which
    [int] first rewrites to a blank. *)
Definition is_int_space (c : ascii) : bool :=
  let n := ord c in is_ascii_space c || (n =? 133) || (n =? 160).

(** [bytes.fromhex(s)]: pairs of hexadecimal digits, ASCII white space
    allowed before a pair but not inside one; anything else is a
    [ValueError]. *)
Fixpoint fromhex (s : string) : result (list Z) :=
  match s with
  | EmptyString => Ok []
  | String c s' =>
      if is_ascii_space c then fromhex s'
      else match hex_value c with
           | None => Raise ValueError
           | Some top =>
               match s' with
               | EmptyString => Raise ValueError
               | String c' s'' =>
                   match hex_value c' with
                   | None => Raise ValueError
                   | Some bot =>
                       let* rest := fromhex s'' in
                       Ok (Z.shiftl top 4 + bot :: rest)
                   end
               end
           end
  end.

(** [int(s)] in base 10. White space around the literal is dropped, one
    sign is allowed, the digits may be separated by single underscores, and
    a literal of more than [int_max_str_digits] digits is refused. *)
Definition int_max_str_digits : Z := 4300.

Fixpoint lstrip (s : string) : string :=
  match s with
  | String c s' => if is_int_space c then lstrip s' else s
  | EmptyString => EmptyString
  end.

Fixpoint all_space (s : string) : bool :=
  match s with
  | EmptyString => true
  | String c s' => is_int_space c && all_space s'
  end.

(** Scan of the digits: [acc] is the value so far, [n] the number of
    digits read, [prev_us] tells that the previous character was an
    underscore. The scan stops at the first character that is neither a
    digit nor an underscore, which must start the trailing white space. *)
Fixpoint int_digits (s : string) (acc n : Z) (prev_us : bool) : result Z :=
  match s with
  | EmptyString =>
      if prev_us then Raise ValueError
      else if int_max_str_digits <? n then Raise ValueError
      else Ok acc
  | String c s' =>
      match dec_value c with
      | Some d => int_digits s' (10 * acc + d) (n + 1) false
      | None =>
          if bool_decide (c = "_"%char) then
            if prev_us then Raise ValueError else int_digits s' acc n true
          else if prev_us then Raise ValueError
          else if all_space s then
            if int_max_str_digits <? n then Raise ValueError else Ok acc
          else Raise ValueError
      end
  end.

Definition int (s : string) : result Z :=
  let s := lstrip s in
  let '(sign, s) :=
    match s with
    | String "+" s' => (1, s')
    | String "-" s' => (-1, s')
    | _ => (1, s)
    end in
  match s with
  | EmptyString => Raise ValueError
  | String c _ =>
      match dec_value c with
      | Some _ => let* v := int_digits s 0 0 false in Ok (sign * v)
      | None => Raise ValueError
      end
  end.

(** [n / 100.0] for an integer [n] from 0 to 2^53 (those of the program are
    below 2^16): the integer converts to a float without rounding and the
    division is IEEE 754's. *)
Definition truediv_100 (n : Z) : float :=
  PrimFloat.div (PrimFloat.of_uint63 (Uint63.of_Z n)) 100%float.

(** The characters below 256 at which [str.splitlines] breaks a line: line
    feed, vertical tab, form feed, carriage return, the file, group and
    record separators, and the next-line character U+0085. *)
Definition is_linebreak (c : ascii) : bool :=
  let n := ord c in
  ((10 <=? n) && (n <=? 13)) || ((28 <=? n) && (n <=? 30)) || (n =? 133).

(** [s.splitlines()]: the lines without their breaks; a carriage return
    followed by a line feed is one break, and a break at the very end opens no
    further line. *)
Fixpoint splitlines (s : string) : list string :=
  match s with
  | EmptyString => []
  | String c s' =>
      if is_linebreak c then
        EmptyString ::
          match s' with
          | String c' s'' =>
              if (ord c =? 13) && (ord c' =? 10) then splitlines s'' else splitlines s'
          | EmptyString => []
          end
      else match splitlines s' with
           | t :: ts => String c t :: ts
           | [] => [String c EmptyString]
           end
  end.

End Py.

(** ** The data of a run *)

(** A value stored in [linedict], or held by a cell of a table. *)
Inductive value : Type :=
  | VStr (s : string)
  | VInt (n : Z)
  | VFloat (f : float).

(** The machine types (lines 11-13). *)
Inductive machine_type : Type :=
  | CARDING
  | DF
  | FLYER.

#[global] Instance machine_type_eq_dec : EqDecision machine_type.
Proof. solve_decision. Defined.

(** The sheets of the DBC workbook (lines 30-35): each table maps its index
    column to the cells of the column the loop reads. [Errors] is indexed by
    an integer. *)
Record schema : Type := {
  functionIDs : gmap string value;
  CardingAddressIDs : gmap string value;
  DFAddressIDs : gmap string value;
  FlyerAddressIDs : gmap string value;
  Operations : gmap string value;
  Errors : gmap Z value
}.

(** The two calls of [st.warning] in the loop. *)
Inductive warning : Type :=
  | LineParsingError (e : exn)
  | FlyerDecodingError (e : exn).

(** [table.loc[key, column]]: the cell, whatever it holds; a missing key
    raises [KeyError]. *)
Definition loc {K : Type} `{Countable K} (table : gmap K value) (key : K)
  : result value :=
  match table !! key with
  | Some cell => Ok cell
  | None => Raise KeyError
  end.

(** [d[key]], [d.get(key, default)] and [d.update({k1: v1, ...})]. *)
Definition dict_getitem (d : gmap string value) (key : string) : result value :=
  match d !! key with
  | Some v => Ok v
  | None => Raise KeyError
  end.

Definition dict_get (d : gmap string value) (key : string) (dflt : value) : value :=
  default dflt (d !! key).

Definition dict_update (d : gmap string value) (items : list (string * value))
  : gmap string value :=
  foldl (fun acc kv => <[kv.1 := kv.2]> acc) d items.

(** [v == s] for a string literal [s]. *)
Definition value_is_str (v : value) (s : string) : bool :=
  match v with
  | VStr t => bool_decide (t = s)
  | _ => false
  end.

(** [v.lower()]: only a string has the method. *)
Definition value_lower (v : value) : result string :=
  match v with
  | VStr s => Ok (Py.lower s)
  | _ => Raise AttributeError
  end.

(** ** The loop body *)

(** Lines 51-53: [(fID, dst, source)]. *)
Definition id_codes (extID : string) : string * string * string :=
  let source := Py.slice extID (Some (-2)) None in
  let dst := Py.slice extID (Some (-4)) (Some (-2)) in
  let fID := Py.slice extID (Some (-6)) (Some (-4)) in
  (fID, dst, source).

(** Lines 72-75. *)
Definition message_branch (sch : schema) (hexData : string)
    (linedict : gmap string value) : result (gmap string value) :=
  let* mt := dict_getitem linedict "msgType" in
  if value_is_str mt "Operation" then
    let* op := loc (Operations sch) hexData in
    Ok (<["OperationCommand" := op]> linedict)
  else
    let* mt := dict_getitem linedict "msgType" in
    if value_is_str mt "Error" then
      let* n := Py.int hexData in
      let* err := loc (Errors sch) n in
      Ok (<["ErrorCommand" := err]> linedict)
    else Ok linedict.

(** [(hi << 8) | lo]. *)
Definition be16 (hi lo : Z) : Z := Z.lor (Z.shiftl hi 8) lo.

(** Lines 80-93: the dictionary literal, its values evaluated in order. *)
Definition flyer_signals (data_bytes : list Z) : result (list (string * value)) :=
  let* b0 := Py.getitem data_bytes 0 in
  let* b1 := Py.getitem data_bytes 1 in
  let* b2 := Py.getitem data_bytes 2 in
  let* b3 := Py.getitem data_bytes 3 in
  let* b4 := Py.getitem data_bytes 4 in
  let* b5 := Py.getitem data_bytes 5 in
  let* b6 := Py.getitem data_bytes 6 in
  let* b7 := Py.getitem data_bytes 7 in
  let* b8 := Py.getitem data_bytes 8 in
  let* b9 := Py.getitem data_bytes 9 in
  let* b10 := Py.getitem data_bytes 10 in
  let* b11 := Py.getitem data_bytes 11 in
  let* b12 := Py.getitem data_bytes 12 in
  let* b13 := Py.getitem data_bytes 13 in
  let* b14 := Py.getitem data_bytes 14 in
  let* b15 := Py.getitem data_bytes 15 in
  let* b16 := Py.getitem data_bytes 16 in
  let* b17 := Py.getitem data_bytes 17 in
  let* b18 := Py.getitem data_bytes 18 in
  let* b19 := Py.getitem data_bytes 19 in
  Ok [ ("targetPosition", VFloat (Py.truediv_100 (be16 b0 b1)));
       ("presentPosition", VFloat (Py.truediv_100 (be16 b2 b3)));
       ("presentRPM", VInt (be16 b4 b5));
       ("appliedDuty", VInt (be16 b6 b7));
       ("FETtemp", VInt b8);
       ("MOTtemp", VInt b9);
       ("busCurrentADC", VInt (be16 b10 b11));
       ("busVoltageADC", VInt (be16 b12 b13));
       ("liftDirection", VInt b14);
       ("GBPresentPosition", VFloat (Py.truediv_100 (be16 b15 b16)));
       ("encPresentPosition", VFloat (Py.truediv_100 (be16 b17 b18)));
       ("usingPosition", VInt b19) ].

(** Lines 98-103, on the two lower-cased names. *)
Definition lift_side (src dst : string) : string :=
  if Py.contains "right" src || Py.contains "right" dst then "Right Lift"
  else if Py.contains "left" src || Py.contains "left" dst then "Left Lift"
  else "Unknown Lift".

(** Lines 96-103: the names are read with [linedict.get(.., "")]. *)
Definition derive_lift_side (linedict : gmap string value)
  : result (gmap string value) :=
  let* src := value_lower (dict_get linedict "source" (VStr "")) in
  let* dst := value_lower (dict_get linedict "dst" (VStr "")) in
  Ok (<["LiftSide" := VStr (lift_side src dst)]> linedict).

(** Lines 78-106: the body of the inner [try]. [linedict] is mutated in
    place, so what was stored before an exception stays: the result is the
    dictionary after the block and the exception caught, if any. *)
Definition flyer_try (hexData : string) (linedict : gmap string value)
  : gmap string value * option exn :=
  match (let* data_bytes := Py.fromhex hexData in flyer_signals data_bytes) with
  | Raise e => (linedict, Some e)
  | Ok signals =>
      let linedict := dict_update linedict signals in
      match derive_lift_side linedict with
      | Raise e => (linedict, Some e)
      | Ok linedict => (linedict, None)
      end
  end.

(** Lines 77-106. *)
Definition flyer_block (machine : machine_type) (hexData : string)
    (linedict : gmap string value) : gmap string value * list warning :=
  if bool_decide (machine = FLYER) && (40 <=? Py.len hexData) then
    match flyer_try hexData linedict with
    | (linedict, Some e) => (linedict, [FlyerDecodingError e])
    | (linedict, None) => (linedict, [])
    end
  else (linedict, []).

(** Lines 63-67. *)
Definition machineIDs (sch : schema) (machine : machine_type) : gmap string value :=
  match machine with
  | CARDING => CardingAddressIDs sch
  | DF => DFAddressIDs sch
  | FLYER => FlyerAddressIDs sch
  end.

(** Lines 45-106: the body of the outer [try], up to the [append]. *)
Definition parse_line (sch : schema) (machine : machine_type) (splits : list string)
  : result (gmap string value * list warning) :=
  let* tok0 := Py.getitem splits 0 in
  let date := Py.slice tok0 (Some 1) None in
  let* tok1 := Py.getitem splits 1 in
  let time := Py.slice tok1 None (Some (-1)) in
  let* extID := Py.getitem splits 3 in
  let* hexData := Py.getitem splits 4 in
  let '(fID, dst, source) := id_codes extID in
  let* msgType := loc (functionIDs sch) fID in
  let linedict :=
    dict_update ∅ [ ("date", VStr date); ("time", VStr time); ("extID", VStr extID);
                    ("hexData", VStr hexData); ("msgType", msgType) ] in
  let* srcName := loc (machineIDs sch machine) source in
  let linedict := <["source" := srcName]> linedict in
  let* dstName := loc (machineIDs sch machine) dst in
  let linedict := <["dst" := dstName]> linedict in
  let* linedict := message_branch sch hexData linedict in
  Ok (flyer_block machine hexData linedict).

(** What one line does to the run. *)
Inductive outcome : Type :=
  | Ignored
  | Skipped (w : warning)
  | Emitted (linedict : gmap string value) (ws : list warning).

(** Lines 42-110. *)
Definition process_line (sch : schema) (machine : machine_type) (line : string)
  : outcome :=
  let splits := Py.split " " line in
  if Py.contains_item "rcv" splits then
    match parse_line sch machine splits with
    | Ok (linedict, ws) => Emitted linedict ws
    | Raise e => Skipped (LineParsingError e)
    end
  else Ignored.

(** The state the loop threads: [allDicts] and the warnings shown so far. *)
Record run_state : Type := {
  allDicts : list (gmap string value);
  warnings : list warning
}.

Definition run_step (sch : schema) (machine : machine_type) (st : run_state)
    (line : string) : run_state :=
  match process_line sch machine line with
  | Ignored => st
  | Skipped w => {| allDicts := allDicts st; warnings := warnings st ++ [w] |}
  | Emitted linedict ws =>
      {| allDicts := allDicts st ++ [linedict]; warnings := warnings st ++ ws |}
  end.

(** Lines 40-110. *)
Definition decode_log (sch : schema) (machine : machine_type) (lines : list string)
  : run_state :=
  foldl (run_step sch machine) {| allDicts := []; warnings := [] |} lines.

(** Lines 38-110: the decoded text of the upload, cut into lines and decoded. *)
Definition decode_upload (sch : schema) (machine : machine_type) (text : string)
  : run_state :=
  decode_log sch machine (Py.splitlines text).

(** ** The table of records (lines 112-148)

    [pd.DataFrame(allDicts)] has one row per record and one column per key
    that some record has; a row has no value in the columns of the keys it
    lacks. The rows are kept as the records themselves. *)

(** [col in df.columns]. *)
Definition df_has_column (rows : list (gmap string value)) (col : string) : bool :=
  existsb (fun r => bool_decide (is_Some (r !! col))) rows.

(** One entry of the mask [df[col] == label]: a missing value equals nothing. *)
Definition cell_is (r : gmap string value) (col label : string) : bool :=
  match r !! col with
  | Some v => value_is_str v label
  | None => false
  end.

(** [df[df[col] == label]]: the rows of the mask, in their order. *)
Definition df_where (rows : list (gmap string value)) (col label : string)
  : list (gmap string value) :=
  filter (fun r => cell_is r col label = true) rows.

(** Lines 121-123: the two sheets of the export, [(right_df, left_df)], when
    the export is offered. *)
Definition lift_sheets (rows : list (gmap string value))
  : option (list (gmap string value) * list (gmap string value)) :=
  if df_has_column rows "LiftSide" then
    Some (df_where rows "LiftSide" "Right Lift", df_where rows "LiftSide" "Left Lift")
  else None.

(** Lines 141-148: [filtered_df] for the choice [lift_filter] of the select
    box, which is asked for only when the column is there. *)
Definition filtered_df (rows : list (gmap string value)) (lift_filter : string)
  : list (gmap string value) :=
  if df_has_column rows "LiftSide" then
    if bool_decide (lift_filter ≠ "All") then df_where rows "LiftSide" lift_filter
    else rows
  else rows.

(** The tokenizer as the specification words it: the line is split on white
    space (runs of blanks, tabs and the like separate, and give no token). *)
Definition whitespace_tokens (line : string) : list string := String.words line.

(** ** Sample data *)

Definition sample_schema : schema := {|
  functionIDs := {[ "01" := VStr "Telemetry"; "02" := VStr "Operation";
                    "03" := VStr "Error" ]};
  CardingAddressIDs := {[ "02" := VStr "Controller"; "03" := VStr "Right Motor" ]};
  DFAddressIDs := {[ "02" := VStr "Controller"; "03" := VStr "Right Motor" ]};
  FlyerAddressIDs := {[ "02" := VStr "Controller"; "03" := VStr "Right Motor";
                        "04" := VStr "left_sensor"; "05" := VStr "Main";
                        "06" := VFloat PrimFloat.nan; "07" := VInt 7 ]};
  Operations := {[ "0001" := VStr "Start" ]};
  Errors := {[ 12 := VStr "Overcurrent" ]}
|}.

Definition sample_line : string :=
  "[2024-01-01 12:00:00] rcv 0x010203 0102030405060708090A0B0C0D0E0F1011121314".

(** The same frame from a node that is not in the address tables. *)
Definition line_unknown_source : string :=
  "[2024-01-01 12:00:00] rcv 0x010209 0102030405060708090A0B0C0D0E0F1011121314".

(** A frame whose identifier has five characters. *)
Definition line_short_id : string := "[2024-01-01 12:00:00] rcv 10203 00".

(** An error frame whose payload is not a decimal number. *)
Definition line_error_hex : string := "[2024-01-01 12:00:00] rcv 0x030203 0A".

(** An error frame whose payload is the decimal number of a known error. *)
Definition line_error_12 : string := "[2024-01-01 12:00:00] rcv 0x030203 12".

(** A frame with a payload of five bytes. *)
Definition line_short_payload : string :=
  "[2024-01-01 12:00:00] rcv 0x010203 0102030405".

(** A frame whose payload has 40 characters that are not all hexadecimal. *)
Definition line_bad_payload : string :=
  "[2024-01-01 12:00:00] rcv 0x010203 0102030405060708090A0B0C0D0E0F10111213ZZ".

(** A line of three tokens. *)
Definition line_three_tokens : string := "[2024-01-01 12:00:00] rcv".

(** [sample_line] with tabs for blanks. *)
Definition tab : string := String (Py.chr 9) "".
Definition line_tabs : string :=
  "[2024-01-01" +:+ tab +:+ "12:00:00]" +:+ tab +:+ "rcv" +:+ tab +:+ "0x010203"
  +:+ tab +:+ "0102030405060708090A0B0C0D0E0F1011121314".

(** The header fields of [sample_line]. *)
Definition sample_header : gmap string value :=
  dict_update ∅
    [ ("date", VStr "2024-01-01"); ("time", VStr "12:00:00");
      ("extID", VStr "0x010203");
      ("hexData", VStr "0102030405060708090A0B0C0D0E0F1011121314");
      ("msgType", VStr "Telemetry"); ("source", VStr "Right Motor");
      ("dst", VStr "Controller") ].

(** The record the FLYER variant makes of [sample_line]. *)
Definition sample_record : gmap string value :=
  <["LiftSide" := VStr "Right Lift"]>
    (dict_update
       (dict_update ∅
          [ ("date", VStr "2024-01-01"); ("time", VStr "12:00:00");
            ("extID", VStr "0x010203");
            ("hexData", VStr "0102030405060708090A0B0C0D0E0F1011121314");
            ("msgType", VStr "Telemetry"); ("source", VStr "Right Motor");
            ("dst", VStr "Controller") ])
       [ ("targetPosition", VFloat 2.58%float); ("presentPosition", VFloat 7.72%float);
         ("presentRPM", VInt 1286); ("appliedDuty", VInt 1800);
         ("FETtemp", VInt 9); ("MOTtemp", VInt 10);
         ("busCurrentADC", VInt 2828); ("busVoltageADC", VInt 3342);
         ("liftDirection", VInt 15); ("GBPresentPosition", VFloat 41.13%float);
         ("encPresentPosition", VFloat 46.27%float); ("usingPosition", VInt 20) ]).

(** A FLYER frame whose source code [06] is in the address table with an
    empty name cell. *)
Definition line_empty_name : string :=
  "[2024-01-01 12:00:00] rcv 0x010206 0102030405060708090A0B0C0D0E0F1011121314".

(** ** Notions used to state the properties *)

(** [sub] occurs in [s]. *)
Definition occurs_in (sub s : string) : Prop :=
  ∃ pre post, s = pre +:+ sub +:+ post.

(** [c] is the letter [l] as it is, or [l] is one of the small letters a to z
    and [c] is its capital. *)
Definition letter_any_case (l c : ascii) : Prop :=
  c = l ∨ (97 <= Py.ord l <= 122 ∧ Py.ord c = Py.ord l - 32).

(** [sub] spells the word [w], each letter small or capital. *)
Fixpoint spells_any_case (w sub : string) : Prop :=
  match w, sub with
  | EmptyString, EmptyString => True
  | String l w', String c sub' => letter_any_case l c ∧ spells_any_case w' sub'
  | _, _ => False
  end.

(** [s] holds the word [w] in some mix of upper and lower case. *)
Definition occurs_any_case (w s : string) : Prop :=
  ∃ sub, spells_any_case w sub ∧ occurs_in sub s.

(** The word [w] is made of the small letters a to z. *)
Fixpoint small_letters (w : string) : bool :=
  match w with
  | EmptyString => true
  | String l w' => (97 <=? Py.ord l) && (Py.ord l <=? 122) && small_letters w'
  end.

(** The two names of the dictionary are text. *)
Definition names_are_text (d : gmap string value) : Prop :=
  ∃ src dst, d !! "source" = Some (VStr src) ∧ d !! "dst" = Some (VStr dst).

(** The values of a [bytes] object. *)
Definition is_byte (b : Z) : Prop := 0 <= b < 256.

(** The quotient of [n] by [100.0] lies between [0.0] and [655.35]. *)
Definition scaled_in_range (n : Z) : bool :=
  PrimFloat.leb 0%float (Py.truediv_100 n) &&
  PrimFloat.leb (Py.truediv_100 n) 655.35%float.

(** [f] holds of [count] integers in a row, from [start] on. *)
Fixpoint all_from (f : Z → bool) (start : Z) (count : nat) : bool :=
  match count with
  | O => true
  | S count' => f start && all_from f (start + 1) count'
  end.

(** [linedict] when line 72 is reached. *)
Definition header_dict (date time extID hexData : string)
    (msgType srcName dstName : value) : gmap string value :=
  <["dst" := dstName]>
    (<["source" := srcName]>
       (dict_update ∅ [ ("date", VStr date); ("time", VStr time);
                        ("extID", VStr extID); ("hexData", VStr hexData);
                        ("msgType", msgType) ])).

(** The items line 80 stores for the payload bytes [b 0 .. b 19]. *)
Definition signal_items (b : nat → Z) : list (string * value) :=
  [ ("targetPosition", VFloat (Py.truediv_100 (be16 (b 0%nat) (b 1%nat))));
    ("presentPosition", VFloat (Py.truediv_100 (be16 (b 2%nat) (b 3%nat))));
    ("presentRPM", VInt (be16 (b 4%nat) (b 5%nat)));
    ("appliedDuty", VInt (be16 (b 6%nat) (b 7%nat)));
    ("FETtemp", VInt (b 8%nat));
    ("MOTtemp", VInt (b 9%nat));
    ("busCurrentADC", VInt (be16 (b 10%nat) (b 11%nat)));
    ("busVoltageADC", VInt (be16 (b 12%nat) (b 13%nat)));
    ("liftDirection", VInt (b 14%nat));
    ("GBPresentPosition", VFloat (Py.truediv_100 (be16 (b 15%nat) (b 16%nat))));
    ("encPresentPosition", VFloat (Py.truediv_100 (be16 (b 17%nat) (b 18%nat))));
    ("usingPosition", VInt (b 19%nat)) ].

(** The keys of the payload signals. *)
Definition signal_keys : list string :=
  [ "targetPosition"; "presentPosition"; "presentRPM"; "appliedDuty"; "FETtemp";
    "MOTtemp"; "busCurrentADC"; "busVoltageADC"; "liftDirection";
    "GBPresentPosition"; "encPresentPosition"; "usingPosition" ].

(** The keys stored for every record. *)
Definition header_keys : list string :=
  [ "date"; "time"; "extID"; "hexData"; "msgType"; "source"; "dst" ].

(** What the payload block leaves, for a dictionary that holds both names:
    nothing when its guard is false, a warning when the payload does not
    give 20 bytes; otherwise the signals, with the lift side when both names
    are text and with a warning when one is not. *)
Inductive flyer_result (machine : machine_type) (hexData : string)
    (d : gmap string value) : gmap string value → list warning → Prop :=
  | flyer_off :
      ¬ (machine = FLYER ∧ 40 <= Py.len hexData) →
      flyer_result machine hexData d d []
  | flyer_bad_hex e :
      machine = FLYER → 40 <= Py.len hexData →
      Py.fromhex hexData = Raise e →
      flyer_result machine hexData d d [FlyerDecodingError e]
  | flyer_short bs :
      machine = FLYER → 40 <= Py.len hexData →
      Py.fromhex hexData = Ok bs → (length bs < 20)%nat →
      flyer_result machine hexData d d [FlyerDecodingError IndexError]
  | flyer_decoded bs src dst :
      machine = FLYER → 40 <= Py.len hexData →
      Py.fromhex hexData = Ok bs → (20 ≤ length bs)%nat →
      d !! "source" = Some (VStr src) → d !! "dst" = Some (VStr dst) →
      flyer_result machine hexData d
        (<["LiftSide" := VStr (lift_side (Py.lower src) (Py.lower dst))]>
           (dict_update d (signal_items (fun i => nth i bs 0))))
        []
  | flyer_names_not_text bs :
      machine = FLYER → 40 <= Py.len hexData →
      Py.fromhex hexData = Ok bs → (20 ≤ length bs)%nat →
      ¬ names_are_text d →
      flyer_result machine hexData d
        (dict_update d (signal_items (fun i => nth i bs 0)))
        [FlyerDecodingError AttributeError].

(** The signals by the way they are decoded. *)
Definition byte_signal_keys : list string :=
  [ "FETtemp"; "MOTtemp"; "liftDirection"; "usingPosition" ].
Definition word_signal_keys : list string :=
  [ "presentRPM"; "appliedDuty"; "busCurrentADC"; "busVoltageADC" ].
Definition scaled_signal_keys : list string :=
  [ "targetPosition"; "presentPosition"; "GBPresentPosition"; "encPresentPosition" ].

(** The record a line adds to [allDicts], if any. *)
Definition record_of (sch : schema) (machine : machine_type) (line : string)
  : option (gmap string value) :=
  match process_line sch machine line with
  | Emitted r _ => Some r
  | _ => None
  end.

(** The warnings a line adds to the run. *)
Definition warnings_of (sch : schema) (machine : machine_type) (line : string)
  : list warning :=
  match process_line sch machine line with
  | Ignored => []
  | Skipped w => [w]
  | Emitted _ ws => ws
  end.

(** The line has the token [rcv]. *)
Definition is_candidate (line : string) : bool :=
  Py.contains_item "rcv" (Py.split " " line).

(** The warning of a skipped line, as opposed to that of an undecoded payload. *)
Definition is_line_error (w : warning) : bool :=
  match w with
  | LineParsingError _ => true
  | FlyerDecodingError _ => false
  end.

(** Every character of [s] is a hexadecimal digit. *)
Fixpoint all_hex (s : string) : bool :=
  match s with
  | EmptyString => true
  | String c s' => match Py.hex_value c with Some _ => all_hex s' | None => false end
  end.

(** The byte that the characters [2 i] and [2 i + 1] of [s] spell, if they
    are there and are hexadecimal digits. *)
Definition hex_pair_at (s : string) (i : nat) : option Z :=
  match String.get (2 * i) s, String.get (2 * i + 1) s with
  | Some c1, Some c2 =>
      match Py.hex_value c1, Py.hex_value c2 with
      | Some d1, Some d2 => Some (16 * d1 + d2)
      | _, _ => None
      end
  | _, _ => None
  end.

(** [s] has a character that is neither a hexadecimal digit nor ASCII white
    space. *)
Fixpoint has_non_hex (s : string) : bool :=
  match s with
  | EmptyString => false
  | String c s' =>
      (match Py.hex_value c with Some _ => false | None => negb (Py.is_ascii_space c) end)
      || has_non_hex s'
  end.

(** All the keys a record can have. *)
Definition record_keys : list string :=
  header_keys ++ ["OperationCommand"; "ErrorCommand"] ++ "LiftSide" :: signal_keys.

(** One of the two names of the record holds the word [w], in any mix of
    upper and lower case. *)
Definition names_hold (w : string) (r : gmap string value) : Prop :=
  ∃ src dst, r !! "source" = Some (VStr src) ∧ r !! "dst" = Some (VStr dst) ∧
             (occurs_any_case w src ∨ occurs_any_case w dst).

(** No character of [s] breaks a line. *)
Fixpoint no_linebreak (s : string) : bool :=
  match s with
  | EmptyString => true
  | String c s' => negb (Py.is_linebreak c) && no_linebreak s'
  end.

(** The text made of the lines [ls], each followed by the ending [ending]. *)
Fixpoint text_of_lines (ending : string) (ls : list string) : string :=
  match ls with
  | [] => EmptyString
  | l :: ls' => l +:+ ending +:+ text_of_lines ending ls'
  end.

(** Line feed, and carriage return with line feed. *)
Definition LF : string := String (Py.chr 10) "".
Definition CRLF : string := String (Py.chr 13) (String (Py.chr 10) "").

(** The body of [int] after the white space and the sign. *)
Definition int_body (sign : Z) (t : string) : result Z :=
  match t with
  | EmptyString => Raise ValueError
  | String c _ =>
      match Py.dec_value c with
      | Some _ => let* v := Py.int_digits t 0 0 false in Ok (sign * v)
      | None => Raise ValueError
      end
  end.

(** The characters a base-10 literal can hold: digits, the underscore, the
    signs and white space. *)
Definition is_decimal_char (c : ascii) : bool :=
  match Py.dec_value c with
  | Some _ => true
  | None =>
      bool_decide (c = "_"%char) || Py.is_int_space c
      || bool_decide (c = "+"%char) || bool_decide (c = "-"%char)
  end.

(** [s] holds a character that no base-10 literal can hold. *)
Fixpoint has_non_decimal (s : string) : bool :=
  match s with
  | EmptyString => false
  | String c s' => negb (is_decimal_char c) || has_non_decimal s'
  end.

(** The exponent and the mantissa of a float, as one integer. *)
Definition float_key (f : float) : Z :=
  let '(m, e) := PrimFloat.frshiftexp f in
  Uint63.to_Z e * 2 ^ 53 + Uint63.to_Z (PrimFloat.normfr_mantissa m).

(** The key of the quotient of [n + 1] is above that of [n]. *)
Definition scaled_key_grows (n : Z) : bool :=
  float_key (Py.truediv_100 n) <? float_key (Py.truediv_100 (n + 1)).


(** [rest] is [tok] without its first character. *)
Definition drop_first_char (tok rest : string) : Prop :=
  (tok = "" ∧ rest = "") ∨ ∃ c, tok = String c rest.

(** [rest] is [tok] without its last character. *)
Definition drop_last_char (tok rest : string) : Prop :=
  (tok = "" ∧ rest = "") ∨ ∃ c, tok = rest +:+ String c "".

(** ** The built-ins on small inputs *)

Example split_ex1 :
  Py.split " " "[2024-01-01 12:00:00] rcv 0x010203 0102" =
  ["[2024-01-01"; "12:00:00]"; "rcv"; "0x010203"; "0102"].
Proof. reflexivity. Qed.
Example split_ex2 : Py.split " " "a  b" = ["a"; ""; "b"].
Proof. reflexivity. Qed.
Example split_ex3 : Py.split " " "" = [""].
Proof. reflexivity. Qed.
Example slice_ex1 : Py.slice "0x010203" (Some (-6)) (Some (-4)) = "01".
Proof. reflexivity. Qed.
Example slice_ex2 : Py.slice "10203" (Some (-6)) (Some (-4)) = "1".
Proof. reflexivity. Qed.
Example slice_ex3 : Py.slice "0203" (Some (-6)) (Some (-4)) = "".
Proof. reflexivity. Qed.
Example slice_ex4 : Py.slice "[2024" (Some 1) None = "2024".
Proof. reflexivity. Qed.
Example slice_ex5 : Py.slice "12:00]" None (Some (-1)) = "12:00".
Proof. reflexivity. Qed.
Example int_ex1 : Py.int "0012" = Ok 12.
Proof. reflexivity. Qed.
Example int_ex2 : Py.int "0A" = Raise ValueError.
Proof. reflexivity. Qed.
Example int_ex3 : Py.int "-1_000" = Ok (-1000).
Proof. reflexivity. Qed.
Example int_ex4 : Py.int "1__0" = Raise ValueError.
Proof. reflexivity. Qed.
Example int_ex5 : Py.int "" = Raise ValueError.
Proof. reflexivity. Qed.
Example fromhex_ex1 : Py.fromhex "0102ff" = Ok [1; 2; 255].
Proof. reflexivity. Qed.
Example fromhex_ex2 : Py.fromhex "012" = Raise ValueError.
Proof. reflexivity. Qed.
Example lower_ex1 : Py.lower "Right Motor" = "right motor".
Proof. reflexivity. Qed.
Example truediv_ex1 : Py.truediv_100 258 = 2.58%float.
Proof. reflexivity. Qed.

(** ** Facts about the built-ins *)

(** A decidable closed proposition, by evaluating its decision. *)
Ltac by_evaluation := apply (bool_decide_unpack _); vm_compute; exact I.

Section PyFacts.

Lemma app_cons c s t : String c s +:+ t = String c (s +:+ t).
Proof. reflexivity. Qed.

Lemma app_assoc_str s t u : (s +:+ t) +:+ u = s +:+ t +:+ u.
Proof. induction s as [|c s IH]; [reflexivity | by rewrite !app_cons, IH]. Qed.

Lemma len_length s : Py.len s = Z.of_nat (String.length s).
Proof. induction s as [|c s IH]; simpl; [reflexivity | rewrite IH; lia]. Qed.

Lemma len_nonneg s : 0 <= Py.len s.
Proof. rewrite len_length. lia. Qed.

Lemma len_app s t : Py.len (s +:+ t) = Py.len s + Py.len t.
Proof. induction s as [|c s IH]; simpl; [reflexivity | rewrite IH; lia]. Qed.

Lemma len_zero s : Py.len s = 0 → s = "".
Proof. destruct s; simpl; [reflexivity | pose proof (len_nonneg s); lia]. Qed.

Lemma str_drop_app p t : Py.str_drop (String.length p) (p +:+ t) = t.
Proof. induction p as [|c p IH]; simpl; [by destruct t | exact IH]. Qed.

Lemma str_take_app p t : Py.str_take (String.length p) (p +:+ t) = p.
Proof. induction p as [|c p IH]; simpl; [reflexivity | by rewrite IH]. Qed.

Lemma str_take_all s : Py.str_take (String.length s) s = s.
Proof. induction s as [|c s IH]; simpl; [reflexivity | by rewrite IH]. Qed.

Lemma str_take_drop n s : Py.str_take n s +:+ Py.str_drop n s = s.
Proof.
  revert s. induction n as [|n IH]; intros [|c s]; simpl; try reflexivity.
  by rewrite app_cons, IH.
Qed.

Lemma length_str_drop n s :
  String.length (Py.str_drop n s) = (String.length s - n)%nat.
Proof.
  revert s. induction n as [|n IH]; intros [|c s]; simpl; try lia. apply IH.
Qed.

Lemma length_str_take n s :
  String.length (Py.str_take n s) = Nat.min n (String.length s).
Proof.
  revert s. induction n as [|n IH]; intros [|c s]; simpl; try lia.
  rewrite IH. reflexivity.
Qed.

(** A string of at least [k] characters ends in a suffix of exactly [k]. *)
Lemma split_suffix (k : Z) s :
  0 <= k → k <= Py.len s → ∃ p t, s = p +:+ t ∧ Py.len t = k.
Proof.
  intros Hk Hle. rewrite len_length in Hle.
  exists (Py.str_take (String.length s - Z.to_nat k) s),
         (Py.str_drop (String.length s - Z.to_nat k) s).
  split; [by rewrite str_take_drop |].
  rewrite len_length, length_str_drop. lia.
Qed.

(** A string of exactly [j + k] characters is a prefix of [j] and a suffix
    of [k] characters. *)
Lemma split_exact (j k : Z) s :
  0 <= j → 0 <= k → Py.len s = j + k →
  ∃ p t, s = p +:+ t ∧ Py.len p = j ∧ Py.len t = k.
Proof.
  intros Hj Hk Hs. destruct (split_suffix k s) as (p & t & -> & Ht); [lia..|].
  exists p, t. rewrite len_app in Hs. repeat split; [lia | done].
Qed.

(** [s[-a:-b]] of [s = p + m + t] with [len t = b] and [len m = a - b]. *)
Lemma slice_window p m t (a b : Z) :
  Py.len t = b → Py.len m = a - b → 0 < b → b < a →
  Py.slice (p +:+ m +:+ t) (Some (- a)) (Some (- b)) = m.
Proof.
  intros Ht Hm Hb Hab. unfold Py.slice, Py.adjust_index.
  rewrite !len_app, Ht, Hm.
  pose proof (len_nonneg p) as Hp.
  replace (- a <? 0) with true by (symmetry; apply Z.ltb_lt; lia).
  replace (- b <? 0) with true by (symmetry; apply Z.ltb_lt; lia).
  replace (Z.max 0 (- a + (Py.len p + (a - b + b)))) with (Py.len p) by lia.
  replace (Z.max 0 (- b + (Py.len p + (a - b + b)))) with (Py.len p + (a - b)) by lia.
  replace (Py.len p <? Py.len p + (a - b)) with true
    by (symmetry; apply Z.ltb_lt; lia).
  replace (Py.len p + (a - b) - Py.len p) with (Py.len m) by lia.
  rewrite !len_length, !Nat2Z.id, str_drop_app. apply str_take_app.
Qed.

(** [s[-b:]] of [s = p + t] with [len t = b]. *)
Lemma slice_suffix p t (b : Z) :
  Py.len t = b → 0 < b → Py.slice (p +:+ t) (Some (- b)) None = t.
Proof.
  intros Ht Hb. unfold Py.slice, Py.adjust_index.
  rewrite !len_app, Ht.
  pose proof (len_nonneg p) as Hp.
  replace (- b <? 0) with true by (symmetry; apply Z.ltb_lt; lia).
  replace (Z.max 0 (- b + (Py.len p + b))) with (Py.len p) by lia.
  replace (Py.len p <? Py.len p + b) with true by (symmetry; apply Z.ltb_lt; lia).
  replace (Py.len p + b - Py.len p) with (Py.len t) by lia.
  rewrite !len_length, !Nat2Z.id, str_drop_app. apply str_take_all.
Qed.

(** [s[1:]] drops the first character, if there is one. *)
Lemma slice_from_1 s :
  Py.slice s (Some 1) None = match s with String _ s' => s' | EmptyString => "" end.
Proof.
  unfold Py.slice, Py.adjust_index. destruct s as [|c s]; [reflexivity |].
  cbn [Py.len]. pose proof (len_nonneg s) as Hs.
  replace (1 <? 0) with false by reflexivity.
  replace (Z.min 1 (1 + Py.len s)) with 1 by lia.
  destruct (1 <? 1 + Py.len s) eqn:E.
  - replace (1 + Py.len s - 1) with (Py.len s) by lia.
    change (Z.to_nat 1) with 1%nat. cbn [Py.str_drop].
    rewrite len_length, Nat2Z.id. apply str_take_all.
  - apply Z.ltb_ge in E. symmetry. apply len_zero. lia.
Qed.

(** [s[:-1]] drops the last character, if there is one. *)
Lemma slice_to_last s c :
  Py.slice (s +:+ String c "") None (Some (-1)) = s.
Proof.
  unfold Py.slice, Py.adjust_index. rewrite len_app. cbn [Py.len].
  pose proof (len_nonneg s) as Hs.
  replace (-1 <? 0) with true by reflexivity.
  replace (Z.max 0 (-1 + (Py.len s + (1 + 0)))) with (Py.len s) by lia.
  destruct (0 <? Py.len s) eqn:E.
  - replace (Py.len s - 0) with (Py.len s) by lia.
    change (Z.to_nat 0) with 0%nat. cbn [Py.str_drop].
    rewrite len_length, Nat2Z.id. apply str_take_app.
  - apply Z.ltb_ge in E. symmetry. apply len_zero. lia.
Qed.

Lemma slice_empty lo hi : Py.slice "" lo hi = "".
Proof.
  unfold Py.slice. destruct (_ <? _); [|reflexivity].
  by destruct (Z.to_nat _), (Z.to_nat _).
Qed.

End PyFacts.

Section SubstringFacts.

Lemma startswith_spec p s :
  Py.startswith p s = true ↔ ∃ post, s = p +:+ post.
Proof.
  revert s. induction p as [|a p IH]; intros s; simpl.
  - split; [intros _; by exists s | done].
  - destruct s as [|b s].
    + split; [done | intros [post Hpost]; by rewrite app_cons in Hpost].
    + rewrite andb_true_iff, bool_decide_eq_true, IH. split.
      * intros [-> [post ->]]. by exists post.
      * intros [post Hpost]. rewrite app_cons in Hpost.
        injection Hpost as -> ->. eauto.
Qed.

Lemma contains_spec sub s : Py.contains sub s = true ↔ occurs_in sub s.
Proof.
  unfold occurs_in. induction s as [|c s IH]; simpl.
  - rewrite orb_false_r, startswith_spec. split.
    + intros [post Hpost]. by exists "", post.
    + intros ([|c pre] & post & Hs); [by exists post | by rewrite app_cons in Hs].
  - rewrite orb_true_iff, startswith_spec, IH. split.
    + intros [[post Hpost] | (pre & post & ->)].
      * by exists "", post.
      * by exists (String c pre), post.
    + intros ([|c' pre] & post & Hs).
      * left. by exists post.
      * right. rewrite app_cons in Hs. injection Hs as -> ->. eauto.
Qed.

Lemma lower_app s t : Py.lower (s +:+ t) = Py.lower s +:+ Py.lower t.
Proof.
  induction s as [|c s IH]; [reflexivity |].
  rewrite app_cons. simpl. by rewrite IH, app_cons.
Qed.

Lemma lower_app_inv s a b :
  Py.lower s = a +:+ b → ∃ a' b', s = a' +:+ b' ∧ Py.lower a' = a ∧ Py.lower b' = b.
Proof.
  revert s. induction a as [|c a IH]; intros s Hs.
  - by exists "", s.
  - destruct s as [|c' s]; [done |]. rewrite app_cons in Hs. simpl in Hs.
    injection Hs as Hc Hs. destruct (IH _ Hs) as (a' & b' & -> & <- & <-).
    exists (String c' a'), b'. by rewrite <- Hc.
Qed.

Lemma ord_range c : 0 <= Py.ord c < 256.
Proof. unfold Py.ord. pose proof (N_ascii_bounded c). lia. Qed.

Lemma ord_inj c c' : Py.ord c = Py.ord c' → c = c'.
Proof.
  unfold Py.ord. intros H%(inj Z.of_N).
  by rewrite <- (ascii_N_embedding c), <- (ascii_N_embedding c'), H.
Qed.

Lemma ord_chr n : 0 <= n < 256 → Py.ord (Py.chr n) = n.
Proof.
  intros Hn. unfold Py.ord, Py.chr. rewrite N_ascii_embedding by lia. lia.
Qed.

(** What [lower] sends to a small letter: the letter and its capital. *)
Lemma lower_char_small l c :
  97 <= Py.ord l <= 122 → Py.lower_char c = l ↔ letter_any_case l c.
Proof.
  intros Hl. unfold Py.lower_char, letter_any_case.
  pose proof (ord_range c) as Hc.
  destruct (((65 <=? Py.ord c) && (Py.ord c <=? 90))
            || ((192 <=? Py.ord c) && (Py.ord c <=? 222) && negb (Py.ord c =? 215)))
    eqn:Hup.
  - assert (65 <= Py.ord c <= 90 ∨ 192 <= Py.ord c <= 222) as Hrange by lia.
    split.
    + intros Heq. right. split; [done |].
      apply (f_equal Py.ord) in Heq. rewrite ord_chr in Heq by lia. lia.
    + intros [-> | [_ Heq]]; [lia |].
      apply ord_inj. rewrite ord_chr by lia. lia.
  - split; [by left |]. intros [-> | [_ Heq]]; [done | lia].
Qed.

(** For a word of small letters, the strings that [lower] sends to the word
    are those that spell it in some mix of cases. *)
Lemma lower_spells w sub :
  small_letters w = true → Py.lower sub = w ↔ spells_any_case w sub.
Proof.
  revert sub. induction w as [|l w IH]; intros [|c sub] Hw; cbn; try done.
  cbn [small_letters] in Hw.
  apply andb_true_iff in Hw as [Hl Hw]. apply andb_true_iff in Hl as [Hl1 Hl2].
  rewrite <- (IH sub Hw), <- (lower_char_small l c) by lia.
  split; [by intros [= -> ->] | by intros [-> ->]].
Qed.

(** Containment in the lower-cased string is containment in any case. *)
Lemma contains_lower w s :
  small_letters w = true →
  Py.contains w (Py.lower s) = true ↔ occurs_any_case w s.
Proof.
  intros Hw. rewrite contains_spec. unfold occurs_any_case, occurs_in. split.
  - intros (pre & post & Hs).
    apply lower_app_inv in Hs as (pre' & rest & -> & _ & Hrest).
    apply lower_app_inv in Hrest as (sub & post' & -> & Hsub & _).
    exists sub. split; [by apply lower_spells | by exists pre', post'].
  - intros (sub & Hsub%lower_spells & pre & post & ->); [|done].
    exists (Py.lower pre), (Py.lower post). by rewrite !lower_app, Hsub.
Qed.

End SubstringFacts.

Section ByteFacts.

Lemma digit_value_nonneg c d : Py.digit_value c = Some d → 0 <= d.
Proof.
  unfold Py.digit_value. generalize (Py.ord c). intros n.
  destruct ((48 <=? n) && (n <=? 57)) eqn:E1;
    [|destruct ((97 <=? n) && (n <=? 122)) eqn:E2;
      [|destruct ((65 <=? n) && (n <=? 90)) eqn:E3]];
    intros [= <-]; lia.
Qed.

Lemma hex_value_range c d : Py.hex_value c = Some d → 0 <= d < 16.
Proof.
  unfold Py.hex_value. destruct (Py.digit_value c) as [d'|] eqn:Hd; [|done].
  destruct (d' <? 16) eqn:Hlt; [|done]. intros [= <-].
  apply Z.ltb_lt in Hlt. apply digit_value_nonneg in Hd. lia.
Qed.

(** The recursion of [fromhex] skips two characters at a time, so its
    properties go by induction on a bound of the length. *)
Lemma fromhex_ind (P : string → list Z → Prop) :
  P "" [] →
  (∀ c s bs, Py.is_ascii_space c = true → P s bs → P (String c s) bs) →
  (∀ c c' s top bot bs,
     Py.is_ascii_space c = false →
     Py.hex_value c = Some top → Py.hex_value c' = Some bot →
     P s bs → P (String c (String c' s)) (Z.shiftl top 4 + bot :: bs)) →
  ∀ s bs, Py.fromhex s = Ok bs → P s bs.
Proof.
  intros Hnil Hsp Hpair s.
  assert (∀ n s, (String.length s ≤ n)%nat →
            ∀ bs, Py.fromhex s = Ok bs → P s bs) as Hn.
  { clear s. induction n as [|n IH]; intros [|c s] Hlen bs Hbs;
      simpl in Hlen; try lia.
    - injection Hbs as <-. exact Hnil.
    - injection Hbs as <-. exact Hnil.
    - simpl in Hbs. destruct (Py.is_ascii_space c) eqn:Hc.
      + apply Hsp; [done |]. apply IH; [lia | done].
      + destruct (Py.hex_value c) as [top|] eqn:Htop; [|done].
        destruct s as [|c' s]; [done |].
        destruct (Py.hex_value c') as [bot|] eqn:Hbot; [|done].
        destruct (Py.fromhex s) as [rest|] eqn:Hrest; [|done].
        injection Hbs as <-. apply Hpair; try done.
        apply IH; [simpl in Hlen; lia | done]. }
  intros bs. by apply (Hn (String.length s)).
Qed.

(** Every value of a decoded payload is a byte. *)
Lemma fromhex_bytes s bs : Py.fromhex s = Ok bs → Forall is_byte bs.
Proof.
  revert s bs. apply fromhex_ind.
  - constructor.
  - auto.
  - intros c c' s top bot bs _ Htop%hex_value_range Hbot%hex_value_range IH.
    constructor; [|done]. unfold is_byte. rewrite Z.shiftl_mul_pow2 by lia. lia.
Qed.

(** Each byte takes two characters of the payload. *)
Lemma fromhex_len s bs : Py.fromhex s = Ok bs → 2 * Z.of_nat (length bs) <= Py.len s.
Proof.
  revert s bs. apply fromhex_ind.
  - simpl. lia.
  - intros c s bs _ IH. cbn [Py.len]. lia.
  - intros c c' s top bot bs _ _ _ IH. cbn [Py.len length]. lia.
Qed.

Lemma be16_eq hi lo : 0 <= hi → is_byte lo → be16 hi lo = hi * 256 + lo.
Proof.
  intros Hhi [Hlo0 Hlo]. unfold be16.
  assert (Z.land (Z.shiftl hi 8) lo = 0) as Hdisj.
  { apply Z.bits_inj'. intros n Hn. rewrite Z.land_spec, Z.bits_0.
    destruct (Z.ltb_spec n 8).
    - by rewrite Z.shiftl_spec_low.
    - rewrite (Z.bits_above_log2 lo n); [apply andb_false_r | done |].
      destruct (Z.eq_dec lo 0) as [-> | Hne]; [simpl; lia |].
      assert (Z.log2 lo < 8); [|lia]. apply Z.log2_lt_pow2; lia. }
  rewrite <- Z.lxor_lor, <- Z.add_nocarry_lxor by done.
  rewrite Z.shiftl_mul_pow2 by lia. lia.
Qed.

Lemma be16_range hi lo : is_byte hi → is_byte lo → 0 <= be16 hi lo <= 65535.
Proof.
  intros Hhi Hlo. rewrite be16_eq; [|apply Hhi | done].
  unfold is_byte in *. lia.
Qed.

Lemma all_from_spec f start count n :
  all_from f start count = true →
  start <= n < start + Z.of_nat count → f n = true.
Proof.
  revert start. induction count as [|count IH]; intros start Hall Hn; [lia |].
  cbn [all_from] in Hall. apply andb_true_iff in Hall as [Hhere Hrest].
  destruct (Z.eq_dec n start) as [-> | Hne]; [done |].
  apply (IH (start + 1)); [done | lia].
Qed.

(** Checked on each of the 65536 values. *)
Lemma scaled_in_range_all : all_from scaled_in_range 0 (Z.to_nat 65536) = true.
Proof. vm_compute. reflexivity. Qed.

Lemma truediv_100_range n :
  0 <= n <= 65535 →
  PrimFloat.leb 0%float (Py.truediv_100 n) = true ∧
  PrimFloat.leb (Py.truediv_100 n) 655.35%float = true.
Proof.
  intros Hn. apply andb_true_iff.
  apply (all_from_spec _ _ _ n scaled_in_range_all). lia.
Qed.

End ByteFacts.

(** ** Facts about the loop body *)

Section DecoderFacts.

Lemma flyer_signals_Ok bs :
  (20 ≤ length bs)%nat → flyer_signals bs = Ok (signal_items (fun i => nth i bs 0)).
Proof.
  intros Hlen.
  do 20 (destruct bs as [|? bs]; [simpl in Hlen; lia |]). reflexivity.
Qed.

Lemma flyer_signals_short bs :
  (length bs < 20)%nat → flyer_signals bs = Raise IndexError.
Proof.
  intros Hlen.
  do 20 (destruct bs as [|? bs]; [reflexivity |]). simpl in Hlen. lia.
Qed.

Lemma dict_update_lookup_ne d items k :
  k ∉ items.*1 → dict_update d items !! k = d !! k.
Proof.
  revert d. induction items as [|[k' v] items IH]; intros d Hk; [reflexivity |].
  cbn in Hk. apply not_elem_of_cons in Hk as [Hne Hk].
  unfold dict_update in *. cbn [foldl]. rewrite IH by done.
  by apply lookup_insert_ne.
Qed.

Lemma signal_items_keys b : (signal_items b).*1 = signal_keys.
Proof. reflexivity. Qed.

Lemma header_keys_not_signal k : k ∈ header_keys → k ∉ signal_keys.
Proof.
  unfold header_keys. rewrite !elem_of_cons, elem_of_nil.
  intros [->|[->|[->|[->|[->|[->|[->|[]]]]]]]];
    by_evaluation.
Qed.

Lemma header_dict_lookup date time extID hexData msgType srcName dstName :
  let d := header_dict date time extID hexData msgType srcName dstName in
  d !! "date" = Some (VStr date) ∧ d !! "time" = Some (VStr time) ∧
  d !! "extID" = Some (VStr extID) ∧ d !! "hexData" = Some (VStr hexData) ∧
  d !! "msgType" = Some msgType ∧ d !! "source" = Some srcName ∧
  d !! "dst" = Some dstName.
Proof. unfold header_dict, dict_update. cbn [foldl fst snd]. by simplify_map_eq. Qed.

Lemma header_dict_lookup_other date time extID hexData msgType srcName dstName k :
  k ∉ header_keys →
  header_dict date time extID hexData msgType srcName dstName !! k = None.
Proof.
  intros Hk. unfold header_keys in Hk. rewrite !not_elem_of_cons in Hk.
  destruct Hk as (? & ? & ? & ? & ? & ? & ? & _).
  unfold header_dict, dict_update. cbn [foldl fst snd].
  rewrite !lookup_insert_ne by done. apply lookup_empty.
Qed.

Lemma message_branch_spec sch hexData d mt :
  d !! "msgType" = Some mt →
  message_branch sch hexData d =
    if value_is_str mt "Operation" then
      let* op := loc (Operations sch) hexData in
      Ok (<["OperationCommand" := op]> d)
    else if value_is_str mt "Error" then
      let* n := Py.int hexData in
      let* err := loc (Errors sch) n in
      Ok (<["ErrorCommand" := err]> d)
    else Ok d.
Proof. intros Hmt. unfold message_branch, dict_getitem. by rewrite Hmt. Qed.

(** Lines 72-75 store nothing but the command name. *)
Lemma message_branch_lookup sch hexData d d' k :
  message_branch sch hexData d = Ok d' →
  k ≠ "OperationCommand" → k ≠ "ErrorCommand" → d' !! k = d !! k.
Proof.
  unfold message_branch, dict_getitem. intros Hd Hop Herr.
  destruct (d !! "msgType") as [mt|]; [|done]. cbn [bind] in Hd.
  destruct (value_is_str mt "Operation").
  - destruct (loc (Operations sch) hexData); [|done].
    injection Hd as <-. by apply lookup_insert_ne.
  - destruct (value_is_str mt "Error"); [|by injection Hd as <-].
    destruct (Py.int hexData); [|done]. cbn [bind] in Hd.
    destruct (loc (Errors sch) a); [|done].
    injection Hd as <-. by apply lookup_insert_ne.
Qed.

Lemma derive_lift_side_Ok d src dst :
  d !! "source" = Some (VStr src) → d !! "dst" = Some (VStr dst) →
  derive_lift_side d =
    Ok (<["LiftSide" := VStr (lift_side (Py.lower src) (Py.lower dst))]> d).
Proof. intros Hs Hd. unfold derive_lift_side, dict_get. by rewrite Hs, Hd. Qed.

(** The lower-casing of a name that is not text raises. *)
Lemma derive_lift_side_Raise d src dst :
  d !! "source" = Some src → d !! "dst" = Some dst →
  ¬ names_are_text d → derive_lift_side d = Raise AttributeError.
Proof.
  intros Hs Hd Hno. unfold derive_lift_side, dict_get. rewrite Hs, Hd. cbn.
  destruct src as [s| |]; try done. destruct dst as [t| |]; try done.
  destruct Hno. by exists s, t.
Qed.

Lemma flyer_block_result machine hexData d src dst :
  d !! "source" = Some src → d !! "dst" = Some dst →
  flyer_result machine hexData d
    (flyer_block machine hexData d).1 (flyer_block machine hexData d).2.
Proof.
  intros Hsrc Hdst. unfold flyer_block.
  destruct (bool_decide (machine = FLYER)) eqn:Hm; cbn [andb];
    [apply bool_decide_eq_true in Hm | apply bool_decide_eq_false in Hm].
  2: { apply flyer_off. by intros [? _]. }
  destruct (40 <=? Py.len hexData) eqn:Hlen;
    [apply Z.leb_le in Hlen | apply Z.leb_gt in Hlen].
  2: { apply flyer_off. intros [_ ?]. lia. }
  unfold flyer_try. destruct (Py.fromhex hexData) as [bs|e] eqn:Hhex; cbn [bind].
  2: { by apply flyer_bad_hex. }
  destruct (decide (20 ≤ length bs)%nat) as [Hbs|Hbs].
  - rewrite flyer_signals_Ok by done.
    assert (∀ k, k ∈ header_keys →
              dict_update d (signal_items (fun i => nth i bs 0)) !! k = d !! k)
      as Hkeep.
    { intros k Hk. apply dict_update_lookup_ne.
      rewrite signal_items_keys. by apply header_keys_not_signal. }
    assert (dict_update d (signal_items (fun i => nth i bs 0)) !! "source" = Some src)
      as Hsrc' by (rewrite Hkeep; [done | by_evaluation]).
    assert (dict_update d (signal_items (fun i => nth i bs 0)) !! "dst" = Some dst)
      as Hdst' by (rewrite Hkeep; [done | by_evaluation]).
    destruct src as [s| |], dst as [t| |];
      try (rewrite (derive_lift_side_Raise _ _ _ Hsrc' Hdst');
           [ apply flyer_names_not_text; try done;
             intros (s' & t' & Hs' & Ht'); congruence
           | intros (s' & t' & Hs' & Ht'); congruence ]).
    rewrite (derive_lift_side_Ok _ s t Hsrc' Hdst'). by eapply flyer_decoded.
  - rewrite flyer_signals_short by lia. eapply flyer_short; [done.. | lia].
Qed.

(** What a line that reaches the [append] went through. *)
Lemma parse_line_Ok sch machine splits r ws :
  parse_line sch machine splits = Ok (r, ws) →
  ∃ tok0 tok1 extID hexData msgType srcName dstName base,
    splits !! 0%nat = Some tok0 ∧ splits !! 1%nat = Some tok1 ∧
    splits !! 3%nat = Some extID ∧ splits !! 4%nat = Some hexData ∧
    functionIDs sch !! (id_codes extID).1.1 = Some msgType ∧
    machineIDs sch machine !! (id_codes extID).2 = Some srcName ∧
    machineIDs sch machine !! (id_codes extID).1.2 = Some dstName ∧
    message_branch sch hexData
      (header_dict (Py.slice tok0 (Some 1) None) (Py.slice tok1 None (Some (-1)))
         extID hexData msgType srcName dstName) = Ok base ∧
    flyer_block machine hexData base = (r, ws).
Proof.
  unfold parse_line, Py.getitem, loc. intros H.
  destruct (splits !! 0%nat) as [tok0|]; [|done]. cbn [bind] in H.
  destruct (splits !! 1%nat) as [tok1|]; [|done]. cbn [bind] in H.
  destruct (splits !! 3%nat) as [extID|]; [|done]. cbn [bind] in H.
  destruct (splits !! 4%nat) as [hexData|]; [|done]. cbn [bind] in H.
  destruct (id_codes extID) as [[fID dst] source] eqn:Hcodes.
  destruct (functionIDs sch !! fID) as [msgType|] eqn:Hf; [|done]. cbn [bind] in H.
  destruct (machineIDs sch machine !! source) as [srcName|] eqn:Hs; [|done].
  cbn [bind] in H.
  destruct (machineIDs sch machine !! dst) as [dstName|] eqn:Hd; [|done].
  cbn [bind] in H.
  destruct (message_branch _ _ _) as [base|] eqn:Hbase; [|done]. cbn [bind] in H.
  injection H as H.
  exists tok0, tok1, extID, hexData, msgType, srcName, dstName, base.
  by rewrite Hcodes.
Qed.

Lemma process_line_Emitted sch machine line r ws :
  process_line sch machine line = Emitted r ws →
  "rcv" ∈ Py.split " " line ∧ parse_line sch machine (Py.split " " line) = Ok (r, ws).
Proof.
  unfold process_line, Py.contains_item. case_bool_decide as Hrcv; [|done].
  destruct (parse_line _ _ _) as [[d ws']|]; [|done]. by intros [= -> ->].
Qed.

(** An emitted record: its tokens, its resolved names, the dictionary
    [base] that reaches line 77 and what the payload block made of it. *)
Lemma process_line_Emitted_inv sch machine line r ws :
  process_line sch machine line = Emitted r ws →
  ∃ tok0 tok1 extID hexData msgType srcName dstName base,
    "rcv" ∈ Py.split " " line ∧
    Py.split " " line !! 0%nat = Some tok0 ∧ Py.split " " line !! 1%nat = Some tok1 ∧
    Py.split " " line !! 3%nat = Some extID ∧
    Py.split " " line !! 4%nat = Some hexData ∧
    functionIDs sch !! (id_codes extID).1.1 = Some msgType ∧
    machineIDs sch machine !! (id_codes extID).2 = Some srcName ∧
    machineIDs sch machine !! (id_codes extID).1.2 = Some dstName ∧
    message_branch sch hexData
      (header_dict (Py.slice tok0 (Some 1) None) (Py.slice tok1 None (Some (-1)))
         extID hexData msgType srcName dstName) = Ok base ∧
    flyer_result machine hexData base r ws.
Proof.
  intros [Hrcv Hparse]%process_line_Emitted.
  apply parse_line_Ok in Hparse
    as (tok0 & tok1 & extID & hexData & msgType & srcName & dstName & base
        & H0 & H1 & H3 & H4 & Hf & Hs & Hd & Hbase & Hfly).
  exists tok0, tok1, extID, hexData, msgType, srcName, dstName, base.
  repeat (split; [done |]).
  pose proof (header_dict_lookup (Py.slice tok0 (Some 1) None)
                (Py.slice tok1 None (Some (-1))) extID hexData msgType srcName dstName)
    as (_ & _ & _ & _ & _ & Hsrc & Hdst).
  pose proof (flyer_block_result machine hexData base srcName dstName) as Hres.
  rewrite Hfly in Hres. apply Hres.
  - by rewrite (message_branch_lookup _ _ _ _ _ Hbase).
  - by rewrite (message_branch_lookup _ _ _ _ _ Hbase).
Qed.

(** The payload block stores nothing under a key that is neither a signal
    nor the lift side. *)
Lemma flyer_result_lookup machine hexData d r ws k :
  flyer_result machine hexData d r ws →
  k ∉ signal_keys → k ≠ "LiftSide" → r !! k = d !! k.
Proof.
  intros Hres Hk Hside. destruct Hres; try done.
  - rewrite lookup_insert_ne by done.
    by rewrite dict_update_lookup_ne by by rewrite signal_items_keys.
  - by rewrite dict_update_lookup_ne by by rewrite signal_items_keys.
Qed.

(** The header fields of the dictionary that reaches line 77. *)
Lemma base_lookup_header sch date time extID hexData msgType srcName dstName base :
  message_branch sch hexData
    (header_dict date time extID hexData msgType srcName dstName) = Ok base →
  base !! "date" = Some (VStr date) ∧ base !! "time" = Some (VStr time) ∧
  base !! "extID" = Some (VStr extID) ∧ base !! "hexData" = Some (VStr hexData) ∧
  base !! "msgType" = Some msgType ∧ base !! "source" = Some srcName ∧
  base !! "dst" = Some dstName.
Proof.
  intros Hbase.
  rewrite !(message_branch_lookup _ _ _ _ _ Hbase) by done.
  apply header_dict_lookup.
Qed.

(** It has no signal and no lift side yet. *)
Lemma base_lookup_other sch date time extID hexData msgType srcName dstName base k :
  message_branch sch hexData
    (header_dict date time extID hexData msgType srcName dstName) = Ok base →
  k ∈ "LiftSide" :: signal_keys → base !! k = None.
Proof.
  intros Hbase Hk.
  assert (k ≠ "OperationCommand" ∧ k ≠ "ErrorCommand" ∧ k ∉ header_keys)
    as (Hop & Herr & Hhdr).
  { unfold signal_keys in Hk. rewrite !elem_of_cons, elem_of_nil in Hk.
    repeat (destruct Hk as [-> | Hk];
            [repeat split; try done; by_evaluation |]).
    done. }
  rewrite (message_branch_lookup _ _ _ _ _ Hbase) by done.
  by apply header_dict_lookup_other.
Qed.

(** The dictionary once the signals are stored. *)
Lemma signals_update_lookup d b :
  let r := dict_update d (signal_items b) in
  r !! "targetPosition" = Some (VFloat (Py.truediv_100 (be16 (b 0%nat) (b 1%nat)))) ∧
  r !! "presentPosition" = Some (VFloat (Py.truediv_100 (be16 (b 2%nat) (b 3%nat)))) ∧
  r !! "presentRPM" = Some (VInt (be16 (b 4%nat) (b 5%nat))) ∧
  r !! "appliedDuty" = Some (VInt (be16 (b 6%nat) (b 7%nat))) ∧
  r !! "FETtemp" = Some (VInt (b 8%nat)) ∧
  r !! "MOTtemp" = Some (VInt (b 9%nat)) ∧
  r !! "busCurrentADC" = Some (VInt (be16 (b 10%nat) (b 11%nat))) ∧
  r !! "busVoltageADC" = Some (VInt (be16 (b 12%nat) (b 13%nat))) ∧
  r !! "liftDirection" = Some (VInt (b 14%nat)) ∧
  r !! "GBPresentPosition" =
    Some (VFloat (Py.truediv_100 (be16 (b 15%nat) (b 16%nat)))) ∧
  r !! "encPresentPosition" =
    Some (VFloat (Py.truediv_100 (be16 (b 17%nat) (b 18%nat)))) ∧
  r !! "usingPosition" = Some (VInt (b 19%nat)).
Proof.
  intros r. unfold r, dict_update, signal_items. cbn [foldl fst snd].
  by simplify_map_eq.
Qed.

(** The record of a decoded payload. *)
Lemma signals_lookup d b side :
  let r := <["LiftSide" := VStr side]> (dict_update d (signal_items b)) in
  r !! "targetPosition" = Some (VFloat (Py.truediv_100 (be16 (b 0%nat) (b 1%nat)))) ∧
  r !! "presentPosition" = Some (VFloat (Py.truediv_100 (be16 (b 2%nat) (b 3%nat)))) ∧
  r !! "presentRPM" = Some (VInt (be16 (b 4%nat) (b 5%nat))) ∧
  r !! "appliedDuty" = Some (VInt (be16 (b 6%nat) (b 7%nat))) ∧
  r !! "FETtemp" = Some (VInt (b 8%nat)) ∧
  r !! "MOTtemp" = Some (VInt (b 9%nat)) ∧
  r !! "busCurrentADC" = Some (VInt (be16 (b 10%nat) (b 11%nat))) ∧
  r !! "busVoltageADC" = Some (VInt (be16 (b 12%nat) (b 13%nat))) ∧
  r !! "liftDirection" = Some (VInt (b 14%nat)) ∧
  r !! "GBPresentPosition" =
    Some (VFloat (Py.truediv_100 (be16 (b 15%nat) (b 16%nat)))) ∧
  r !! "encPresentPosition" =
    Some (VFloat (Py.truediv_100 (be16 (b 17%nat) (b 18%nat)))) ∧
  r !! "usingPosition" = Some (VInt (b 19%nat)).
Proof.
  intros r. unfold r, dict_update, signal_items. cbn [foldl fst snd].
  by simplify_map_eq.
Qed.

Lemma nth_is_byte bs i : Forall is_byte bs → is_byte (nth i bs 0).
Proof.
  intros Hbs. destruct (nth_in_or_default i bs 0) as [Hin | ->].
  - rewrite Forall_forall in Hbs. apply Hbs. by apply list_elem_of_In.
  - unfold is_byte. lia.
Qed.

End DecoderFacts.

(** ** The payload decoder *)

Section PayloadDecoder.

(** C1: a record of the FLYER variant whose payload has at least 40
    characters and decodes, as hexadecimal, to at least 20 bytes [b 0 ..]
    carries exactly these signals: the four positions are the big-endian
    16-bit pairs at bytes 0-1, 2-3, 15-16 and 17-18 divided by [100.0]; the
    speed, the duty and the two ADC readings are the big-endian pairs at
    bytes 4-5, 6-7, 10-11 and 12-13; the two temperatures, the direction and
    the position flag are the bytes 8, 9, 14 and 19. *)
Theorem flyer_payload_signals sch line r ws hexData bs :
  process_line sch FLYER line = Emitted r ws →
  r !! "hexData" = Some (VStr hexData) →
  40 <= Py.len hexData →
  Py.fromhex hexData = Ok bs →
  (20 ≤ length bs)%nat →
  let b i := nth i bs 0 in
  r !! "targetPosition" = Some (VFloat (Py.truediv_100 (b 0%nat * 256 + b 1%nat))) ∧
  r !! "presentPosition" = Some (VFloat (Py.truediv_100 (b 2%nat * 256 + b 3%nat))) ∧
  r !! "presentRPM" = Some (VInt (b 4%nat * 256 + b 5%nat)) ∧
  r !! "appliedDuty" = Some (VInt (b 6%nat * 256 + b 7%nat)) ∧
  r !! "FETtemp" = Some (VInt (b 8%nat)) ∧
  r !! "MOTtemp" = Some (VInt (b 9%nat)) ∧
  r !! "busCurrentADC" = Some (VInt (b 10%nat * 256 + b 11%nat)) ∧
  r !! "busVoltageADC" = Some (VInt (b 12%nat * 256 + b 13%nat)) ∧
  r !! "liftDirection" = Some (VInt (b 14%nat)) ∧
  r !! "GBPresentPosition" =
    Some (VFloat (Py.truediv_100 (b 15%nat * 256 + b 16%nat))) ∧
  r !! "encPresentPosition" =
    Some (VFloat (Py.truediv_100 (b 17%nat * 256 + b 18%nat))) ∧
  r !! "usingPosition" = Some (VInt (b 19%nat)).
Proof.
  intros Hemit Hhex Hlen Hbs Hbslen b.
  apply process_line_Emitted_inv in Hemit
    as (tok0 & tok1 & extID & hexData' & msgType & srcName & dstName & base
        & _ & _ & _ & _ & _ & _ & _ & _ & Hbase & Hres).
  pose proof (base_lookup_header _ _ _ _ _ _ _ _ _ Hbase)
    as (_ & _ & _ & Hbhex & _).
  rewrite (flyer_result_lookup _ _ _ _ _ "hexData" Hres) in Hhex;
    [| apply header_keys_not_signal; set_solver | done].
  rewrite Hbhex in Hhex. injection Hhex as ->.
  pose proof (fromhex_bytes _ _ Hbs) as Hbytes.
  assert (∀ i j, be16 (b i) (b j) = b i * 256 + b j) as Hbe.
  { intros i j. apply be16_eq; [apply (nth_is_byte bs i Hbytes) |
                                apply (nth_is_byte bs j Hbytes)]. }
  destruct Hres as [Hoff | e _ _ Hraise | bs' _ _ Hbs' Hshort
                    | bs' src dst _ _ Hbs' _ _ _ | bs' _ _ Hbs' _ _].
  - destruct Hoff. by split.
  - congruence.
  - rewrite Hbs in Hbs'. injection Hbs' as <-. lia.
  - rewrite Hbs in Hbs'. injection Hbs' as <-.
    pose proof (signals_lookup base b (lift_side (Py.lower src) (Py.lower dst)))
      as Hsig.
    cbv zeta in Hsig. rewrite !Hbe in Hsig. exact Hsig.
  - rewrite Hbs in Hbs'. injection Hbs' as <-.
    pose proof (signals_update_lookup base b) as Hsig.
    cbv zeta in Hsig. rewrite !Hbe in Hsig. exact Hsig.
Qed.

(** C1 on the sample line. *)
Lemma flyer_payload_signals_witness :
  process_line sample_schema FLYER sample_line = Emitted sample_record [] ∧
  sample_record !! "targetPosition" = Some (VFloat 2.58%float) ∧
  sample_record !! "presentPosition" = Some (VFloat 7.72%float) ∧
  sample_record !! "presentRPM" = Some (VInt 1286) ∧
  sample_record !! "appliedDuty" = Some (VInt 1800) ∧
  sample_record !! "FETtemp" = Some (VInt 9) ∧
  sample_record !! "MOTtemp" = Some (VInt 10) ∧
  sample_record !! "busCurrentADC" = Some (VInt 2828) ∧
  sample_record !! "busVoltageADC" = Some (VInt 3342) ∧
  sample_record !! "liftDirection" = Some (VInt 15) ∧
  sample_record !! "GBPresentPosition" = Some (VFloat 41.13%float) ∧
  sample_record !! "encPresentPosition" = Some (VFloat 46.27%float) ∧
  sample_record !! "usingPosition" = Some (VInt 20).
Proof.
  split; [vm_compute; reflexivity |].
  apply (flyer_payload_signals sample_schema sample_line sample_record []
           "0102030405060708090A0B0C0D0E0F1011121314"
           [1; 2; 3; 4; 5; 6; 7; 8; 9; 10; 11; 12; 13; 14; 15; 16; 17; 18; 19; 20]).
  - vm_compute; reflexivity.
  - vm_compute; reflexivity.
  - vm_compute; discriminate.
  - vm_compute; reflexivity.
  - simpl; lia.
Defined.

Lemma signal_key_kinds k :
  k ∈ byte_signal_keys ++ word_signal_keys ++ scaled_signal_keys →
  k ∈ "LiftSide" :: signal_keys.
Proof.
  unfold byte_signal_keys, word_signal_keys, scaled_signal_keys, signal_keys.
  cbn [app]. rewrite !elem_of_cons, elem_of_nil. tauto.
Qed.

(** C10: every decoded signal is unsigned and bounded. In an emitted record
    the single-byte signals lie in [0, 255], the 16-bit signals in
    [0, 65535] and the scaled positions, as floats, in [0.0, 655.35]; none is
    negative. *)
Theorem decoded_signals_bounded sch machine line r ws :
  process_line sch machine line = Emitted r ws →
  (∀ k v, k ∈ byte_signal_keys → r !! k = Some v →
          ∃ n, v = VInt n ∧ 0 <= n <= 255) ∧
  (∀ k v, k ∈ word_signal_keys → r !! k = Some v →
          ∃ n, v = VInt n ∧ 0 <= n <= 65535) ∧
  (∀ k v, k ∈ scaled_signal_keys → r !! k = Some v →
          ∃ f, v = VFloat f ∧ PrimFloat.leb 0%float f = true ∧
               PrimFloat.leb f 655.35%float = true).
Proof.
  intros Hemit.
  apply process_line_Emitted_inv in Hemit
    as (tok0 & tok1 & extID & hexData & msgType & srcName & dstName & base
        & _ & _ & _ & _ & _ & _ & _ & _ & Hbase & Hres).
  assert (∀ k v, k ∈ byte_signal_keys ++ word_signal_keys ++ scaled_signal_keys →
                 base !! k = Some v → False) as Hnone.
  { intros k v Hk Hv.
    rewrite (base_lookup_other _ _ _ _ _ _ _ _ _ k Hbase) in Hv; [done |].
    by apply signal_key_kinds. }
  destruct Hres as [_ | e _ _ _ | bs' _ _ _ _ | bs src dst _ _ Hbs _ _ _
                    | bs _ _ Hbs _ _].
  1-3: by (repeat split; intros k v Hk Hv; exfalso; apply (Hnone k v); try done;
           rewrite !elem_of_app; tauto).
  all: pose proof (fromhex_bytes _ _ Hbs) as Hbytes.
  all: pose proof (nth_is_byte bs) as Hb.
  1: pose proof (signals_lookup base (fun i => nth i bs 0)
                   (lift_side (Py.lower src) (Py.lower dst)))
    as (Htp & Hpp & Hrpm & Hduty & Hfet & Hmot & Hcur & Hvolt & Hdir & Hgb & Henc & Huse).
  2: pose proof (signals_update_lookup base (fun i => nth i bs 0))
    as (Htp & Hpp & Hrpm & Hduty & Hfet & Hmot & Hcur & Hvolt & Hdir & Hgb & Henc & Huse).
  all: repeat split; intros k v Hk Hv;
    unfold byte_signal_keys, word_signal_keys, scaled_signal_keys in Hk;
    rewrite !elem_of_cons, elem_of_nil in Hk;
    destruct Hk as [-> | [-> | [-> | [-> | []]]]].
  all: match goal with
       | Hsig : ?r !! ?k = Some _, Hv : ?r !! ?k = Some ?v |- _ =>
           is_var v; rewrite Hsig in Hv; injection Hv as <-
       end; eexists; (split; [done |]).
  all: first [ apply truediv_100_range, be16_range; by apply Hb
             | apply be16_range; by apply Hb
             | match goal with
               | |- _ <= nth ?i _ _ <= _ =>
                   specialize (Hb i Hbytes); unfold is_byte in Hb; lia
               end ].
Qed.

(** C10 on the sample line. *)
Lemma decoded_signals_bounded_witness :
  process_line sample_schema FLYER sample_line = Emitted sample_record [] ∧
  (∀ k v, k ∈ byte_signal_keys → sample_record !! k = Some v →
          ∃ n, v = VInt n ∧ 0 <= n <= 255) ∧
  (∀ k v, k ∈ word_signal_keys → sample_record !! k = Some v →
          ∃ n, v = VInt n ∧ 0 <= n <= 65535) ∧
  (∀ k v, k ∈ scaled_signal_keys → sample_record !! k = Some v →
          ∃ f, v = VFloat f ∧ PrimFloat.leb 0%float f = true ∧
               PrimFloat.leb f 655.35%float = true).
Proof.
  split; [vm_compute; reflexivity |].
  apply (decoded_signals_bounded sample_schema FLYER sample_line sample_record []).
  vm_compute; reflexivity.
Defined.

(** The largest payload values decode to the upper bounds. *)
Example largest_signals :
  Py.truediv_100 (be16 255 255) = 655.35%float ∧ be16 255 255 = 65535.
Proof. split; reflexivity. Qed.

End PayloadDecoder.

(** ** The identifier and the lift side *)

Section Identifier.

(** The three codes of an identifier that ends in [f], [d] and [s], of two
    characters each. *)
Lemma id_codes_app p f d s :
  Py.len f = 2 → Py.len d = 2 → Py.len s = 2 →
  id_codes (p +:+ f +:+ d +:+ s) = (f, d, s).
Proof.
  intros Hf Hd Hs. unfold id_codes. f_equal; [f_equal |].
  - apply (slice_window p f (d +:+ s) 6 4); [rewrite len_app | ..]; lia.
  - rewrite <- (app_assoc_str p f (d +:+ s)).
    apply (slice_window (p +:+ f) d s 4 2); lia.
  - rewrite <- (app_assoc_str p f (d +:+ s)), <- (app_assoc_str (p +:+ f) d s).
    apply (slice_suffix ((p +:+ f) +:+ d) s 2); lia.
Qed.

(** Six characters are three groups of two. *)
Lemma six_chars t :
  Py.len t = 6 →
  ∃ f d s, t = f +:+ d +:+ s ∧ Py.len f = 2 ∧ Py.len d = 2 ∧ Py.len s = 2.
Proof.
  intros Ht.
  destruct (split_exact 2 4 t) as (f & ds & -> & Hf & Hds); [lia.. |].
  destruct (split_exact 2 2 ds) as (d & s & -> & Hd & Hs); [lia.. |].
  by exists f, d, s.
Qed.

(** C9: two identifiers that end in the same six characters [t] have the
    same function, destination and source codes, whatever comes before. *)
Theorem id_codes_last_six (a b p q t : string) :
  a = p +:+ t → b = q +:+ t → Py.len t = 6 →
  6 <= Py.len a ∧ 6 <= Py.len b ∧ id_codes a = id_codes b.
Proof.
  intros -> -> Ht. rewrite !len_app.
  pose proof (len_nonneg p). pose proof (len_nonneg q).
  repeat split; [lia.. |].
  destruct (six_chars t Ht) as (f & d & s & -> & Hf & Hd & Hs).
  by rewrite !id_codes_app.
Qed.

(** C9 on two identifiers that end in [010203]. *)
Lemma id_codes_last_six_witness :
  6 <= Py.len "0x010203" ∧ 6 <= Py.len "18FF010203" ∧
  id_codes "0x010203" = id_codes "18FF010203".
Proof.
  apply (id_codes_last_six "0x010203" "18FF010203" "0x" "18FF" "010203");
    reflexivity.
Defined.

End Identifier.

Section LiftSide.

(** C8: the lift side is derived from the two names, each read as the
    empty string when absent. A name that holds the word "right", its
    letters small or capital in any mix, gives "Right Lift"; failing that, a
    name that holds "left" in any mix of cases gives "Left Lift"; otherwise,
    and so when both names are absent, the result is "Unknown Lift". The
    test the code makes, on the lower-cased names, is the same as holding
    the word in any mix of cases, for every word of small letters. *)
Theorem lift_side_derivation (d : gmap string value) (osrc odst : option string) :
  d !! "source" = VStr <$> osrc → d !! "dst" = VStr <$> odst →
  let src := default "" osrc in
  let dst := default "" odst in
  let has w := occurs_any_case w src ∨ occurs_any_case w dst in
  ∃ side,
    derive_lift_side d = Ok (<["LiftSide" := VStr side]> d) ∧
    (has "right" → side = "Right Lift") ∧
    (¬ has "right" → has "left" → side = "Left Lift") ∧
    (¬ has "right" → ¬ has "left" → side = "Unknown Lift") ∧
    (∀ w, small_letters w = true →
          has w ↔ occurs_in w (Py.lower src) ∨ occurs_in w (Py.lower dst)).
Proof.
  intros Hsrc Hdst src dst has.
  assert (∀ w, small_letters w = true →
               has w ↔
               Py.contains w (Py.lower src) || Py.contains w (Py.lower dst) = true)
    as Hhas.
  { intros w Hw. unfold has. by rewrite orb_true_iff, !contains_lower. }
  pose proof (Hhas "right" eq_refl) as Hright.
  pose proof (Hhas "left" eq_refl) as Hleft.
  exists (lift_side (Py.lower src) (Py.lower dst)). split; [| split; [| split; [| split]]].
  - unfold derive_lift_side, dict_get. rewrite Hsrc, Hdst.
    by destruct osrc, odst.
  - intros Hr%Hright. unfold lift_side. by rewrite Hr.
  - intros Hr Hl%Hleft. unfold lift_side.
    destruct (Py.contains "right" _ || Py.contains "right" _) eqn:E.
    + exfalso. apply Hr, (Hhas "right" eq_refl), E.
    + by rewrite Hl.
  - intros Hr Hl. unfold lift_side.
    destruct (Py.contains "right" _ || Py.contains "right" _) eqn:E.
    { exfalso. apply Hr, (Hhas "right" eq_refl), E. }
    destruct (Py.contains "left" _ || Py.contains "left" _) eqn:E'.
    { exfalso. apply Hl, (Hhas "left" eq_refl), E'. }
    done.
  - intros w Hw. rewrite (Hhas w Hw), orb_true_iff. by rewrite !contains_spec.
Qed.

(** C8 on the names "Right Motor" and "Controller": the first holds "right"
    with a capital R, and the lift side is "Right Lift". *)
Lemma lift_side_derivation_witness :
  occurs_any_case "right" "Right Motor" ∧
  derive_lift_side {[ "source" := VStr "Right Motor"; "dst" := VStr "Controller" ]} =
  Ok (<["LiftSide" := VStr "Right Lift"]>
        {[ "source" := VStr "Right Motor"; "dst" := VStr "Controller" ]}).
Proof.
  assert (occurs_any_case "right" "Right Motor") as Hr.
  { exists "Right". split.
    - cbn [spells_any_case]. unfold letter_any_case.
      split; [right; by_evaluation |]. repeat split; by left.
    - by exists "", " Motor". }
  split; [exact Hr |].
  destruct (lift_side_derivation
              {[ "source" := VStr "Right Motor"; "dst" := VStr "Controller" ]}
              (Some "Right Motor") (Some "Controller"))
    as (side & Hd & Hright & _).
  - vm_compute; reflexivity.
  - vm_compute; reflexivity.
  - rewrite Hd, (Hright (or_introl Hr)). reflexivity.
Defined.

(** Neither word is held, in any mix of cases, by "Controller" or by the
    empty name; "LEFT drive" holds "left" and not "right". *)
Example names_without_the_words :
  ¬ occurs_any_case "right" "Controller" ∧ ¬ occurs_any_case "left" "Controller" ∧
  ¬ occurs_any_case "right" "" ∧ ¬ occurs_any_case "left" "" ∧
  occurs_any_case "left" "LEFT drive" ∧ ¬ occurs_any_case "right" "LEFT drive".
Proof.
  repeat split; try (rewrite <- contains_lower by done; vm_compute; discriminate).
  rewrite <- contains_lower by done. vm_compute. reflexivity.
Qed.

(** A capital letter of the word itself is not matched: no lower-cased name
    holds it. *)
Example capital_word_not_held :
  Py.contains "Right" (Py.lower "Right Motor") = false ∧
  Py.contains "right" (Py.lower "Right Motor") = true ∧
  Py.contains "right" (Py.lower "RIGHT MOTOR") = true ∧
  Py.contains "right" (Py.lower "rIgHt") = true.
Proof. repeat split; vm_compute; reflexivity. Qed.

Example lift_side_right :
  derive_lift_side {[ "source" := VStr "Right Motor"; "dst" := VStr "Controller" ]} =
  Ok {[ "source" := VStr "Right Motor"; "dst" := VStr "Controller";
        "LiftSide" := VStr "Right Lift" ]}.
Proof. vm_compute. reflexivity. Qed.

Example lift_side_left :
  derive_lift_side {[ "source" := VStr "left_sensor" ]} =
  Ok {[ "source" := VStr "left_sensor"; "LiftSide" := VStr "Left Lift" ]}.
Proof. vm_compute. reflexivity. Qed.

Example lift_side_left_upper :
  derive_lift_side {[ "dst" := VStr "LEFT drive" ]} =
  Ok {[ "dst" := VStr "LEFT drive"; "LiftSide" := VStr "Left Lift" ]}.
Proof. vm_compute. reflexivity. Qed.

Example lift_side_both :
  derive_lift_side {[ "source" := VStr "left arm"; "dst" := VStr "Right arm" ]} =
  Ok {[ "source" := VStr "left arm"; "dst" := VStr "Right arm";
        "LiftSide" := VStr "Right Lift" ]}.
Proof. vm_compute. reflexivity. Qed.

Example lift_side_unknown : derive_lift_side ∅ = Ok {[ "LiftSide" := VStr "Unknown Lift" ]}.
Proof. vm_compute. reflexivity. Qed.

End LiftSide.

(** ** The outcome of a line *)

Section LineOutcome.

(** A candidate line of at least five tokens whose three codes resolve:
    the rest is decided by lines 72-75. *)
Lemma process_line_resolved sch machine line tok0 tok1 extID hexData
    msgType srcName dstName :
  "rcv" ∈ Py.split " " line →
  Py.split " " line !! 0%nat = Some tok0 → Py.split " " line !! 1%nat = Some tok1 →
  Py.split " " line !! 3%nat = Some extID → Py.split " " line !! 4%nat = Some hexData →
  functionIDs sch !! (id_codes extID).1.1 = Some msgType →
  machineIDs sch machine !! (id_codes extID).2 = Some srcName →
  machineIDs sch machine !! (id_codes extID).1.2 = Some dstName →
  process_line sch machine line =
    match message_branch sch hexData
            (header_dict (Py.slice tok0 (Some 1) None) (Py.slice tok1 None (Some (-1)))
               extID hexData msgType srcName dstName) with
    | Ok base =>
        Emitted (flyer_block machine hexData base).1 (flyer_block machine hexData base).2
    | Raise e => Skipped (LineParsingError e)
    end.
Proof.
  intros Hrcv H0 H1 H3 H4 Hf Hs Hd.
  unfold process_line, Py.contains_item. rewrite bool_decide_eq_true_2 by done.
  unfold parse_line, Py.getitem, loc. rewrite H0, H1, H3, H4. cbn [bind].
  destruct (id_codes extID) as [[fID dst] source]. cbn [fst snd] in Hf, Hs, Hd.
  rewrite Hf. cbn [bind]. rewrite Hs. cbn [bind]. rewrite Hd. cbn [bind].
  fold (header_dict (Py.slice tok0 (Some 1) None) (Py.slice tok1 None (Some (-1)))
          extID hexData msgType srcName dstName).
  destruct (message_branch _ _ _) as [base|e]; cbn [bind]; [|done].
  by destruct (flyer_block machine hexData base).
Qed.

(** A candidate line of at least five tokens one of whose codes is not in
    its table. *)
Lemma process_line_unresolved sch machine line tok0 tok1 extID hexData :
  "rcv" ∈ Py.split " " line →
  Py.split " " line !! 0%nat = Some tok0 → Py.split " " line !! 1%nat = Some tok1 →
  Py.split " " line !! 3%nat = Some extID → Py.split " " line !! 4%nat = Some hexData →
  functionIDs sch !! (id_codes extID).1.1 = None
  ∨ machineIDs sch machine !! (id_codes extID).2 = None
  ∨ machineIDs sch machine !! (id_codes extID).1.2 = None →
  process_line sch machine line = Skipped (LineParsingError KeyError).
Proof.
  intros Hrcv H0 H1 H3 H4 Hnone.
  unfold process_line, Py.contains_item. rewrite bool_decide_eq_true_2 by done.
  unfold parse_line, Py.getitem, loc. rewrite H0, H1, H3, H4. cbn [bind].
  destruct (id_codes extID) as [[fID dst] source]. cbn [fst snd] in Hnone.
  destruct Hnone as [Hn | [Hn | Hn]].
  - by rewrite Hn.
  - destruct (functionIDs sch !! fID) as [msgType|]; cbn [bind]; [|done].
    by rewrite Hn.
  - destruct (functionIDs sch !! fID) as [msgType|]; cbn [bind]; [|done].
    destruct (machineIDs sch machine !! source) as [srcName|]; cbn [bind]; [|done].
    by rewrite Hn.
Qed.

(** A candidate line of fewer than five tokens. *)
Lemma process_line_short sch machine line :
  "rcv" ∈ Py.split " " line → (length (Py.split " " line) < 5)%nat →
  process_line sch machine line = Skipped (LineParsingError IndexError).
Proof.
  intros Hrcv Hlen.
  unfold process_line, Py.contains_item. rewrite bool_decide_eq_true_2 by done.
  unfold parse_line, Py.getitem.
  destruct (Py.split " " line) as [|t0 [|t1 [|t2 [|t3 [|t4 ts]]]]];
    try reflexivity.
  simpl in Hlen. lia.
Qed.

Lemma run_allDicts sch machine st lines :
  allDicts (foldl (run_step sch machine) st lines) =
  allDicts st ++ omap (record_of sch machine) lines.
Proof.
  revert st. induction lines as [|line lines IH]; intros st.
  - simpl. by rewrite app_nil_r.
  - cbn [foldl]. rewrite IH.
    replace (omap (record_of sch machine) (line :: lines))
      with (option_list (record_of sch machine line)
            ++ omap (record_of sch machine) lines)
      by (simpl; by destruct (record_of sch machine line)).
    assert (record_of sch machine line =
            match process_line sch machine line with
            | Emitted r _ => Some r
            | _ => None
            end) as -> by reflexivity.
    unfold run_step.
    destruct (process_line sch machine line); simpl; [done.. |].
    by rewrite <- app_assoc.
Qed.

(** The records of a run are those of its lines, in order. *)
Lemma decode_log_allDicts sch machine lines :
  allDicts (decode_log sch machine lines) = omap (record_of sch machine) lines.
Proof. unfold decode_log. by rewrite run_allDicts. Qed.

(** A line that gives no record leaves the records of the others as they are. *)
Lemma decode_log_skip sch machine before line after :
  record_of sch machine line = None →
  allDicts (decode_log sch machine (before ++ line :: after)) =
  allDicts (decode_log sch machine (before ++ after)).
Proof.
  intros Hnone. rewrite !decode_log_allDicts, !omap_app. f_equal.
  simpl. by rewrite Hnone.
Qed.

End LineOutcome.

(** ** Codes that do not resolve *)

Section Resolution.

(** C2, as stated, fails: the source code [09] of [line_unknown_source] is
    in no address table, and the line gives a warning and no record. *)
Lemma unknown_source_drops_line :
  "rcv" ∈ Py.split " " line_unknown_source ∧
  Py.split " " line_unknown_source !! 3%nat = Some "0x010209" ∧
  id_codes "0x010209" = ("01", "02", "09") ∧
  functionIDs sample_schema !! "01" = Some (VStr "Telemetry") ∧
  FlyerAddressIDs sample_schema !! "02" = Some (VStr "Controller") ∧
  FlyerAddressIDs sample_schema !! "09" = None ∧
  process_line sample_schema FLYER line_unknown_source
    = Skipped (LineParsingError KeyError) ∧
  decode_log sample_schema FLYER [line_unknown_source]
    = {| allDicts := []; warnings := [LineParsingError KeyError] |}.
Proof. repeat split; try (vm_compute; reflexivity). by_evaluation. Qed.

(** C2, amended: on a candidate line of at least five tokens, a function,
    source or destination code that is in no table raises [KeyError] at its
    lookup; the handler of the line catches it, records a warning and the
    line gives no record. Nothing goes past the line: the run goes on and
    the records of the other lines are what they are without it. *)
Theorem unknown_code_skips_line sch machine line tok0 tok1 extID hexData :
  "rcv" ∈ Py.split " " line →
  Py.split " " line !! 0%nat = Some tok0 → Py.split " " line !! 1%nat = Some tok1 →
  Py.split " " line !! 3%nat = Some extID → Py.split " " line !! 4%nat = Some hexData →
  functionIDs sch !! (id_codes extID).1.1 = None
  ∨ machineIDs sch machine !! (id_codes extID).2 = None
  ∨ machineIDs sch machine !! (id_codes extID).1.2 = None →
  process_line sch machine line = Skipped (LineParsingError KeyError) ∧
  (∀ st, run_step sch machine st line =
         {| allDicts := allDicts st;
            warnings := warnings st ++ [LineParsingError KeyError] |}) ∧
  (∀ before after,
     allDicts (decode_log sch machine (before ++ line :: after)) =
     allDicts (decode_log sch machine (before ++ after))).
Proof.
  intros Hrcv H0 H1 H3 H4 Hnone.
  pose proof (process_line_unresolved sch machine line tok0 tok1 extID hexData
                Hrcv H0 H1 H3 H4 Hnone) as Hskip.
  split; [done | split].
  - intros st. unfold run_step. by rewrite Hskip.
  - intros before after. apply decode_log_skip. unfold record_of. by rewrite Hskip.
Qed.

(** C2, amended, on [line_unknown_source]. *)
Lemma unknown_code_skips_line_witness :
  process_line sample_schema FLYER line_unknown_source
    = Skipped (LineParsingError KeyError) ∧
  (∀ st, run_step sample_schema FLYER st line_unknown_source =
         {| allDicts := allDicts st;
            warnings := warnings st ++ [LineParsingError KeyError] |}) ∧
  (∀ before after,
     allDicts (decode_log sample_schema FLYER (before ++ line_unknown_source :: after)) =
     allDicts (decode_log sample_schema FLYER (before ++ after))).
Proof.
  apply (unknown_code_skips_line sample_schema FLYER line_unknown_source
           "[2024-01-01" "12:00:00]" "0x010209"
           "0102030405060708090A0B0C0D0E0F1011121314").
  - by_evaluation.
  - vm_compute; reflexivity.
  - vm_compute; reflexivity.
  - vm_compute; reflexivity.
  - vm_compute; reflexivity.
  - right. left. vm_compute; reflexivity.
Defined.

(** The function code of an identifier of fewer than six characters has
    fewer than two. *)
Lemma short_id_function_code extID :
  Py.len extID < 6 → Py.len (id_codes extID).1.1 < 2.
Proof.
  intros Hlen. unfold id_codes. cbn [fst snd]. unfold Py.slice, Py.adjust_index.
  pose proof (len_nonneg extID) as Hn.
  replace (-6 <? 0) with true by reflexivity.
  replace (-4 <? 0) with true by reflexivity.
  rewrite (len_length extID) in *.
  destruct (_ <? _); [|simpl; lia].
  rewrite len_length, length_str_take, length_str_drop. lia.
Qed.

(** A candidate line whose fourth token is an identifier of fewer than six
    characters, with a function table whose codes all have two: the line is
    skipped, at its fifth token if that is missing and at the lookup of the
    function code otherwise. *)
Lemma short_identifier_skipped sch machine line extID :
  map_Forall (fun k _ => Py.len k = 2) (functionIDs sch) →
  "rcv" ∈ Py.split " " line →
  Py.split " " line !! 3%nat = Some extID →
  Py.len extID < 6 →
  process_line sch machine line =
    Skipped (LineParsingError
               (if decide (length (Py.split " " line) < 5)%nat
                then IndexError else KeyError)).
Proof.
  intros Hkeys Hrcv H3 Hlen.
  destruct (decide (length (Py.split " " line) < 5)%nat) as [Hshort | Hlong].
  { by apply process_line_short. }
  destruct (lookup_lt_is_Some_2 (Py.split " " line) 0) as [tok0 H0]; [lia |].
  destruct (lookup_lt_is_Some_2 (Py.split " " line) 1) as [tok1 H1]; [lia |].
  destruct (lookup_lt_is_Some_2 (Py.split " " line) 4) as [hexData H4]; [lia |].
  apply (process_line_unresolved sch machine line tok0 tok1 extID hexData);
    try done.
  left. destruct (functionIDs sch !! (id_codes extID).1.1) as [v|] eqn:Hf; [|done].
  pose proof (short_id_function_code extID Hlen) as Hcode.
  pose proof (Hkeys _ _ Hf) as Htwo. cbn beta in Htwo. lia.
Qed.

(** C3: with a function table whose codes all have two characters, a
    candidate line whose identifier token has fewer than six characters is
    dropped: the decomposition gives a function code of fewer than two
    characters, the lookup of that code fails, the line gives a warning and
    no record, and the records of the other lines are what they are without
    it. An identifier of at least six characters ends in the function code,
    the destination code and the source code, of two characters each: the
    characters -6..-4, -4..-2 and the last two. *)
Theorem identifier_decomposition sch machine line extID :
  map_Forall (fun k _ => Py.len k = 2) (functionIDs sch) →
  "rcv" ∈ Py.split " " line →
  Py.split " " line !! 3%nat = Some extID →
  (Py.len extID < 6 →
   Py.len (id_codes extID).1.1 < 2 ∧
   functionIDs sch !! (id_codes extID).1.1 = None ∧
   (∃ e, process_line sch machine line = Skipped (LineParsingError e) ∧
         ((5 ≤ length (Py.split " " line))%nat → e = KeyError)) ∧
   record_of sch machine line = None ∧
   (∀ before after,
      allDicts (decode_log sch machine (before ++ line :: after)) =
      allDicts (decode_log sch machine (before ++ after)))) ∧
  (6 <= Py.len extID →
   ∃ p f d s, extID = p +:+ f +:+ d +:+ s ∧
              Py.len f = 2 ∧ Py.len d = 2 ∧ Py.len s = 2 ∧
              id_codes extID = (f, d, s) ∧
              Py.slice extID (Some (-6)) (Some (-4)) = f ∧
              Py.slice extID (Some (-4)) (Some (-2)) = d ∧
              Py.slice extID (Some (-2)) None = s).
Proof.
  intros Hkeys Hrcv H3. split.
  - intros Hlen.
    pose proof (short_id_function_code extID Hlen) as Hcode.
    pose proof (short_identifier_skipped sch machine line extID Hkeys Hrcv H3 Hlen)
      as Hskip.
    assert (record_of sch machine line = None) as Hnone.
    { unfold record_of. by rewrite Hskip. }
    split; [done |]. split; [| split; [| split; [done |]]].
    + destruct (functionIDs sch !! (id_codes extID).1.1) as [v|] eqn:Hf; [|done].
      pose proof (Hkeys _ _ Hf) as Htwo. cbn beta in Htwo. lia.
    + eexists. split; [exact Hskip |]. intros Hfive.
      destruct (decide _) as [Hshort | _]; [lia | done].
    + intros before after. by apply decode_log_skip.
  - intros Hlen.
    destruct (split_suffix 6 extID) as (p & t & -> & Ht); [lia.. |].
    destruct (six_chars t Ht) as (f & d & s & -> & Hf & Hd & Hs).
    exists p, f, d, s.
    pose proof (id_codes_app p f d s Hf Hd Hs) as Hcodes.
    repeat split; try done; unfold id_codes in Hcodes; congruence.
Qed.

(** C3 on [line_short_id], whose identifier [10203] has five characters and
    is dropped, and on [sample_line], whose identifier [0x010203] has eight
    and is cut into its codes. *)
Lemma identifier_decomposition_witness :
  (Py.len "10203" < 6 ∧
   Py.len (id_codes "10203").1.1 < 2 ∧
   functionIDs sample_schema !! (id_codes "10203").1.1 = None ∧
   (∃ e, process_line sample_schema CARDING line_short_id
           = Skipped (LineParsingError e) ∧
         ((5 ≤ length (Py.split " " line_short_id))%nat → e = KeyError)) ∧
   record_of sample_schema CARDING line_short_id = None ∧
   (∀ before after,
      allDicts (decode_log sample_schema CARDING (before ++ line_short_id :: after)) =
      allDicts (decode_log sample_schema CARDING (before ++ after)))) ∧
  (6 <= Py.len "0x010203" ∧
   ∃ p f d s, "0x010203" = p +:+ f +:+ d +:+ s ∧
              Py.len f = 2 ∧ Py.len d = 2 ∧ Py.len s = 2 ∧
              id_codes "0x010203" = (f, d, s) ∧
              Py.slice "0x010203" (Some (-6)) (Some (-4)) = f ∧
              Py.slice "0x010203" (Some (-4)) (Some (-2)) = d ∧
              Py.slice "0x010203" (Some (-2)) None = s).
Proof.
  split; (split; [vm_compute; done |]).
  - apply (identifier_decomposition sample_schema CARDING line_short_id "10203").
    + by_evaluation.
    + by_evaluation.
    + vm_compute; reflexivity.
    + reflexivity.
  - apply (identifier_decomposition sample_schema FLYER sample_line "0x010203").
    + by_evaluation.
    + by_evaluation.
    + vm_compute; reflexivity.
    + vm_compute; discriminate.
Defined.

(** An identifier of eight characters and its three codes. *)
Example identifier_codes_of_sample :
  id_codes "0x010203" = ("01", "02", "03") ∧ id_codes "18FF0A0B0C" = ("0A", "0B", "0C").
Proof. split; reflexivity. Qed.

(** The decomposition itself has no length test: the slices of a shorter
    identifier are shorter, and it is the lookup that fails. *)
Example short_identifier_codes :
  id_codes "10203" = ("1", "02", "03") ∧ id_codes "0203" = ("", "02", "03") ∧
  id_codes "3" = ("", "", "3") ∧ id_codes "" = ("", "", "").
Proof. repeat split; reflexivity. Qed.

(** With the codes of two characters of [sample_schema], [line_short_id] is
    dropped. *)
Example short_identifier_dropped :
  process_line sample_schema CARDING line_short_id
    = Skipped (LineParsingError KeyError).
Proof. vm_compute. reflexivity. Qed.

End Resolution.

(** ** Error frames *)

Section ErrorFrames.

Lemma int_digits_raises s acc n prev e :
  Py.int_digits s acc n prev = Raise e → e = ValueError.
Proof.
  revert acc n prev. induction s as [|c s IH]; intros acc n prev; cbn [Py.int_digits].
  - destruct prev; [congruence |]. destruct (_ <? _); congruence.
  - destruct (Py.dec_value c); [apply IH |].
    case_bool_decide.
    + destruct prev; [congruence | apply IH].
    + destruct prev; [congruence |].
      destruct (Py.all_space _); [|congruence].
      destruct (_ <? _); congruence.
Qed.

(** [int] raises nothing but [ValueError]. *)
Lemma int_raises s e : Py.int s = Raise e → e = ValueError.
Proof.
  unfold Py.int.
  assert (∀ sign t,
            match t with
            | EmptyString => Raise ValueError
            | String c _ =>
                match Py.dec_value c with
                | Some _ => let* v := Py.int_digits t 0 0 false in Ok (sign * v)
                | None => Raise ValueError
                end
            end = Raise e → e = ValueError) as Hbody.
  { intros sign [|c t]; [congruence |].
    destruct (Py.dec_value c); [|congruence].
    destruct (Py.int_digits _ _ _ _) eqn:Hd; cbn [bind]; [done |].
    intros [= <-]. by apply int_digits_raises in Hd. }
  destruct (Py.lstrip s) as [|c t]; [congruence |].
  destruct (Ascii.eqb c "+"%char) eqn:Hp; [apply Ascii.eqb_eq in Hp as -> |].
  { apply (Hbody 1 t). }
  destruct (Ascii.eqb c "-"%char) eqn:Hm; [apply Ascii.eqb_eq in Hm as -> |].
  { apply (Hbody (-1) t). }
  apply Ascii.eqb_neq in Hp, Hm.
  assert ((let '(sign, s0) :=
             match String c t with
             | String "+"%char s' => (1, s')
             | String "-"%char s' => (-1, s')
             | _ => (1, String c t)
             end in
           match s0 with
           | EmptyString => Raise ValueError
           | String c0 _ =>
               match Py.dec_value c0 with
               | Some _ => let* v := Py.int_digits s0 0 0 false in Ok (sign * v)
               | None => Raise ValueError
               end
           end) =
          match Py.dec_value c with
          | Some _ => let* v := Py.int_digits (String c t) 0 0 false in Ok (1 * v)
          | None => Raise ValueError
          end) as ->.
  { destruct c as [[] [] [] [] [] [] [] []]; try reflexivity; done. }
  apply (Hbody 1 (String c t)).
Qed.

(** C4, as stated, fails: [line_error_hex] is an error frame whose payload
    [0A] is no decimal number; [int] raises, and the line gives a warning
    and no record. *)
Lemma error_frame_bad_number_dropped :
  Py.split " " line_error_hex !! 4%nat = Some "0A" ∧
  functionIDs sample_schema !! (id_codes "0x030203").1.1 = Some (VStr "Error") ∧
  Py.int "0A" = Raise ValueError ∧
  process_line sample_schema FLYER line_error_hex
    = Skipped (LineParsingError ValueError) ∧
  decode_log sample_schema FLYER [line_error_hex]
    = {| allDicts := []; warnings := [LineParsingError ValueError] |}.
Proof. repeat split; vm_compute; reflexivity. Qed.

(** C4, amended: in a frame whose message type is "Error" the payload is
    read as a base-10 integer and looked up in the error table, and the
    name found is stored as [ErrorCommand]. A payload that is no base-10
    integer makes [int] raise [ValueError] (and a number that is not in the
    table makes the lookup raise [KeyError]): the handler of the line
    catches it, records a warning, and the line gives no record. *)
Theorem error_payload_lookup sch machine line tok0 tok1 extID hexData
    srcName dstName :
  "rcv" ∈ Py.split " " line →
  Py.split " " line !! 0%nat = Some tok0 → Py.split " " line !! 1%nat = Some tok1 →
  Py.split " " line !! 3%nat = Some extID → Py.split " " line !! 4%nat = Some hexData →
  functionIDs sch !! (id_codes extID).1.1 = Some (VStr "Error") →
  machineIDs sch machine !! (id_codes extID).2 = Some srcName →
  machineIDs sch machine !! (id_codes extID).1.2 = Some dstName →
  match Py.int hexData with
  | Ok n =>
      match Errors sch !! n with
      | Some err =>
          ∃ r ws, process_line sch machine line = Emitted r ws ∧
                  r !! "ErrorCommand" = Some err ∧
                  r !! "msgType" = Some (VStr "Error") ∧
                  r !! "hexData" = Some (VStr hexData)
      | None => process_line sch machine line = Skipped (LineParsingError KeyError)
      end
  | Raise e =>
      e = ValueError ∧
      process_line sch machine line = Skipped (LineParsingError ValueError) ∧
      record_of sch machine line = None
  end.
Proof.
  intros Hrcv H0 H1 H3 H4 Hf Hs Hd.
  pose proof (process_line_resolved sch machine line tok0 tok1 extID hexData
                (VStr "Error") srcName dstName Hrcv H0 H1 H3 H4 Hf Hs Hd) as Hline.
  pose proof (header_dict_lookup (Py.slice tok0 (Some 1) None)
                (Py.slice tok1 None (Some (-1))) extID hexData (VStr "Error")
                srcName dstName) as (_ & _ & _ & Hhex & Hmt & Hsrc & Hdst).
  rewrite (message_branch_spec _ _ _ (VStr "Error") Hmt) in Hline.
  cbn [value_is_str] in Hline.
  rewrite bool_decide_eq_false_2, bool_decide_eq_true_2 in Hline by done.
  unfold loc in Hline.
  destruct (Py.int hexData) as [n|e] eqn:Hint; cbn [bind] in Hline.
  - destruct (Errors sch !! n) as [err|]; cbn [bind] in Hline; [|done].
    eexists _, _. split; [exact Hline |].
    pose proof (flyer_block_result machine hexData
                  (<["ErrorCommand" := err]>
                     (header_dict (Py.slice tok0 (Some 1) None)
                        (Py.slice tok1 None (Some (-1))) extID hexData (VStr "Error")
                        srcName dstName)) srcName dstName) as Hres.
    rewrite !(flyer_result_lookup _ _ _ _ _ _ (Hres ltac:(by simplify_map_eq)
                                                  ltac:(by simplify_map_eq)));
      [| by_evaluation | done | by_evaluation | done | by_evaluation | done].
    by simplify_map_eq.
  - apply int_raises in Hint as ->. repeat split; [done |].
    unfold record_of. by rewrite Hline.
Qed.

(** C4, amended, on an error frame with the payload [12]. *)
Lemma error_payload_lookup_witness :
  ∃ r ws, process_line sample_schema FLYER line_error_12 = Emitted r ws ∧
          r !! "ErrorCommand" = Some (VStr "Overcurrent") ∧
          r !! "msgType" = Some (VStr "Error") ∧
          r !! "hexData" = Some (VStr "12").
Proof.
  apply (error_payload_lookup sample_schema FLYER line_error_12
           "[2024-01-01" "12:00:00]" "0x030203" "12"
           (VStr "Right Motor") (VStr "Controller")).
  - by_evaluation.
  - vm_compute; reflexivity.
  - vm_compute; reflexivity.
  - vm_compute; reflexivity.
  - vm_compute; reflexivity.
  - vm_compute; reflexivity.
  - vm_compute; reflexivity.
  - vm_compute; reflexivity.
Defined.

End ErrorFrames.

(** ** The lift side and the payload block *)

Section PayloadBlock.

(** C5, as stated, fails: with the CARDING variant [sample_line] resolves
    and gives a record that has no [LiftSide]. *)
Lemma carding_record_has_no_lift_side :
  process_line sample_schema CARDING sample_line = Emitted sample_header [] ∧
  sample_header !! "source" = Some (VStr "Right Motor") ∧
  sample_header !! "dst" = Some (VStr "Controller") ∧
  sample_header !! "LiftSide" = None.
Proof. repeat split; vm_compute; reflexivity. Qed.

(** The payload block leaves the two names as they are. *)
Lemma flyer_result_names machine hexData d r ws :
  flyer_result machine hexData d r ws → d !! "LiftSide" = None →
  names_are_text r ↔ names_are_text d.
Proof.
  intros Hres Hside. unfold names_are_text.
  rewrite (flyer_result_lookup _ _ _ _ _ "source" Hres); [| by_evaluation | done].
  by rewrite (flyer_result_lookup _ _ _ _ _ "dst" Hres); [| by_evaluation | done].
Qed.

(** C5, amended: the lift side is computed inside the payload block only,
    after the signals are stored, from the lower-cased names. An emitted
    record has a [LiftSide] exactly when the variant is FLYER, its payload
    decodes, as hexadecimal, to at least 20 bytes, and its two names are
    text; the records of the other variants, those whose payload was not
    decoded and those with a name that is not text (the number or the empty
    cell of a table) have none. *)
Theorem lift_side_iff_payload_decoded sch machine line r ws :
  process_line sch machine line = Emitted r ws →
  (is_Some (r !! "LiftSide") ↔
   machine = FLYER ∧
   (∃ hexData bs, r !! "hexData" = Some (VStr hexData) ∧
                  Py.fromhex hexData = Ok bs ∧ (20 ≤ length bs)%nat) ∧
   names_are_text r).
Proof.
  intros Hemit.
  apply process_line_Emitted_inv in Hemit
    as (tok0 & tok1 & extID & hexData & msgType & srcName & dstName & base
        & _ & _ & _ & _ & _ & _ & _ & _ & Hbase & Hres).
  pose proof (base_lookup_header _ _ _ _ _ _ _ _ _ Hbase)
    as (_ & _ & _ & Hbhex & _).
  assert (r !! "hexData" = Some (VStr hexData)) as Hhex.
  { rewrite (flyer_result_lookup _ _ _ _ _ "hexData" Hres); [done | | done].
    apply header_keys_not_signal. set_solver. }
  assert (base !! "LiftSide" = None) as Hside.
  { apply (base_lookup_other _ _ _ _ _ _ _ _ _ _ Hbase). set_solver. }
  assert (∀ h' bs', r !! "hexData" = Some (VStr h') → Py.fromhex h' = Ok bs' →
                    Py.fromhex hexData = Ok bs') as Hsame.
  { intros h' bs' Hh' Hbs'. rewrite Hhex in Hh'. by injection Hh' as ->. }
  pose proof (flyer_result_names _ _ _ _ _ Hres Hside) as Hnames.
  destruct Hres as [Hoff | e Hm Hlen Hraise | bs Hm Hlen Hbs Hshort
                    | bs src dst Hm Hlen Hbs Hlong Hsrc Hdst
                    | bs Hm Hlen Hbs Hlong Hno].
  - rewrite Hside. split; [by intros [? ?] |].
    intros (Hm & (h' & bs' & Hh' & Hbs' & Hlong) & _). destruct Hoff.
    split; [done |].
    pose proof (fromhex_len _ _ (Hsame _ _ Hh' Hbs')). lia.
  - rewrite Hside. split; [by intros [? ?] |].
    intros (_ & (h' & bs' & Hh' & Hbs' & _) & _).
    rewrite (Hsame _ _ Hh' Hbs') in Hraise. done.
  - rewrite Hside. split; [by intros [? ?] |].
    intros (_ & (h' & bs' & Hh' & Hbs' & Hlong) & _).
    rewrite (Hsame _ _ Hh' Hbs') in Hbs. injection Hbs as ->. lia.
  - rewrite lookup_insert_eq. split; [|by eexists].
    intros _. split; [done |]. split; [by exists hexData, bs |].
    apply Hnames. by exists src, dst.
  - rewrite dict_update_lookup_ne by (rewrite signal_items_keys; by_evaluation).
    rewrite Hside. split; [by intros [? ?] |].
    intros (_ & _ & Htext). exfalso. by apply Hno, Hnames.
Qed.

(** C5, amended, on [sample_line]: its record has a lift side. *)
Lemma lift_side_iff_payload_decoded_witness :
  process_line sample_schema FLYER sample_line = Emitted sample_record [] ∧
  sample_record !! "LiftSide" = Some (VStr "Right Lift") ∧
  (is_Some (sample_record !! "LiftSide") ↔
   FLYER = FLYER ∧
   (∃ hexData bs, sample_record !! "hexData" = Some (VStr hexData) ∧
                  Py.fromhex hexData = Ok bs ∧ (20 ≤ length bs)%nat) ∧
   names_are_text sample_record).
Proof.
  split; [vm_compute; reflexivity |]. split; [vm_compute; reflexivity |].
  apply (lift_side_iff_payload_decoded sample_schema FLYER sample_line
           sample_record []).
  vm_compute; reflexivity.
Defined.

(** A FLYER frame whose source name is the empty cell of the address table:
    the twelve signals are stored, the lower-casing of the name raises, and
    the record is emitted with a warning and without [LiftSide]. *)
Example empty_name_cell_no_lift_side :
  FlyerAddressIDs sample_schema !! "06" = Some (VFloat PrimFloat.nan) ∧
  (∃ r, process_line sample_schema FLYER line_empty_name
          = Emitted r [FlyerDecodingError AttributeError] ∧
        r !! "source" = Some (VFloat PrimFloat.nan) ∧
        r !! "presentRPM" = Some (VInt 1286) ∧
        r !! "usingPosition" = Some (VInt 20) ∧
        r !! "LiftSide" = None).
Proof.
  split; [vm_compute; reflexivity |].
  eexists. split; [vm_compute; reflexivity |].
  repeat split; vm_compute; reflexivity.
Qed.

(** C6, as stated, fails: the payload of [line_short_payload] decodes to
    five bytes; the FLYER variant gives its record with the header fields
    only, and records no warning. *)
Lemma short_payload_no_warning :
  Py.split " " line_short_payload !! 4%nat = Some "0102030405" ∧
  Py.fromhex "0102030405" = Ok [1; 2; 3; 4; 5] ∧
  process_line sample_schema FLYER line_short_payload =
    Emitted (header_dict "2024-01-01" "12:00:00" "0x010203" "0102030405"
               (VStr "Telemetry") (VStr "Right Motor") (VStr "Controller")) [] ∧
  warnings (decode_log sample_schema FLYER [line_short_payload]) = [].
Proof. repeat split; vm_compute; reflexivity. Qed.

(** C6, amended: an emitted record whose payload fails to decode as
    hexadecimal, or decodes to fewer than 20 bytes, keeps its header fields
    and has no signal (and no lift side); nothing is raised past the line.
    A warning is recorded for it exactly when the decoding was tried, that
    is when the variant is FLYER and the payload has at least 40
    characters; otherwise the payload is passed over in silence. *)
Theorem undecoded_payload_record sch machine line r ws hexData :
  process_line sch machine line = Emitted r ws →
  r !! "hexData" = Some (VStr hexData) →
  (∀ bs, Py.fromhex hexData = Ok bs → (length bs < 20)%nat) →
  (∀ k, k ∈ header_keys → is_Some (r !! k)) ∧
  (∀ k, k ∈ "LiftSide" :: signal_keys → r !! k = None) ∧
  (machine = FLYER ∧ 40 <= Py.len hexData → ∃ e, ws = [FlyerDecodingError e]) ∧
  (¬ (machine = FLYER ∧ 40 <= Py.len hexData) → ws = []).
Proof.
  intros Hemit Hhex Hundec.
  apply process_line_Emitted_inv in Hemit
    as (tok0 & tok1 & extID & hexData' & msgType & srcName & dstName & base
        & _ & _ & _ & _ & _ & _ & _ & _ & Hbase & Hres).
  pose proof (base_lookup_header _ _ _ _ _ _ _ _ _ Hbase)
    as (Hdate & Htime & Hext & Hbhex & Hmt & Hsrc & Hdst).
  rewrite (flyer_result_lookup _ _ _ _ _ "hexData" Hres) in Hhex;
    [| apply header_keys_not_signal; set_solver | done].
  rewrite Hbhex in Hhex. injection Hhex as ->.
  assert (∀ k, k ∈ header_keys → is_Some (base !! k)) as Hhdr.
  { intros k Hk. unfold header_keys in Hk. rewrite !elem_of_cons, elem_of_nil in Hk.
    destruct Hk as [-> | [-> | [-> | [-> | [-> | [-> | [-> | []]]]]]]]; by eexists. }
  pose proof (fun k => base_lookup_other _ _ _ _ _ _ _ _ _ k Hbase) as Hnone.
  destruct Hres as [Hoff | e Hm Hlen Hraise | bs Hm Hlen Hbs Hshort
                    | bs src dst Hm Hlen Hbs Hlong _ _ | bs Hm Hlen Hbs Hlong _].
  - split; [done | split; [done | split]].
    + intros Hon. by destruct Hoff.
    + done.
  - split; [done | split; [done | split]].
    + intros _. by eexists.
    + intros Hno. by destruct Hno.
  - split; [done | split; [done | split]].
    + intros _. by eexists.
    + intros Hno. by destruct Hno.
  - specialize (Hundec bs Hbs). lia.
  - specialize (Hundec bs Hbs). lia.
Qed.

(** C6, amended, on a payload of 40 characters that is not hexadecimal. *)
Lemma undecoded_payload_record_witness :
  let r := header_dict "2024-01-01" "12:00:00" "0x010203"
             "0102030405060708090A0B0C0D0E0F10111213ZZ"
             (VStr "Telemetry") (VStr "Right Motor") (VStr "Controller") in
  process_line sample_schema FLYER line_bad_payload
    = Emitted r [FlyerDecodingError ValueError] ∧
  (∀ k, k ∈ header_keys → is_Some (r !! k)) ∧
  (∀ k, k ∈ "LiftSide" :: signal_keys → r !! k = None) ∧
  (FLYER = FLYER ∧ 40 <= Py.len "0102030405060708090A0B0C0D0E0F10111213ZZ" →
   ∃ e, [FlyerDecodingError ValueError] = [FlyerDecodingError e]) ∧
  (¬ (FLYER = FLYER ∧ 40 <= Py.len "0102030405060708090A0B0C0D0E0F10111213ZZ") →
   [FlyerDecodingError ValueError] = []).
Proof.
  split; [vm_compute; reflexivity |].
  apply (undecoded_payload_record sample_schema FLYER line_bad_payload).
  - vm_compute; reflexivity.
  - vm_compute; reflexivity.
  - intros bs Hbs. vm_compute in Hbs. discriminate.
Defined.

End PayloadBlock.

(** ** The tokenizer *)

Section Tokenizer.

Lemma slice_from_1_spec tok : drop_first_char tok (Py.slice tok (Some 1) None).
Proof.
  rewrite slice_from_1. destruct tok as [|c tok]; [by left | right; by exists c].
Qed.

Lemma str_snoc s : s = "" ∨ ∃ s' c, s = s' +:+ String c "".
Proof.
  induction s as [|a s IH]; [by left | right].
  destruct IH as [-> | (s' & c & ->)].
  - by exists "", a.
  - by exists (String a s'), c.
Qed.

Lemma slice_to_last_spec tok : drop_last_char tok (Py.slice tok None (Some (-1))).
Proof.
  destruct (str_snoc tok) as [-> | (s' & c & ->)].
  - left. by rewrite slice_empty.
  - right. exists c. by rewrite slice_to_last.
Qed.

Lemma split_nonempty sep s : Py.split sep s ≠ [].
Proof.
  destruct s as [|c s]; simpl; [done |].
  case_bool_decide; [done |]. by destruct (Py.split sep s).
Qed.

Lemma join_cons_char sep c t ts :
  Py.join sep (String c t :: ts) = String c (Py.join sep (t :: ts)).
Proof. by destruct ts. Qed.

(** The tokens, joined by the separator, are the line. *)
Lemma split_join sep s : Py.join sep (Py.split sep s) = s.
Proof.
  induction s as [|c s IH]; [reflexivity |]. cbn [Py.split].
  case_bool_decide as Hc.
  - subst c. pose proof (split_nonempty sep s) as Hne.
    destruct (Py.split sep s) as [|t ts] eqn:Hs; [done |].
    cbn [Py.join]. cbn [Py.join] in IH. by rewrite IH.
  - pose proof (split_nonempty sep s) as Hne.
    destruct (Py.split sep s) as [|t ts] eqn:Hs; [done |].
    by rewrite join_cons_char, IH.
Qed.

(** No token holds the separator. *)
Lemma split_no_sep sep s :
  Forall (fun t => Py.has_char sep t = false) (Py.split sep s).
Proof.
  induction s as [|c s IH]; cbn [Py.split]; [by repeat constructor |].
  case_bool_decide as Hc; [by constructor |].
  destruct (Py.split sep s) as [|t ts].
  { constructor; [|constructor]. cbn [Py.has_char].
    by rewrite bool_decide_eq_false_2. }
  apply Forall_cons in IH as [Ht Hts]. constructor; [|done].
  cbn [Py.has_char]. by rewrite bool_decide_eq_false_2, Ht.
Qed.

(** C7, as stated, fails: split on white space, [line_tabs] has the token
    [rcv] and would be a candidate; the loop splits on the blank only, finds
    one token, and ignores the line. *)
Lemma tabs_are_not_separators :
  whitespace_tokens line_tabs =
    [ "[2024-01-01"; "12:00:00]"; "rcv"; "0x010203";
      "0102030405060708090A0B0C0D0E0F1011121314" ] ∧
  Py.contains_item "rcv" (whitespace_tokens line_tabs) = true ∧
  Py.split " " line_tabs = [line_tabs] ∧
  Py.contains_item "rcv" (Py.split " " line_tabs) = false ∧
  process_line sample_schema FLYER line_tabs = Ignored ∧
  decode_log sample_schema FLYER [line_tabs] = {| allDicts := []; warnings := [] |}.
Proof. repeat split; vm_compute; reflexivity. Qed.

(** C7, amended: the line is split at every blank (and at nothing else:
    the tokens hold no blank and, joined by blanks, give the line back). A
    line none of whose tokens is [rcv] is ignored in silence. Of a line that
    gives a record, the date is token 0 without its first character, the
    time token 1 without its last character, the identifier token 3 and the
    payload token 4. A candidate line of fewer than five tokens is skipped
    with a warning and the records of the other lines are what they are
    without it. *)
Theorem tokenizer_fields sch machine line :
  let splits := Py.split " " line in
  (Py.join " " splits = line ∧
   Forall (fun t => Py.has_char " " t = false) splits) ∧
  ("rcv" ∉ splits →
   process_line sch machine line = Ignored ∧
   ∀ st, run_step sch machine st line = st) ∧
  ("rcv" ∈ splits → process_line sch machine line ≠ Ignored) ∧
  (∀ r ws, process_line sch machine line = Emitted r ws →
     ∃ tok0 tok1 tok3 tok4 date time,
       splits !! 0%nat = Some tok0 ∧ splits !! 1%nat = Some tok1 ∧
       splits !! 3%nat = Some tok3 ∧ splits !! 4%nat = Some tok4 ∧
       drop_first_char tok0 date ∧ drop_last_char tok1 time ∧
       r !! "date" = Some (VStr date) ∧ r !! "time" = Some (VStr time) ∧
       r !! "extID" = Some (VStr tok3) ∧ r !! "hexData" = Some (VStr tok4)) ∧
  ("rcv" ∈ splits → (length splits < 5)%nat →
   process_line sch machine line = Skipped (LineParsingError IndexError) ∧
   ∀ before after,
     allDicts (decode_log sch machine (before ++ line :: after)) =
     allDicts (decode_log sch machine (before ++ after))).
Proof.
  intros splits. split; [| split; [| split; [| split]]].
  - split; [apply split_join | apply split_no_sep].
  - intros Hno.
    assert (process_line sch machine line = Ignored) as Hign.
    { unfold process_line, Py.contains_item. by rewrite bool_decide_eq_false_2. }
    split; [done |]. intros st. unfold run_step. by rewrite Hign.
  - intros Hrcv. unfold process_line, Py.contains_item.
    rewrite bool_decide_eq_true_2 by done.
    by destruct (parse_line _ _ _) as [[? ?]|].
  - intros r ws Hemit.
    apply process_line_Emitted_inv in Hemit
      as (tok0 & tok1 & extID & hexData & msgType & srcName & dstName & base
          & _ & H0 & H1 & H3 & H4 & _ & _ & _ & Hbase & Hres).
    pose proof (base_lookup_header _ _ _ _ _ _ _ _ _ Hbase)
      as (Hdate & Htime & Hext & Hhex & _).
    exists tok0, tok1, extID, hexData,
      (Py.slice tok0 (Some 1) None), (Py.slice tok1 None (Some (-1))).
    repeat (split; [done |]).
    split; [apply slice_from_1_spec |]. split; [apply slice_to_last_spec |].
    rewrite !(flyer_result_lookup _ _ _ _ _ _ Hres);
      try done; apply header_keys_not_signal; set_solver.
  - intros Hrcv Hlen.
    pose proof (process_line_short sch machine line Hrcv Hlen) as Hskip.
    split; [done |]. intros before after.
    apply decode_log_skip. unfold record_of. by rewrite Hskip.
Qed.

Example three_tokens_skipped :
  process_line sample_schema FLYER line_three_tokens
    = Skipped (LineParsingError IndexError) ∧
  decode_log sample_schema FLYER [line_three_tokens; sample_line; "# header"]
    = {| allDicts := [sample_record]; warnings := [LineParsingError IndexError] |}.
Proof. split; vm_compute; reflexivity. Qed.

(** Two blanks in a row give an empty token, and the fields move by one. *)
Example double_blank_shifts_tokens :
  Py.split " " "[2024-01-01 12:00:00]  rcv 0x010203 0102" =
    [ "[2024-01-01"; "12:00:00]"; ""; "rcv"; "0x010203"; "0102" ] ∧
  process_line sample_schema FLYER "[2024-01-01 12:00:00]  rcv 0x010203 0102"
    = Skipped (LineParsingError KeyError).
Proof. split; vm_compute; reflexivity. Qed.

End Tokenizer.

(** ** The run as a whole *)

Section Run.

Lemma run_warnings sch machine st lines :
  warnings (foldl (run_step sch machine) st lines) =
  warnings st ++ concat (map (warnings_of sch machine) lines).
Proof.
  revert st. induction lines as [|line lines IH]; intros st.
  - simpl. by rewrite app_nil_r.
  - cbn [foldl map concat]. rewrite IH. unfold run_step, warnings_of.
    destruct (process_line sch machine line); simpl;
      [done | by rewrite <- app_assoc..].
Qed.

Lemma decode_log_warnings sch machine lines :
  warnings (decode_log sch machine lines) = concat (map (warnings_of sch machine) lines).
Proof. unfold decode_log. by rewrite run_warnings. Qed.

(** X1: lines are decoded one by one and share nothing: the records and the
    warnings of a log made of two parts are those of the first part followed
    by those of the second. *)
Theorem decode_log_app sch machine lines1 lines2 :
  allDicts (decode_log sch machine (lines1 ++ lines2)) =
    allDicts (decode_log sch machine lines1) ++ allDicts (decode_log sch machine lines2) ∧
  warnings (decode_log sch machine (lines1 ++ lines2)) =
    warnings (decode_log sch machine lines1) ++ warnings (decode_log sch machine lines2).
Proof.
  rewrite !decode_log_allDicts, !decode_log_warnings. split.
  - apply omap_app.
  - by rewrite map_app, concat_app.
Qed.

(** A candidate line gives a record or the warning of a skipped line, and
    not both; another line gives neither. *)
Lemma line_accounting sch machine line :
  (length (option_list (record_of sch machine line))
   + length (List.filter is_line_error (warnings_of sch machine line)))%nat =
  if is_candidate line then 1%nat else 0%nat.
Proof.
  unfold record_of, warnings_of, is_candidate.
  destruct (process_line sch machine line) as [|w|r ws] eqn:Hp.
  - unfold process_line in Hp. destruct (Py.contains_item _ _); [|done].
    by destruct (parse_line _ _ _) as [[? ?]|].
  - unfold process_line in Hp. destruct (Py.contains_item _ _); [|done].
    destruct (parse_line _ _ _) as [[? ?]|]; [done |]. by injection Hp as <-.
  - pose proof Hp as [Hrcv _]%process_line_Emitted.
    apply process_line_Emitted_inv in Hp
      as (? & ? & ? & ? & ? & ? & ? & ? & _ & _ & _ & _ & _ & _ & _ & _ & _ & Hres).
    unfold Py.contains_item. rewrite bool_decide_eq_true_2 by done.
    by destruct Hres.
Qed.

(** X2: every candidate line is accounted for: the number of records plus the
    number of line-parsing warnings is the number of lines that have the token
    [rcv]. *)
Theorem records_and_skips_count sch machine lines :
  (length (allDicts (decode_log sch machine lines))
   + length (List.filter is_line_error (warnings (decode_log sch machine lines))))%nat =
  length (List.filter is_candidate lines).
Proof.
  rewrite decode_log_allDicts, decode_log_warnings.
  induction lines as [|line lines IH]; [reflexivity |].
  cbn [map concat List.filter].
  replace (omap (record_of sch machine) (line :: lines))
    with (option_list (record_of sch machine line)
          ++ omap (record_of sch machine) lines)
    by (simpl; by destruct (record_of sch machine line)).
  rewrite List.filter_app, !length_app.
  pose proof (line_accounting sch machine line) as Hline.
  destruct (is_candidate line); cbn [length]; lia.
Qed.

End Run.

(** ** What a line can raise *)

Section Exceptions.

(** [bytes.fromhex] raises nothing but [ValueError]. *)
Lemma fromhex_raises s e : Py.fromhex s = Raise e → e = ValueError.
Proof.
  assert (∀ n s, (String.length s ≤ n)%nat → Py.fromhex s = Raise e → e = ValueError)
    as Hn.
  { clear s. induction n as [|n IH]; intros [|c s] Hlen Hs; simpl in Hlen;
      try lia; try done.
    simpl in Hs. destruct (Py.is_ascii_space c).
    - apply (IH s); [lia | done].
    - destruct (Py.hex_value c); [|congruence].
      destruct s as [|c' s]; [congruence |].
      destruct (Py.hex_value c'); [|congruence].
      destruct (Py.fromhex s) eqn:Hrest; [done |]. cbn [bind] in Hs.
      injection Hs as <-. apply (IH s); [simpl in Hlen; lia | done]. }
  by apply (Hn (String.length s)).
Qed.

Lemma message_branch_raises sch hexData d e :
  message_branch sch hexData d = Raise e → e = KeyError ∨ e = ValueError.
Proof.
  unfold message_branch, dict_getitem, loc.
  destruct (d !! "msgType") as [mt|]; cbn [bind]; [|intros [= <-]; by left].
  destruct (value_is_str mt "Operation").
  - destruct (Operations sch !! hexData); cbn [bind]; [done | intros [= <-]; by left].
  - destruct (value_is_str mt "Error"); [|done].
    destruct (Py.int hexData) eqn:Hint; cbn [bind].
    + destruct (Errors sch !! a); cbn [bind]; [done | intros [= <-]; by left].
    + intros [= <-]. right. by apply int_raises in Hint.
Qed.

(** The outer [try] raises [IndexError] when a token is missing, and
    otherwise [KeyError] or [ValueError]. *)
Lemma parse_line_raises sch machine splits e :
  parse_line sch machine splits = Raise e →
  (e = IndexError ∧ (length splits < 5)%nat)
  ∨ ((e = KeyError ∨ e = ValueError) ∧ (5 ≤ length splits)%nat).
Proof.
  unfold parse_line, Py.getitem, loc. intros H.
  destruct splits as [|t0 [|t1 [|t2 [|t3 [|t4 ts]]]]];
    cbn [lookup list_lookup bind] in H;
    try (left; split; [by injection H | simpl; lia]).
  right. split; [|simpl; lia].
  destruct (id_codes t3) as [[fID dst] source].
  destruct (functionIDs sch !! fID); cbn [bind] in H; [|injection H as <-; by left].
  destruct (machineIDs sch machine !! source); cbn [bind] in H;
    [|injection H as <-; by left].
  destruct (machineIDs sch machine !! dst); cbn [bind] in H;
    [|injection H as <-; by left].
  destruct (message_branch _ _ _) eqn:Hmb; cbn [bind] in H; [done |].
  injection H as <-. by apply message_branch_raises in Hmb.
Qed.

Lemma parse_line_Ok_length sch machine splits r ws :
  parse_line sch machine splits = Ok (r, ws) → (5 ≤ length splits)%nat.
Proof.
  intros (? & ? & ? & hexData & _ & _ & _ & _ & _ & _ & _ & H4 & _)%parse_line_Ok.
  apply lookup_lt_Some in H4. lia.
Qed.

(** X3: what a line can leave behind. A line without the token [rcv] leaves
    nothing. A candidate line leaves one record or one warning of a skipped
    line: [IndexError] exactly when it has fewer than five tokens, [KeyError]
    or [ValueError] otherwise; no line is skipped for an [AttributeError]. A
    record comes with at most one warning, that of the payload block: for a
    [ValueError], for an [IndexError], or for the [AttributeError] of a name
    that is not text, and for that one only when a name of the record is not
    text. *)
Theorem line_outcomes sch machine line :
  match process_line sch machine line with
  | Ignored => is_candidate line = false
  | Skipped w =>
      is_candidate line = true ∧
      ((w = LineParsingError IndexError ∧ (length (Py.split " " line) < 5)%nat)
       ∨ ((w = LineParsingError KeyError ∨ w = LineParsingError ValueError)
          ∧ (5 ≤ length (Py.split " " line))%nat))
  | Emitted r ws =>
      is_candidate line = true ∧ (5 ≤ length (Py.split " " line))%nat ∧
      (ws = [] ∨ ws = [FlyerDecodingError ValueError]
       ∨ ws = [FlyerDecodingError IndexError]
       ∨ (ws = [FlyerDecodingError AttributeError] ∧ ¬ names_are_text r))
  end.
Proof.
  destruct (process_line sch machine line) as [|w|r ws] eqn:Hp.
  - unfold process_line in Hp. unfold is_candidate.
    destruct (Py.contains_item _ _); [|done].
    by destruct (parse_line _ _ _) as [[? ?]|].
  - unfold process_line in Hp. unfold is_candidate.
    destruct (Py.contains_item _ _); [|done]. split; [done |].
    destruct (parse_line _ _ _) as [[? ?]|e] eqn:Hparse; [done |].
    injection Hp as <-.
    apply parse_line_raises in Hparse as [[-> Hlen] | [[-> | ->] Hlen]]; auto.
  - pose proof Hp as [Hrcv Hparse]%process_line_Emitted.
    apply parse_line_Ok_length in Hparse.
    apply process_line_Emitted_inv in Hp
      as (? & ? & ? & ? & ? & ? & ? & base
          & _ & _ & _ & _ & _ & _ & _ & _ & Hbase & Hres).
    unfold is_candidate, Py.contains_item. rewrite bool_decide_eq_true_2 by done.
    repeat split; [done |].
    assert (base !! "LiftSide" = None) as Hside.
    { apply (base_lookup_other _ _ _ _ _ _ _ _ _ _ Hbase). by_evaluation. }
    pose proof (flyer_result_names _ _ _ _ _ Hres Hside) as Hnames.
    destruct Hres as [_ | e _ _ Hraise | bs _ _ _ _ | bs src dst _ _ _ _ _ _
                      | bs _ _ _ _ Hno]; auto.
    + apply fromhex_raises in Hraise as ->. auto.
    + right. right. right. split; [done |]. by rewrite Hnames.
Qed.

(** The three warnings of the payload block, on three frames. *)
Example payload_block_warnings :
  warnings_of sample_schema FLYER line_bad_payload = [FlyerDecodingError ValueError] ∧
  warnings_of sample_schema FLYER line_empty_name = [FlyerDecodingError AttributeError] ∧
  warnings_of sample_schema FLYER sample_line = [].
Proof. repeat split; vm_compute; reflexivity. Qed.

End Exceptions.

(** ** The fields of a record *)

Section RecordFields.

Lemma value_is_str_true v s : value_is_str v s = true → v = VStr s.
Proof. destruct v; cbn; try done. by intros ->%bool_decide_eq_true_1. Qed.

Lemma value_is_str_false v s : value_is_str v s = false → v ≠ VStr s.
Proof.
  destruct v; cbn; try done. intros Hne%bool_decide_eq_false_1. congruence.
Qed.

(** What lines 72-75 make of the header dictionary. *)
Lemma base_cases sch date time extID hexData msgType srcName dstName base :
  let hdr := header_dict date time extID hexData msgType srcName dstName in
  message_branch sch hexData hdr = Ok base →
  (msgType = VStr "Operation" ∧
   ∃ op, Operations sch !! hexData = Some op ∧
         base = <["OperationCommand" := op]> hdr)
  ∨ (msgType = VStr "Error" ∧
     ∃ n err, Py.int hexData = Ok n ∧ Errors sch !! n = Some err ∧
              base = <["ErrorCommand" := err]> hdr)
  ∨ (msgType ≠ VStr "Operation" ∧ msgType ≠ VStr "Error" ∧ base = hdr).
Proof.
  intros hdr Hbase.
  pose proof (header_dict_lookup date time extID hexData msgType srcName dstName)
    as (_ & _ & _ & _ & Hmt & _).
  rewrite (message_branch_spec _ _ _ msgType Hmt) in Hbase. unfold loc in Hbase.
  destruct (value_is_str msgType "Operation") eqn:Hop.
  - apply value_is_str_true in Hop. left. split; [done |].
    destruct (Operations sch !! hexData) as [op|] eqn:Eop; [|done].
    injection Hbase as <-. by exists op.
  - apply value_is_str_false in Hop.
    destruct (value_is_str msgType "Error") eqn:Herr.
    + apply value_is_str_true in Herr. right. left. split; [done |].
      destruct (Py.int hexData) as [n|] eqn:Eint; [|done]. cbn [bind] in Hbase.
      destruct (Errors sch !! n) as [err|] eqn:Eerr; [|done].
      injection Hbase as <-. by exists n, err.
    + apply value_is_str_false in Herr. right. right. by injection Hbase as <-.
Qed.

(** X4: the names of a record are those of its own identifier: its message
    type is the entry of the function table, and its source and destination
    the entries of the address table of the machine, at the codes cut from
    the [extID] the record holds. *)
Theorem record_names_resolved sch machine line r ws :
  process_line sch machine line = Emitted r ws →
  ∃ extID msgType srcName dstName,
    r !! "extID" = Some (VStr extID) ∧
    r !! "msgType" = Some msgType ∧
    r !! "source" = Some srcName ∧
    r !! "dst" = Some dstName ∧
    functionIDs sch !! (id_codes extID).1.1 = Some msgType ∧
    machineIDs sch machine !! (id_codes extID).2 = Some srcName ∧
    machineIDs sch machine !! (id_codes extID).1.2 = Some dstName.
Proof.
  intros Hemit.
  apply process_line_Emitted_inv in Hemit
    as (tok0 & tok1 & extID & hexData & msgType & srcName & dstName & base
        & _ & _ & _ & _ & _ & Hf & Hs & Hd & Hbase & Hres).
  pose proof (base_lookup_header _ _ _ _ _ _ _ _ _ Hbase)
    as (_ & _ & Hext & _ & Hmt & Hsrc & Hdst).
  exists extID, msgType, srcName, dstName.
  rewrite !(flyer_result_lookup _ _ _ _ _ _ Hres);
    try done; try (apply header_keys_not_signal; set_solver).
Qed.

(** X4 on the sample line. *)
Lemma record_names_resolved_witness :
  ∃ extID msgType srcName dstName,
    sample_record !! "extID" = Some (VStr extID) ∧
    sample_record !! "msgType" = Some msgType ∧
    sample_record !! "source" = Some srcName ∧
    sample_record !! "dst" = Some dstName ∧
    functionIDs sample_schema !! (id_codes extID).1.1 = Some msgType ∧
    machineIDs sample_schema FLYER !! (id_codes extID).2 = Some srcName ∧
    machineIDs sample_schema FLYER !! (id_codes extID).1.2 = Some dstName.
Proof.
  apply (record_names_resolved sample_schema FLYER sample_line sample_record []).
  vm_compute; reflexivity.
Defined.

(** X5: in a frame whose message type is "Operation" the payload, as the
    string it is, is looked up in the operation table. When the table has it
    the record holds the name as [OperationCommand] and has no
    [ErrorCommand]; when it has not, the lookup raises [KeyError] and the line
    gives a warning and no record. *)
Theorem operation_payload_lookup sch machine line tok0 tok1 extID hexData
    srcName dstName :
  "rcv" ∈ Py.split " " line →
  Py.split " " line !! 0%nat = Some tok0 → Py.split " " line !! 1%nat = Some tok1 →
  Py.split " " line !! 3%nat = Some extID → Py.split " " line !! 4%nat = Some hexData →
  functionIDs sch !! (id_codes extID).1.1 = Some (VStr "Operation") →
  machineIDs sch machine !! (id_codes extID).2 = Some srcName →
  machineIDs sch machine !! (id_codes extID).1.2 = Some dstName →
  match Operations sch !! hexData with
  | Some op =>
      ∃ r ws, process_line sch machine line = Emitted r ws ∧
              r !! "OperationCommand" = Some op ∧
              r !! "ErrorCommand" = None ∧
              r !! "hexData" = Some (VStr hexData)
  | None =>
      process_line sch machine line = Skipped (LineParsingError KeyError) ∧
      record_of sch machine line = None
  end.
Proof.
  intros Hrcv H0 H1 H3 H4 Hf Hs Hd.
  pose proof (process_line_resolved sch machine line tok0 tok1 extID hexData
                (VStr "Operation") srcName dstName Hrcv H0 H1 H3 H4 Hf Hs Hd)
    as Hline.
  pose proof (header_dict_lookup (Py.slice tok0 (Some 1) None)
                (Py.slice tok1 None (Some (-1))) extID hexData (VStr "Operation")
                srcName dstName) as (_ & _ & _ & Hhex & Hmt & Hsrc & Hdst).
  rewrite (message_branch_spec _ _ _ (VStr "Operation") Hmt) in Hline.
  cbn [value_is_str] in Hline.
  rewrite bool_decide_eq_true_2 in Hline by done. unfold loc in Hline.
  destruct (Operations sch !! hexData) as [op|]; cbn [bind] in Hline.
  - eexists _, _. split; [exact Hline |].
    pose proof (flyer_block_result machine hexData
                  (<["OperationCommand" := op]>
                     (header_dict (Py.slice tok0 (Some 1) None)
                        (Py.slice tok1 None (Some (-1))) extID hexData
                        (VStr "Operation") srcName dstName)) srcName dstName)
      as Hres.
    rewrite !(flyer_result_lookup _ _ _ _ _ _ (Hres ltac:(by simplify_map_eq)
                                                  ltac:(by simplify_map_eq)));
      [| by_evaluation | done | by_evaluation | done | by_evaluation | done].
    rewrite lookup_insert_eq, !lookup_insert_ne by done.
    split; [done |]. split; [|done].
    apply header_dict_lookup_other. by_evaluation.
  - split; [done |]. unfold record_of. by rewrite Hline.
Qed.

(** X5 on an operation frame with the payload [0001]. *)
Lemma operation_payload_lookup_witness :
  ∃ r ws, process_line sample_schema FLYER "[2024-01-01 12:00:00] rcv 0x020203 0001"
            = Emitted r ws ∧
          r !! "OperationCommand" = Some (VStr "Start") ∧
          r !! "ErrorCommand" = None ∧
          r !! "hexData" = Some (VStr "0001").
Proof.
  apply (operation_payload_lookup sample_schema FLYER
           "[2024-01-01 12:00:00] rcv 0x020203 0001"
           "[2024-01-01" "12:00:00]" "0x020203" "0001"
           (VStr "Right Motor") (VStr "Controller")).
  - by_evaluation.
  - vm_compute; reflexivity.
  - vm_compute; reflexivity.
  - vm_compute; reflexivity.
  - vm_compute; reflexivity.
  - vm_compute; reflexivity.
  - vm_compute; reflexivity.
  - vm_compute; reflexivity.
Defined.

(** X6: a record has an [OperationCommand] exactly when its message type is
    "Operation", and it is then the entry of the operation table at the
    payload; it has an [ErrorCommand] exactly when its message type is
    "Error", and it is then the entry of the error table at the payload read
    as a base-10 integer. No record has both. *)
Theorem command_fields sch machine line r ws :
  process_line sch machine line = Emitted r ws →
  ∃ hexData,
    r !! "hexData" = Some (VStr hexData) ∧
    (is_Some (r !! "OperationCommand") ↔ r !! "msgType" = Some (VStr "Operation")) ∧
    (is_Some (r !! "ErrorCommand") ↔ r !! "msgType" = Some (VStr "Error")) ∧
    (∀ v, r !! "OperationCommand" = Some v → Operations sch !! hexData = Some v) ∧
    (∀ v, r !! "ErrorCommand" = Some v →
          ∃ n, Py.int hexData = Ok n ∧ Errors sch !! n = Some v) ∧
    ¬ (is_Some (r !! "OperationCommand") ∧ is_Some (r !! "ErrorCommand")).
Proof.
  intros Hemit.
  apply process_line_Emitted_inv in Hemit
    as (tok0 & tok1 & extID & hexData & msgType & srcName & dstName & base
        & _ & _ & _ & _ & _ & _ & _ & _ & Hbase & Hres).
  pose proof (base_lookup_header _ _ _ _ _ _ _ _ _ Hbase)
    as (_ & _ & _ & Hhex & Hmt & _).
  exists hexData.
  rewrite !(flyer_result_lookup _ _ _ _ _ _ Hres);
    try done; try by_evaluation.
  rewrite Hmt. split; [done |].
  assert (header_dict (Py.slice tok0 (Some 1) None) (Py.slice tok1 None (Some (-1)))
            extID hexData msgType srcName dstName !! "OperationCommand" = None)
    as Hnop by (apply header_dict_lookup_other; by_evaluation).
  assert (header_dict (Py.slice tok0 (Some 1) None) (Py.slice tok1 None (Some (-1)))
            extID hexData msgType srcName dstName !! "ErrorCommand" = None)
    as Hnerr by (apply header_dict_lookup_other; by_evaluation).
  apply base_cases in Hbase
    as [(-> & op & Hop & ->) | [(-> & n & err & Hint & Herr & ->) | (Hn1 & Hn2 & ->)]].
  - rewrite lookup_insert_eq, lookup_insert_ne, Hnerr by done.
    split; [| split; [| split; [| split]]].
    + split; [done | by eexists].
    + split; [by intros [? ?] | done].
    + by intros v [= <-].
    + done.
    + intros [_ [? ?]]. done.
  - rewrite lookup_insert_eq, lookup_insert_ne, Hnop by done.
    split; [| split; [| split; [| split]]].
    + split; [by intros [? ?] | done].
    + split; [done | by eexists].
    + done.
    + intros v [= <-]. by exists n.
    + intros [[? ?] _]. done.
  - rewrite Hnop, Hnerr.
    split; [| split; [| split; [| split]]].
    + split; [by intros [? ?] | by intros [= ->]].
    + split; [by intros [? ?] | by intros [= ->]].
    + done.
    + done.
    + intros [[? ?] _]. done.
Qed.

(** X6 on the sample line. *)
Lemma command_fields_witness :
  ∃ hexData,
    sample_record !! "hexData" = Some (VStr hexData) ∧
    (is_Some (sample_record !! "OperationCommand")
     ↔ sample_record !! "msgType" = Some (VStr "Operation")) ∧
    (is_Some (sample_record !! "ErrorCommand")
     ↔ sample_record !! "msgType" = Some (VStr "Error")) ∧
    (∀ v, sample_record !! "OperationCommand" = Some v →
          Operations sample_schema !! hexData = Some v) ∧
    (∀ v, sample_record !! "ErrorCommand" = Some v →
          ∃ n, Py.int hexData = Ok n ∧ Errors sample_schema !! n = Some v) ∧
    ¬ (is_Some (sample_record !! "OperationCommand")
       ∧ is_Some (sample_record !! "ErrorCommand")).
Proof.
  apply (command_fields sample_schema FLYER sample_line sample_record []).
  vm_compute; reflexivity.
Defined.

End RecordFields.

(** ** The keys of a record and the payload *)

Section RecordKeys.

(** The record of a decoded payload has the twelve signals and the lift
    side. *)
Lemma decoded_keys_present (d : gmap string value) b side k :
  k ∈ "LiftSide" :: signal_keys →
  is_Some ((<["LiftSide" := VStr side]> (dict_update d (signal_items b))) !! k).
Proof.
  intros Hk.
  pose proof (signals_lookup d b side)
    as (H1 & H2 & H3 & H4 & H5 & H6 & H7 & H8 & H9 & H10 & H11 & H12).
  unfold signal_keys in Hk. rewrite !elem_of_cons, elem_of_nil in Hk.
  destruct Hk as [-> | Hk]; [rewrite lookup_insert_eq; by eexists |].
  repeat (destruct Hk as [-> | Hk]; [by eexists |]). done.
Qed.

(** Once the signals are stored the dictionary has all twelve. *)
Lemma signal_keys_present (d : gmap string value) b k :
  k ∈ signal_keys → is_Some (dict_update d (signal_items b) !! k).
Proof.
  intros Hk.
  pose proof (signals_update_lookup d b)
    as (H1 & H2 & H3 & H4 & H5 & H6 & H7 & H8 & H9 & H10 & H11 & H12).
  unfold signal_keys in Hk. rewrite !elem_of_cons, elem_of_nil in Hk.
  repeat (destruct Hk as [-> | Hk]; [by eexists |]). done.
Qed.

(** X7: the keys of a record. A record has the seven header keys, and no key
    outside the seven, the two command names, the twelve signals and the lift
    side. The twelve signals come together or not at all: no record has some
    of them and lacks others. The lift side comes only with the signals, and
    a record that has the signals has the lift side exactly when its two
    names are text. *)
Theorem record_key_set sch machine line r ws :
  process_line sch machine line = Emitted r ws →
  (∀ k, k ∈ header_keys → is_Some (r !! k)) ∧
  (∀ k, is_Some (r !! k) → k ∈ record_keys) ∧
  ((∀ k, k ∈ signal_keys → is_Some (r !! k))
   ∨ (∀ k, k ∈ "LiftSide" :: signal_keys → r !! k = None)) ∧
  (is_Some (r !! "LiftSide") → ∀ k, k ∈ signal_keys → is_Some (r !! k)) ∧
  ((∀ k, k ∈ signal_keys → is_Some (r !! k)) →
   (is_Some (r !! "LiftSide") ↔ names_are_text r)).
Proof.
  intros Hemit.
  apply process_line_Emitted_inv in Hemit
    as (tok0 & tok1 & extID & hexData & msgType & srcName & dstName & base
        & _ & _ & _ & _ & _ & _ & _ & _ & Hbase & Hres).
  pose proof (base_lookup_header _ _ _ _ _ _ _ _ _ Hbase)
    as (Hdate & Htime & Hext & Hbhex & Hmt & Hsrc & Hdst).
  pose proof (fun k => base_lookup_other _ _ _ _ _ _ _ _ _ k Hbase) as Hnone.
  assert (∀ k, k ∈ header_keys → is_Some (base !! k)) as Hhdr.
  { intros k Hk. unfold header_keys in Hk. rewrite !elem_of_cons, elem_of_nil in Hk.
    destruct Hk as [-> | [-> | [-> | [-> | [-> | [-> | [-> | []]]]]]]]; by eexists. }
  assert (∀ k, is_Some (base !! k) → k ∈ record_keys) as Hbkeys.
  { intros k Hk. unfold record_keys. rewrite !elem_of_app.
    destruct (decide (k ∈ header_keys)) as [? | Hnh]; [by left |].
    right. left.
    destruct (decide (k = "OperationCommand")) as [-> | Hop]; [by_evaluation |].
    destruct (decide (k = "ErrorCommand")) as [-> | Herr]; [by_evaluation |].
    rewrite (message_branch_lookup _ _ _ _ _ Hbase) in Hk by done.
    rewrite header_dict_lookup_other in Hk by done. by destruct Hk. }
  assert (base !! "LiftSide" = None) as Hside by (apply Hnone; by_evaluation).
  assert (base !! "targetPosition" = None) as Htp by (apply Hnone; by_evaluation).
  pose proof (flyer_result_names _ _ _ _ _ Hres Hside) as Hnames.
  split; [| split].
  - intros k Hk. rewrite (flyer_result_lookup _ _ _ _ _ k Hres); [by apply Hhdr | |].
    + by apply header_keys_not_signal.
    + intros ->. revert Hk. by_evaluation.
  - intros k Hk.
    destruct (decide (k ∈ "LiftSide" :: signal_keys)) as [Hin | Hnin].
    { unfold record_keys. rewrite !elem_of_app. by right; right. }
    apply not_elem_of_cons in Hnin as [Hns Hnk].
    rewrite (flyer_result_lookup _ _ _ _ _ k Hres) in Hk by done. by apply Hbkeys.
  - assert (∀ d : gmap string value,
              d !! "LiftSide" = None → d !! "targetPosition" = None →
              (∀ k, k ∈ "LiftSide" :: signal_keys → d !! k = None) →
              (is_Some (d !! "LiftSide") → ∀ k, k ∈ signal_keys → is_Some (d !! k)) ∧
              ((∀ k, k ∈ signal_keys → is_Some (d !! k)) →
               (is_Some (d !! "LiftSide") ↔ names_are_text r))) as Hplain.
    { intros d Hd1 Hd2 Hd. split.
      - rewrite Hd1. by intros [? ?].
      - intros Hall. specialize (Hall "targetPosition" ltac:(by_evaluation)).
        rewrite Hd2 in Hall. by destruct Hall. }
    destruct Hres as [_ | e _ _ _ | bs' _ _ _ _ | bs src dst _ _ _ _ Hs Hd
                      | bs _ _ _ _ Hno].
    1-3: by (split; [by right | by apply Hplain]).
    + split; [| split].
      * left. intros k Hk. apply decoded_keys_present. by right.
      * intros _ k Hk. apply decoded_keys_present. by right.
      * intros _. rewrite lookup_insert_eq. split; [|by eexists].
        intros _. apply Hnames. by exists src, dst.
    + split; [| split].
      * left. intros k Hk. by apply signal_keys_present.
      * intros _ k Hk. by apply signal_keys_present.
      * intros _.
        rewrite dict_update_lookup_ne by (rewrite signal_items_keys; by_evaluation).
        rewrite Hside, Hnames. split; [by intros [? ?] | done].
Qed.

(** X7 on the sample line. *)
Lemma record_key_set_witness :
  (∀ k, k ∈ header_keys → is_Some (sample_record !! k)) ∧
  (∀ k, is_Some (sample_record !! k) → k ∈ record_keys) ∧
  ((∀ k, k ∈ signal_keys → is_Some (sample_record !! k))
   ∨ (∀ k, k ∈ "LiftSide" :: signal_keys → sample_record !! k = None)) ∧
  (is_Some (sample_record !! "LiftSide") →
   ∀ k, k ∈ signal_keys → is_Some (sample_record !! k)) ∧
  ((∀ k, k ∈ signal_keys → is_Some (sample_record !! k)) →
   (is_Some (sample_record !! "LiftSide") ↔ names_are_text sample_record)).
Proof.
  apply (record_key_set sample_schema FLYER sample_line sample_record []).
  vm_compute; reflexivity.
Defined.

End RecordKeys.

(** ** Payloads of hexadecimal digits *)

Section HexPayload.

Lemma hex_value_not_space c d : Py.hex_value c = Some d → Py.is_ascii_space c = false.
Proof.
  unfold Py.hex_value, Py.digit_value, Py.is_ascii_space.
  generalize (Py.ord c). intros n.
  destruct ((48 <=? n) && (n <=? 57)) eqn:E1;
    [|destruct ((97 <=? n) && (n <=? 122)) eqn:E2;
      [|destruct ((65 <=? n) && (n <=? 90)) eqn:E3]]; [| | |done]; intros _; lia.
Qed.

Lemma get_cons_cons c c' s i :
  String.get (2 * S i) (String c (String c' s)) = String.get (2 * i) s ∧
  String.get (2 * S i + 1) (String c (String c' s)) = String.get (2 * i + 1) s.
Proof.
  replace (2 * S i)%nat with (S (S (2 * i))) by lia.
  replace (S (S (2 * i)) + 1)%nat with (S (S (2 * i + 1))) by lia. by split.
Qed.

(** X8: [bytes.fromhex] on a string of hexadecimal digits. With an even
    number of digits it gives one byte for each pair, the byte at [i] being
    sixteen times the digit at [2 i] plus the digit at [2 i + 1]; with an odd
    number it raises [ValueError]. *)
Theorem fromhex_hex_digits s :
  all_hex s = true →
  match Py.fromhex s with
  | Ok bs =>
      Py.len s = 2 * Z.of_nat (length bs) ∧ ∀ i, bs !! i = hex_pair_at s i
  | Raise e => e = ValueError ∧ Z.odd (Py.len s) = true
  end.
Proof.
  assert (∀ n s, (String.length s ≤ n)%nat → all_hex s = true →
            match Py.fromhex s with
            | Ok bs =>
                Py.len s = 2 * Z.of_nat (length bs) ∧ ∀ i, bs !! i = hex_pair_at s i
            | Raise e => e = ValueError ∧ Z.odd (Py.len s) = true
            end) as Hn.
  { clear s. induction n as [|n IH]; intros [|c s] Hlen Hhex; simpl in Hlen;
      try lia; try (split; [reflexivity | by intros [|i]]).
    cbn [all_hex] in Hhex. cbn [Py.fromhex].
    destruct (Py.hex_value c) as [top|] eqn:Htop; [|done].
    rewrite (hex_value_not_space _ _ Htop).
    destruct s as [|c' s]; [done |].
    cbn [all_hex] in Hhex.
    destruct (Py.hex_value c') as [bot|] eqn:Hbot; [|done].
    specialize (IH s ltac:(simpl in Hlen; lia) Hhex).
    cbn [Py.len].
    destruct (Py.fromhex s) as [rest|e]; cbn [bind].
    - destruct IH as [IHlen IHget]. split; [cbn [length]; lia |].
      intros [|i].
      + unfold hex_pair_at. cbn. rewrite Htop, Hbot.
        apply hex_value_range in Htop. rewrite Z.shiftl_mul_pow2 by lia.
        f_equal. lia.
      + cbn [lookup list_lookup]. change (rest !! i = hex_pair_at (String c (String c' s)) (S i)).
        rewrite IHget. unfold hex_pair_at.
        by destruct (get_cons_cons c c' s i) as [-> ->].
    - destruct IH as [-> Hodd]. split; [done |].
      pose proof (len_nonneg s).
      replace (1 + (1 + Py.len s)) with (Py.len s + 2 * 1) by lia.
      rewrite Z.odd_add_mul_2. done. }
  by apply (Hn (String.length s)).
Qed.

(** X8 on four digits. *)
Lemma fromhex_hex_digits_witness :
  Py.len "0102" = 2 * Z.of_nat (length [1; 2]) ∧
  ∀ i, [1; 2] !! i = hex_pair_at "0102" i.
Proof. apply (fromhex_hex_digits "0102"). reflexivity. Defined.

(** On hexadecimal digits [bytes.fromhex] fails exactly when their number
    is odd. *)
Lemma fromhex_all_hex_parity s :
  all_hex s = true →
  match Py.fromhex s with
  | Ok bs => Py.len s = 2 * Z.of_nat (length bs)
  | Raise e => e = ValueError ∧ Z.odd (Py.len s) = true
  end.
Proof.
  assert (∀ n s, (String.length s ≤ n)%nat → all_hex s = true →
            match Py.fromhex s with
            | Ok bs => Py.len s = 2 * Z.of_nat (length bs)
            | Raise e => e = ValueError ∧ Z.odd (Py.len s) = true
            end) as Hn.
  { clear s. induction n as [|n IH]; intros [|c s] Hlen Hhex; simpl in Hlen;
      try lia; try reflexivity.
    cbn [all_hex] in Hhex. cbn [Py.fromhex].
    destruct (Py.hex_value c) as [top|] eqn:Htop; [|done].
    rewrite (hex_value_not_space _ _ Htop).
    destruct s as [|c' s]; [done |].
    cbn [all_hex] in Hhex.
    destruct (Py.hex_value c') as [bot|] eqn:Hbot; [|done].
    specialize (IH s ltac:(simpl in Hlen; lia) Hhex).
    cbn [Py.len].
    destruct (Py.fromhex s) as [rest|e]; cbn [bind].
    - cbn [length]. lia.
    - destruct IH as [-> Hodd]. split; [done |].
      replace (1 + (1 + Py.len s)) with (Py.len s + 2 * 1) by lia.
      by rewrite Z.odd_add_mul_2. }
  by apply (Hn (String.length s)).
Qed.

(** A character that is neither a digit nor white space makes
    [bytes.fromhex] raise. *)
Lemma fromhex_non_hex s : has_non_hex s = true → Py.fromhex s = Raise ValueError.
Proof.
  assert (∀ n s, (String.length s ≤ n)%nat → has_non_hex s = true →
                 Py.fromhex s = Raise ValueError) as Hn.
  { clear s. induction n as [|n IH]; intros [|c s] Hlen Hbad; simpl in Hlen;
      try lia; try done.
    cbn [has_non_hex] in Hbad. cbn [Py.fromhex].
    destruct (Py.is_ascii_space c) eqn:Hsp.
    { apply IH; [lia |]. destruct (Py.hex_value c); by simpl in Hbad. }
    destruct (Py.hex_value c) as [top|]; [|done]. simpl in Hbad.
    destruct s as [|c' s]; [done |]. cbn [has_non_hex] in Hbad.
    destruct (Py.hex_value c') as [bot|]; [|done]. simpl in Hbad.
    rewrite (IH s); [done | simpl in Hlen; lia | done]. }
  by apply (Hn (String.length s)).
Qed.

(** X9: a FLYER record whose payload is an even number, 40 or more, of
    hexadecimal digits always has its twelve signals. When its two names are
    text it has its lift side too and comes without a warning; when one of
    them is not text it has no lift side and comes with the warning of the
    payload block, for an [AttributeError]. *)
Theorem flyer_hex_payload_decoded sch line r ws hexData :
  process_line sch FLYER line = Emitted r ws →
  r !! "hexData" = Some (VStr hexData) →
  all_hex hexData = true → Z.even (Py.len hexData) = true → 40 <= Py.len hexData →
  (∀ k, k ∈ signal_keys → is_Some (r !! k)) ∧
  (names_are_text r → ws = [] ∧ is_Some (r !! "LiftSide")) ∧
  (¬ names_are_text r →
   ws = [FlyerDecodingError AttributeError] ∧ r !! "LiftSide" = None).
Proof.
  intros Hemit Hhex Hall Heven Hlen.
  apply process_line_Emitted_inv in Hemit
    as (tok0 & tok1 & extID & hexData' & msgType & srcName & dstName & base
        & _ & _ & _ & _ & _ & _ & _ & _ & Hbase & Hres).
  pose proof (base_lookup_header _ _ _ _ _ _ _ _ _ Hbase)
    as (_ & _ & _ & Hbhex & _).
  rewrite (flyer_result_lookup _ _ _ _ _ "hexData" Hres) in Hhex;
    [| apply header_keys_not_signal; by_evaluation | done].
  rewrite Hbhex in Hhex. injection Hhex as ->.
  assert (base !! "LiftSide" = None) as Hside.
  { apply (base_lookup_other _ _ _ _ _ _ _ _ _ _ Hbase). by_evaluation. }
  pose proof (flyer_result_names _ _ _ _ _ Hres Hside) as Hnames.
  pose proof (fromhex_all_hex_parity hexData Hall) as Hdec.
  destruct Hres as [Hoff | e _ _ Hraise | bs _ _ Hbs Hshort
                    | bs src dst _ _ Hbs Hlong Hsrc Hdst
                    | bs _ _ Hbs Hlong Hno].
  - destruct Hoff. by split.
  - rewrite Hraise in Hdec. destruct Hdec as [_ Hodd].
    rewrite <- Z.negb_odd, Hodd in Heven. done.
  - rewrite Hbs in Hdec. lia.
  - split; [| split].
    + intros k Hk. apply decoded_keys_present. by right.
    + intros _. split; [done |]. rewrite lookup_insert_eq. by eexists.
    + intros Hno. destruct Hno. apply Hnames. by exists src, dst.
  - split; [| split].
    + intros k Hk. by apply signal_keys_present.
    + intros Htext. destruct Hno. by apply Hnames.
    + intros _. split; [done |].
      by rewrite dict_update_lookup_ne by (rewrite signal_items_keys; by_evaluation).
Qed.

(** X9 on the sample line, whose names are text. *)
Lemma flyer_hex_payload_decoded_witness :
  names_are_text sample_record ∧
  (∀ k, k ∈ signal_keys → is_Some (sample_record !! k)) ∧
  (names_are_text sample_record →
   ([] : list warning) = [] ∧ is_Some (sample_record !! "LiftSide")) ∧
  (¬ names_are_text sample_record →
   ([] : list warning) = [FlyerDecodingError AttributeError]
   ∧ sample_record !! "LiftSide" = None).
Proof.
  split; [exists "Right Motor", "Controller"; split; vm_compute; reflexivity |].
  apply (flyer_hex_payload_decoded sample_schema sample_line sample_record []
           "0102030405060708090A0B0C0D0E0F1011121314").
  - vm_compute; reflexivity.
  - vm_compute; reflexivity.
  - vm_compute; reflexivity.
  - vm_compute; reflexivity.
  - vm_compute; discriminate.
Defined.

(** A source name that is a number: the payload is decoded, the lift side is
    not derived. *)
Example number_name_cell_no_lift_side :
  FlyerAddressIDs sample_schema !! "07" = Some (VInt 7) ∧
  (∃ r, process_line sample_schema FLYER
          "[2024-01-01 12:00:00] rcv 0x010207 0102030405060708090A0B0C0D0E0F1011121314"
          = Emitted r [FlyerDecodingError AttributeError] ∧
        r !! "source" = Some (VInt 7) ∧
        r !! "targetPosition" = Some (VFloat 2.58%float) ∧
        r !! "LiftSide" = None).
Proof.
  split; [vm_compute; reflexivity |].
  eexists. split; [vm_compute; reflexivity |].
  repeat split; vm_compute; reflexivity.
Qed.

(** X10: a FLYER record whose payload of 40 or more characters holds a
    character that is neither a hexadecimal digit nor ASCII white space, or
    is an odd number of hexadecimal digits, has no signal and no lift side, and
    comes with the warning of the payload block for a [ValueError]. *)
Theorem flyer_bad_payload_warned sch line r ws hexData :
  process_line sch FLYER line = Emitted r ws →
  r !! "hexData" = Some (VStr hexData) →
  40 <= Py.len hexData →
  has_non_hex hexData = true
  ∨ (all_hex hexData = true ∧ Z.odd (Py.len hexData) = true) →
  ws = [FlyerDecodingError ValueError] ∧
  ∀ k, k ∈ "LiftSide" :: signal_keys → r !! k = None.
Proof.
  intros Hemit Hhex Hlen Hbad.
  apply process_line_Emitted_inv in Hemit
    as (tok0 & tok1 & extID & hexData' & msgType & srcName & dstName & base
        & _ & _ & _ & _ & _ & _ & _ & _ & Hbase & Hres).
  pose proof (base_lookup_header _ _ _ _ _ _ _ _ _ Hbase)
    as (_ & _ & _ & Hbhex & _).
  pose proof (fun k => base_lookup_other _ _ _ _ _ _ _ _ _ k Hbase) as Hnone.
  rewrite (flyer_result_lookup _ _ _ _ _ "hexData" Hres) in Hhex;
    [| apply header_keys_not_signal; by_evaluation | done].
  rewrite Hbhex in Hhex. injection Hhex as ->.
  assert (Py.fromhex hexData = Raise ValueError) as Hraise.
  { destruct Hbad as [Hnon | [Hall Hodd]]; [by apply fromhex_non_hex |].
    pose proof (fromhex_all_hex_parity hexData Hall) as Hdec.
    destruct (Py.fromhex hexData) as [bs|e].
    - rewrite Hdec, Z.odd_mul in Hodd. done.
    - by destruct Hdec as [-> _]. }
  destruct Hres as [Hoff | e _ _ Hraise' | bs _ _ Hbs _ | bs src dst _ _ Hbs _ _ _
                    | bs _ _ Hbs _ _];
    try congruence.
  - destruct Hoff. by split.
  - rewrite Hraise in Hraise'. by injection Hraise' as <-.
Qed.

(** X10 on a payload that ends in [ZZ]. *)
Lemma flyer_bad_payload_warned_witness :
  let r := header_dict "2024-01-01" "12:00:00" "0x010203"
             "0102030405060708090A0B0C0D0E0F10111213ZZ"
             (VStr "Telemetry") (VStr "Right Motor") (VStr "Controller") in
  [FlyerDecodingError ValueError] = [FlyerDecodingError ValueError] ∧
  ∀ k, k ∈ "LiftSide" :: signal_keys → r !! k = None.
Proof.
  apply (flyer_bad_payload_warned sample_schema line_bad_payload _ _
           "0102030405060708090A0B0C0D0E0F10111213ZZ").
  - vm_compute; reflexivity.
  - vm_compute; reflexivity.
  - vm_compute; discriminate.
  - left. vm_compute; reflexivity.
Defined.

End HexPayload.

(** ** The lift side of a record and the two sheets *)

Section Sheets.

Lemma lift_side_label src dst :
  let has w := occurs_any_case w src ∨ occurs_any_case w dst in
  (has "right" ∧ lift_side (Py.lower src) (Py.lower dst) = "Right Lift")
  ∨ (¬ has "right" ∧ has "left"
     ∧ lift_side (Py.lower src) (Py.lower dst) = "Left Lift")
  ∨ (¬ has "right" ∧ ¬ has "left"
     ∧ lift_side (Py.lower src) (Py.lower dst) = "Unknown Lift").
Proof.
  intros has.
  assert (∀ w, small_letters w = true →
               has w ↔
               Py.contains w (Py.lower src) || Py.contains w (Py.lower dst) = true)
    as Hhas.
  { intros w Hw. unfold has. by rewrite orb_true_iff, !contains_lower. }
  pose proof (Hhas "right" eq_refl) as Hright.
  pose proof (Hhas "left" eq_refl) as Hleft.
  unfold lift_side.
  destruct (Py.contains "right" _ || Py.contains "right" _).
  { left. split; [by apply Hright | done]. }
  assert (¬ has "right") as Hnr by (rewrite Hright; done).
  destruct (Py.contains "left" _ || Py.contains "left" _).
  { right. left. repeat split; [done | by apply Hleft]. }
  right. right. repeat split; [done |]. rewrite Hleft. done.
Qed.

(** The lift side of a record, and the names it is derived from. *)
Lemma emitted_lift_side sch machine line r ws :
  process_line sch machine line = Emitted r ws →
  r !! "LiftSide" = None
  ∨ (machine = FLYER ∧
     ∃ src dst,
       r !! "source" = Some (VStr src) ∧ r !! "dst" = Some (VStr dst) ∧
       r !! "LiftSide" = Some (VStr (lift_side (Py.lower src) (Py.lower dst)))).
Proof.
  intros Hemit.
  apply process_line_Emitted_inv in Hemit
    as (tok0 & tok1 & extID & hexData & msgType & srcName & dstName & base
        & _ & _ & _ & _ & _ & _ & _ & _ & Hbase & Hres).
  assert (base !! "LiftSide" = None) as Hside.
  { apply (base_lookup_other _ _ _ _ _ _ _ _ _ _ Hbase). by_evaluation. }
  pose proof (flyer_result_lookup _ _ _ _ _ "source" Hres) as Hsrc.
  pose proof (flyer_result_lookup _ _ _ _ _ "dst" Hres) as Hdst.
  destruct Hres as [_ | e _ _ _ | bs' _ _ _ _ | bs src dst Hm _ _ _ Hs Hd
                    | bs _ _ _ _ _ ].
  1-3: by left.
  - right. split; [done |]. exists src, dst.
    rewrite Hsrc, Hdst by by_evaluation. by rewrite lookup_insert_eq.
  - left. by rewrite dict_update_lookup_ne by (rewrite signal_items_keys; by_evaluation).
Qed.

(** The three cases of the lift side of a record. *)
Lemma record_lift_side_cases sch machine line r ws v :
  process_line sch machine line = Emitted r ws →
  r !! "LiftSide" = Some v →
  (v = VStr "Right Lift" ∧ names_hold "right" r)
  ∨ (v = VStr "Left Lift" ∧ ¬ names_hold "right" r ∧ names_hold "left" r)
  ∨ (v = VStr "Unknown Lift" ∧ ¬ names_hold "right" r ∧ ¬ names_hold "left" r).
Proof.
  intros Hemit Hv.
  destruct (emitted_lift_side _ _ _ _ _ Hemit)
    as [Hnone | (_ & src & dst & Hsrc & Hdst & Hside)]; [congruence |].
  rewrite Hside in Hv. injection Hv as <-.
  assert (∀ w, names_hold w r ↔ occurs_any_case w src ∨ occurs_any_case w dst)
    as Hnames.
  { intros w. unfold names_hold. split.
    - intros (s & d & Hs & Hd & H). rewrite Hsrc in Hs. rewrite Hdst in Hd.
      by injection Hs as <-; injection Hd as <-.
    - intros H. by exists src, dst. }
  rewrite !Hnames.
  destruct (lift_side_label src dst) as [[Hr ->] | [(Hnr & Hl & ->) | (Hnr & Hnl & ->)]];
    auto.
Qed.

Lemma cell_is_spec r col label :
  cell_is r col label = true ↔ r !! col = Some (VStr label).
Proof.
  unfold cell_is, value_is_str. destruct (r !! col) as [[s| |]|]; try done.
  rewrite bool_decide_eq_true. split; [by intros -> | by intros [= ->]].
Qed.

Lemma df_has_column_false rows col :
  df_has_column rows col = false ↔ ∀ r, r ∈ rows → r !! col = None.
Proof.
  unfold df_has_column. induction rows as [|r rows IH]; cbn [existsb].
  - split; [intros _ r Hr; by apply elem_of_nil in Hr | done].
  - rewrite orb_false_iff, IH, bool_decide_eq_false. split.
    + intros [Hr Hrows] r' [-> | Hin]%elem_of_cons; [|by apply Hrows].
      by apply eq_None_not_Some.
    + intros H. split; [|intros r' Hr'; apply H; by right].
      apply eq_None_not_Some, H. by left.
Qed.

(** A row of the table is the record of one of the lines. *)
Lemma row_of_run sch machine lines r :
  r ∈ allDicts (decode_log sch machine lines) →
  ∃ line ws, line ∈ lines ∧ process_line sch machine line = Emitted r ws.
Proof.
  rewrite decode_log_allDicts, list_elem_of_omap.
  intros (line & Hline & Hrec). unfold record_of in Hrec.
  destruct (process_line sch machine line) as [| |r' ws] eqn:Hp; try done.
  injection Hrec as ->. by exists line, ws.
Qed.

(** X11: the two sheets of the export. The export is offered only by the
    FLYER variant, when some record has a lift side. Each sheet keeps rows of
    the table in their order. The right sheet holds the rows that have a
    lift side and a name that holds "right", its letters small or capital in
    any mix; the left sheet the rows that have a lift side, no name that
    holds "right" and one that holds "left". The names of such a row are
    text. No row is on both sheets. *)
Theorem lift_sheets_of_run sch machine lines :
  let rows := allDicts (decode_log sch machine lines) in
  match lift_sheets rows with
  | None => ∀ r, r ∈ rows → r !! "LiftSide" = None
  | Some (right_df, left_df) =>
      machine = FLYER ∧
      right_df `sublist_of` rows ∧ left_df `sublist_of` rows ∧
      (∀ r, r ∈ right_df ↔
            r ∈ rows ∧ is_Some (r !! "LiftSide") ∧ names_hold "right" r) ∧
      (∀ r, r ∈ left_df ↔
            r ∈ rows ∧ is_Some (r !! "LiftSide") ∧ ¬ names_hold "right" r
            ∧ names_hold "left" r) ∧
      (∀ r, r ∈ right_df → r ∉ left_df)
  end.
Proof.
  intros rows. unfold lift_sheets.
  destruct (df_has_column rows "LiftSide") eqn:Hcol.
  2: { by apply df_has_column_false. }
  assert (∀ r, r ∈ rows → ∀ label,
            cell_is r "LiftSide" label = true →
            machine = FLYER ∧
            ((label = "Right Lift" ∧ names_hold "right" r)
             ∨ (label = "Left Lift" ∧ ¬ names_hold "right" r ∧ names_hold "left" r)
             ∨ (label = "Unknown Lift" ∧ ¬ names_hold "right" r
                ∧ ¬ names_hold "left" r))) as Hrow.
  { intros r (line & ws & _ & Hemit)%row_of_run label Hcell%cell_is_spec. split.
    - destruct (emitted_lift_side _ _ _ _ _ Hemit)
        as [Hnone | [Hm _]]; [congruence | done].
    - destruct (record_lift_side_cases sch machine line r ws _ Hemit Hcell)
        as [[[= <-] ?] | [[[= <-] ?] | [[= <-] ?]]]; auto. }
  assert (∀ r, r ∈ rows → is_Some (r !! "LiftSide") →
               ∃ label, cell_is r "LiftSide" label = true) as Hlabel.
  { intros r (line & ws & _ & Hemit)%row_of_run [v Hv].
    destruct (record_lift_side_cases sch machine line r ws _ Hemit Hv)
      as [[-> _] | [[-> _] | [-> _]]]; eexists; by apply cell_is_spec. }
  split; [| split; [| split; [| split; [| split]]]].
  - apply existsb_exists in Hcol as (r & Hr%list_elem_of_In & Hsome%bool_decide_eq_true).
    destruct (Hlabel r Hr Hsome) as [label Hcell].
    by destruct (Hrow r Hr label Hcell).
  - apply sublist_filter.
  - apply sublist_filter.
  - intros r. unfold df_where. rewrite list_elem_of_filter. split.
    + intros [Hcell Hr]. split; [done |].
      destruct (Hrow r Hr _ Hcell) as [_ [[_ ?] | [[? _] | [? _]]]]; try done.
      split; [|done]. apply cell_is_spec in Hcell. by eexists.
    + intros (Hr & Hsome & Hright). split; [|done].
      destruct (Hlabel r Hr Hsome) as [label Hcell].
      destruct (Hrow r Hr _ Hcell) as [_ [[-> _] | [[_ [? _]] | [_ [? _]]]]]; done.
  - intros r. unfold df_where. rewrite list_elem_of_filter. split.
    + intros [Hcell Hr]. split; [done |].
      destruct (Hrow r Hr _ Hcell) as [_ [[? _] | [[_ ?] | [? _]]]]; try done.
      split; [|done]. apply cell_is_spec in Hcell. by eexists.
    + intros (Hr & Hsome & Hnright & Hleft). split; [|done].
      destruct (Hlabel r Hr Hsome) as [label Hcell].
      destruct (Hrow r Hr _ Hcell) as [_ [[_ ?] | [[-> _] | [_ [_ ?]]]]]; done.
  - intros r. unfold df_where. rewrite !list_elem_of_filter.
    intros [Hr%cell_is_spec _] [Hl%cell_is_spec _]. congruence.
Qed.

Example sheets_of_three_frames :
  let rows := allDicts (decode_log sample_schema FLYER
                [ sample_line;
                  "[2024-01-01 12:00:01] rcv 0x010504 0102030405060708090A0B0C0D0E0F1011121314";
                  "[2024-01-01 12:00:02] rcv 0x010505 0102030405060708090A0B0C0D0E0F1011121314" ]) in
  length rows = 3%nat ∧
  (λ sheets, (length sheets.1, length sheets.2)) <$> lift_sheets rows = Some (1%nat, 1%nat) ∧
  fst <$> lift_sheets rows = Some [sample_record] ∧
  filtered_df rows "Right Lift" = [sample_record] ∧
  filtered_df rows "All" = rows.
Proof. repeat split; vm_compute; reflexivity. Qed.

End Sheets.

Section OtherVariants.

(** With another variant than FLYER the payload block is passed over. *)
Lemma emitted_not_flyer sch machine line r ws :
  machine ≠ FLYER → process_line sch machine line = Emitted r ws →
  ws = [] ∧ ∀ k, k ∈ "LiftSide" :: signal_keys → r !! k = None.
Proof.
  intros Hm Hemit.
  apply process_line_Emitted_inv in Hemit
    as (tok0 & tok1 & extID & hexData & msgType & srcName & dstName & base
        & _ & _ & _ & _ & _ & _ & _ & _ & Hbase & Hres).
  pose proof (fun k => base_lookup_other _ _ _ _ _ _ _ _ _ k Hbase) as Hnone.
  by destruct Hres.
Qed.

(** X12: with the CARDING and DF variants no record has a signal or a lift
    side, every warning is that of a skipped line, the export of the two
    sheets is not offered, and the table to plot is the whole table whatever
    the choice of the select box would be. *)
Theorem other_variants_plain_table sch machine lines :
  machine ≠ FLYER →
  let st := decode_log sch machine lines in
  (∀ r k, r ∈ allDicts st → k ∈ "LiftSide" :: signal_keys → r !! k = None) ∧
  Forall (fun w => is_line_error w = true) (warnings st) ∧
  lift_sheets (allDicts st) = None ∧
  ∀ lift_filter, filtered_df (allDicts st) lift_filter = allDicts st.
Proof.
  intros Hm st.
  assert (∀ r k, r ∈ allDicts st → k ∈ "LiftSide" :: signal_keys → r !! k = None)
    as Hrows.
  { intros r k (line & ws & _ & Hemit)%row_of_run Hk.
    by apply (emitted_not_flyer _ _ _ _ _ Hm Hemit). }
  assert (df_has_column (allDicts st) "LiftSide" = false) as Hcol.
  { apply df_has_column_false. intros r Hr. apply Hrows; [done | by left]. }
  split; [done |]. split; [| split].
  - unfold st. rewrite decode_log_warnings. apply Forall_concat, Forall_map.
    apply Forall_forall. intros line _. unfold warnings_of.
    destruct (process_line sch machine line) as [|w|r ws] eqn:Hp.
    + constructor.
    + unfold process_line in Hp. destruct (Py.contains_item _ _); [|done].
      destruct (parse_line _ _ _) as [[? ?]|]; [done |]. injection Hp as <-.
      by repeat constructor.
    + destruct (emitted_not_flyer _ _ _ _ _ Hm Hp) as [-> _]. constructor.
  - unfold lift_sheets. by rewrite Hcol.
  - intros lift_filter. unfold filtered_df. by rewrite Hcol.
Qed.

(** X12 on a log decoded with the CARDING variant. *)
Lemma other_variants_plain_table_witness :
  let st := decode_log sample_schema CARDING [sample_line; line_three_tokens] in
  (∀ r k, r ∈ allDicts st → k ∈ "LiftSide" :: signal_keys → r !! k = None) ∧
  Forall (fun w => is_line_error w = true) (warnings st) ∧
  lift_sheets (allDicts st) = None ∧
  ∀ lift_filter, filtered_df (allDicts st) lift_filter = allDicts st.
Proof.
  apply (other_variants_plain_table sample_schema CARDING
           [sample_line; line_three_tokens]).
  discriminate.
Defined.

End OtherVariants.

(** ** The lines of the upload *)

Section Lines.

Lemma app_empty_l_str t : "" +:+ t = t.
Proof. reflexivity. Qed.

Lemma splitlines_cons_char c s :
  Py.is_linebreak c = false →
  Py.splitlines (String c s) =
    match Py.splitlines s with
    | t :: ts => String c t :: ts
    | [] => [String c ""]
    end.
Proof. intros Hc. cbn [Py.splitlines]. by rewrite Hc. Qed.

(** A line and its line feed. *)
Lemma splitlines_line_lf l rest :
  no_linebreak l = true →
  Py.splitlines (l +:+ LF +:+ rest) = l :: Py.splitlines rest.
Proof.
  intros Hl. induction l as [|c l IH].
  - unfold LF. rewrite app_empty_l_str, app_cons.
    cbn [Py.splitlines]. by destruct rest.
  - cbn [no_linebreak] in Hl. apply andb_true_iff in Hl as [Hc%negb_true_iff Hl].
    rewrite app_cons, splitlines_cons_char, IH by done. done.
Qed.

(** A line and its carriage return and line feed. *)
Lemma splitlines_line_crlf l rest :
  no_linebreak l = true →
  Py.splitlines (l +:+ CRLF +:+ rest) = l :: Py.splitlines rest.
Proof.
  intros Hl. induction l as [|c l IH].
  - unfold CRLF. rewrite app_empty_l_str, !app_cons. reflexivity.
  - cbn [no_linebreak] in Hl. apply andb_true_iff in Hl as [Hc%negb_true_iff Hl].
    rewrite app_cons, splitlines_cons_char, IH by done. done.
Qed.

Lemma splitlines_text ending ls :
  ending = LF ∨ ending = CRLF →
  Forall (fun l => no_linebreak l = true) ls →
  Py.splitlines (text_of_lines ending ls) = ls.
Proof.
  intros Hend Hls. induction Hls as [|l ls Hl _ IH]; [reflexivity |].
  cbn [text_of_lines].
  destruct Hend as [-> | ->];
    [rewrite splitlines_line_lf | rewrite splitlines_line_crlf]; by rewrite ?IH.
Qed.

(** No line of [splitlines] holds a line break. *)
Lemma splitlines_no_linebreak s :
  Forall (fun l => no_linebreak l = true) (Py.splitlines s).
Proof.
  assert (∀ n s, (String.length s ≤ n)%nat →
                 Forall (fun l => no_linebreak l = true) (Py.splitlines s)) as Hn.
  { clear s. induction n as [|n IH]; intros [|c s] Hlen; simpl in Hlen;
      try lia; try by constructor.
    cbn [Py.splitlines]. destruct (Py.is_linebreak c) eqn:Hc.
    - constructor; [done |]. destruct s as [|c' s]; [constructor |].
      destruct (_ && _); apply IH; simpl in *; lia.
    - specialize (IH s ltac:(lia)).
      destruct (Py.splitlines s) as [|t ts].
      + repeat constructor. cbn [no_linebreak]. by rewrite Hc.
      + apply Forall_cons in IH as [Ht Hts]. constructor; [|done].
        cbn [no_linebreak]. by rewrite Hc, Ht. }
  by apply (Hn (String.length s)).
Qed.

(** X13: the upload is cut at its line breaks, whatever the line ending. No
    line handed to the decoder holds a line break, and a text whose lines end
    in a line feed, or in a carriage return and a line feed, is decoded as
    the list of these lines: the carriage return is no part of the last token
    of a line. *)
Theorem upload_lines sch machine :
  (∀ text, Forall (fun l => no_linebreak l = true) (Py.splitlines text)) ∧
  (∀ ending ls,
     ending = LF ∨ ending = CRLF →
     Forall (fun l => no_linebreak l = true) ls →
     Py.splitlines (text_of_lines ending ls) = ls ∧
     decode_upload sch machine (text_of_lines ending ls) = decode_log sch machine ls).
Proof.
  split; [apply splitlines_no_linebreak |].
  intros ending ls Hend Hls.
  pose proof (splitlines_text ending ls Hend Hls) as Hsplit.
  split; [done |]. unfold decode_upload. by rewrite Hsplit.
Qed.

Example splitlines_endings :
  Py.splitlines (text_of_lines CRLF ["a b"; ""; "c"]) = ["a b"; ""; "c"] ∧
  Py.splitlines ("a" +:+ LF +:+ LF +:+ "b") = ["a"; ""; "b"] ∧
  Py.splitlines "" = [] ∧
  Py.splitlines "no ending" = ["no ending"].
Proof. repeat split; reflexivity. Qed.

End Lines.

(** ** The identifier, whatever its length *)

Section IdentifierTail.

Lemma str_drop_drop a b s : Py.str_drop a (Py.str_drop b s) = Py.str_drop (b + a) s.
Proof.
  revert s. induction b as [|b IH]; intros s; [reflexivity |].
  destruct s as [|c s]; [by destruct a |]. apply IH.
Qed.

Lemma str_drop_split i j s :
  (i ≤ j)%nat →
  Py.str_drop i s = Py.str_take (j - i) (Py.str_drop i s) +:+ Py.str_drop j s.
Proof.
  intros Hij. rewrite <- (str_take_drop (j - i) (Py.str_drop i s)) at 1.
  rewrite str_drop_drop. by replace (i + (j - i))%nat with j by lia.
Qed.

(** [s[-a:-b]] and [s[-a:]] by counting from the start. *)
Lemma slice_neg_neg s (a b : nat) :
  (0 < b)%nat → (b ≤ a)%nat →
  Py.slice s (Some (- Z.of_nat a)) (Some (- Z.of_nat b)) =
  Py.str_take ((String.length s - b) - (String.length s - a))
    (Py.str_drop (String.length s - a) s).
Proof.
  intros Hb Hab. unfold Py.slice, Py.adjust_index. rewrite len_length.
  replace (- Z.of_nat a <? 0) with true by (symmetry; apply Z.ltb_lt; lia).
  replace (- Z.of_nat b <? 0) with true by (symmetry; apply Z.ltb_lt; lia).
  destruct (_ <? _) eqn:E; [apply Z.ltb_lt in E | apply Z.ltb_ge in E].
  - f_equal; [lia | f_equal; lia].
  - replace (String.length s - b - (String.length s - a))%nat with 0%nat by lia.
    by destruct (Py.str_drop _ _).
Qed.

Lemma slice_neg_end s (a : nat) :
  (0 < a)%nat →
  Py.slice s (Some (- Z.of_nat a)) None = Py.str_drop (String.length s - a) s.
Proof.
  intros Ha. unfold Py.slice, Py.adjust_index. rewrite len_length.
  replace (- Z.of_nat a <? 0) with true by (symmetry; apply Z.ltb_lt; lia).
  destruct (_ <? _) eqn:E; [apply Z.ltb_lt in E | apply Z.ltb_ge in E].
  - replace (Z.to_nat (Z.max 0 (- Z.of_nat a + Z.of_nat (String.length s))))
      with (String.length s - a)%nat by lia.
    replace (Z.to_nat (Z.of_nat (String.length s)
                       - Z.max 0 (- Z.of_nat a + Z.of_nat (String.length s))))
      with (String.length (Py.str_drop (String.length s - a) s))
      by (rewrite length_str_drop; lia).
    apply str_take_all.
  - destruct s as [|c s]; [reflexivity | simpl in E; lia].
Qed.

(** X14: the three codes tile the end of the identifier, whatever its length:
    the identifier is what comes before its last six characters, followed by
    the function, the destination and the source code. Each code has at most
    two characters, and the source code is filled first, then the destination
    code, then the function code. *)
Theorem id_codes_tile extID :
  let n := Py.len extID in
  let fID := (id_codes extID).1.1 in
  let dst := (id_codes extID).1.2 in
  let source := (id_codes extID).2 in
  ∃ p, extID = p +:+ fID +:+ dst +:+ source ∧
       Py.len p = Z.max 0 (n - 6) ∧
       Py.len fID = Z.min 2 (Z.max 0 (n - 4)) ∧
       Py.len dst = Z.min 2 (Z.max 0 (n - 2)) ∧
       Py.len source = Z.min 2 n.
Proof.
  intros n fID dst source. unfold fID, dst, source, id_codes. cbn [fst snd].
  change (-6) with (- Z.of_nat 6). change (-4) with (- Z.of_nat 4).
  change (-2) with (- Z.of_nat 2).
  rewrite !slice_neg_neg, slice_neg_end by lia.
  set (k := String.length extID).
  exists (Py.str_take (k - 6) extID). split.
  - rewrite <- (str_drop_split (k - 4) (k - 2) extID) by lia.
    rewrite <- (str_drop_split (k - 6) (k - 4) extID) by lia.
    by rewrite str_take_drop.
  - unfold n. rewrite !len_length, !length_str_take, !length_str_drop.
    fold k. lia.
Qed.

Example id_codes_short :
  id_codes "0x010203" = ("01", "02", "03") ∧ id_codes "10203" = ("1", "02", "03") ∧
  id_codes "203" = ("", "2", "03") ∧ id_codes "3" = ("", "", "3") ∧
  id_codes "" = ("", "", "").
Proof. repeat split; reflexivity. Qed.

End IdentifierTail.

(** ** Error frames whose payload is no number *)

Section ErrorLetters.

Lemma int_unfold s :
  Py.int s =
  match Py.lstrip s with
  | EmptyString => Raise ValueError
  | String c t =>
      if Ascii.eqb c "+" then int_body 1 t
      else if Ascii.eqb c "-" then int_body (-1) t
      else int_body 1 (String c t)
  end.
Proof.
  unfold Py.int. destruct (Py.lstrip s) as [|c t]; [reflexivity |].
  destruct c as [[] [] [] [] [] [] [] []]; reflexivity.
Qed.

Lemma space_is_decimal_char c : Py.is_int_space c = true → is_decimal_char c = true.
Proof.
  intros Hc. unfold is_decimal_char. destruct (Py.dec_value c); [done |].
  rewrite Hc. by rewrite orb_true_r.
Qed.

Lemma lstrip_non_decimal s :
  has_non_decimal s = true → has_non_decimal (Py.lstrip s) = true.
Proof.
  induction s as [|c s IH]; [done |]. cbn [Py.lstrip].
  destruct (Py.is_int_space c) eqn:Hc; [|done].
  cbn [has_non_decimal]. by rewrite (space_is_decimal_char c Hc).
Qed.

Lemma all_space_non_decimal s : has_non_decimal s = true → Py.all_space s = false.
Proof.
  induction s as [|c s IH]; [done |]. cbn [has_non_decimal Py.all_space].
  destruct (Py.is_int_space c) eqn:Hc; [|done].
  by rewrite (space_is_decimal_char c Hc).
Qed.

Lemma int_digits_non_decimal s acc n prev :
  has_non_decimal s = true → Py.int_digits s acc n prev = Raise ValueError.
Proof.
  revert acc n prev. induction s as [|c s IH]; intros acc n prev Hs; [done |].
  cbn [Py.int_digits]. pose proof (all_space_non_decimal _ Hs) as Hsp.
  cbn [has_non_decimal] in Hs. unfold is_decimal_char in Hs.
  destruct (Py.dec_value c); [by apply IH |].
  case_bool_decide as Hus.
  - destruct prev; [done |]. apply IH. simpl in Hs. done.
  - destruct prev; [done |]. by rewrite Hsp.
Qed.

Lemma int_body_non_decimal sign t :
  has_non_decimal t = true → int_body sign t = Raise ValueError.
Proof.
  intros Ht. unfold int_body. destruct t as [|c t]; [done |].
  destruct (Py.dec_value c); [|done]. by rewrite int_digits_non_decimal.
Qed.

(** [int] refuses a string that holds a character no literal can hold. *)
Lemma int_non_decimal s : has_non_decimal s = true → Py.int s = Raise ValueError.
Proof.
  intros Hs%lstrip_non_decimal. rewrite int_unfold.
  destruct (Py.lstrip s) as [|c t]; [done |].
  destruct (Ascii.eqb c "+") eqn:Hp; [apply Ascii.eqb_eq in Hp as -> |].
  { by apply int_body_non_decimal. }
  destruct (Ascii.eqb c "-") eqn:Hm; [apply Ascii.eqb_eq in Hm as -> |].
  { by apply int_body_non_decimal. }
  by apply int_body_non_decimal.
Qed.

(** The hexadecimal digits above nine are such characters. *)
Lemma hex_letter_non_decimal c d :
  Py.hex_value c = Some d → 10 <= d → is_decimal_char c = false.
Proof.
  unfold is_decimal_char, Py.dec_value, Py.hex_value.
  destruct (Py.digit_value c) as [d'|] eqn:Hd; [|done].
  destruct (d' <? 16) eqn:H16; [|done]. intros [= <-] Hge.
  replace (d' <? 10) with false by (symmetry; apply Z.ltb_ge; lia).
  revert Hd. unfold Py.digit_value, Py.is_int_space, Py.is_ascii_space.
  destruct c as [[] [] [] [] [] [] [] []]; vm_compute; intros [= <-]; try done;
    apply Z.ltb_lt in H16; lia.
Qed.

(** X15: the payload of an error frame is read in base 10, so an error frame
    whose payload holds a character that no base-10 literal can hold, such as
    one of the hexadecimal digits A to F, is never decoded: [int] raises
    [ValueError] and the line gives a warning and no record. *)
Theorem error_frame_non_decimal_payload sch machine line tok0 tok1 extID hexData
    srcName dstName :
  "rcv" ∈ Py.split " " line →
  Py.split " " line !! 0%nat = Some tok0 → Py.split " " line !! 1%nat = Some tok1 →
  Py.split " " line !! 3%nat = Some extID → Py.split " " line !! 4%nat = Some hexData →
  functionIDs sch !! (id_codes extID).1.1 = Some (VStr "Error") →
  machineIDs sch machine !! (id_codes extID).2 = Some srcName →
  machineIDs sch machine !! (id_codes extID).1.2 = Some dstName →
  has_non_decimal hexData = true →
  process_line sch machine line = Skipped (LineParsingError ValueError) ∧
  record_of sch machine line = None ∧
  (∀ c d, Py.hex_value c = Some d → 10 <= d → is_decimal_char c = false).
Proof.
  intros Hrcv H0 H1 H3 H4 Hf Hs Hd Hbad.
  pose proof (process_line_resolved sch machine line tok0 tok1 extID hexData
                (VStr "Error") srcName dstName Hrcv H0 H1 H3 H4 Hf Hs Hd) as Hline.
  pose proof (header_dict_lookup (Py.slice tok0 (Some 1) None)
                (Py.slice tok1 None (Some (-1))) extID hexData (VStr "Error")
                srcName dstName) as (_ & _ & _ & _ & Hmt & _).
  rewrite (message_branch_spec _ _ _ (VStr "Error") Hmt) in Hline.
  cbn [value_is_str] in Hline.
  rewrite bool_decide_eq_false_2, bool_decide_eq_true_2 in Hline by done.
  rewrite (int_non_decimal _ Hbad) in Hline. cbn [bind] in Hline.
  split; [done |]. split; [|apply hex_letter_non_decimal].
  unfold record_of. by rewrite Hline.
Qed.

(** X15 on the error frame with the payload [0A]. *)
Lemma error_frame_non_decimal_payload_witness :
  process_line sample_schema FLYER line_error_hex
    = Skipped (LineParsingError ValueError) ∧
  record_of sample_schema FLYER line_error_hex = None ∧
  (∀ c d, Py.hex_value c = Some d → 10 <= d → is_decimal_char c = false).
Proof.
  apply (error_frame_non_decimal_payload sample_schema FLYER line_error_hex
           "[2024-01-01" "12:00:00]" "0x030203" "0A"
           (VStr "Right Motor") (VStr "Controller")).
  - by_evaluation.
  - vm_compute; reflexivity.
  - vm_compute; reflexivity.
  - vm_compute; reflexivity.
  - vm_compute; reflexivity.
  - vm_compute; reflexivity.
  - vm_compute; reflexivity.
  - vm_compute; reflexivity.
  - vm_compute; reflexivity.
Defined.

End ErrorLetters.

(** ** Distinct readings, distinct values *)

Section Lossless.

(** Checked on each pair of neighbours among the 16-bit values. *)
Lemma scaled_key_grows_all : all_from scaled_key_grows 0 (Z.to_nat 65535) = true.
Proof. vm_compute. reflexivity. Qed.

Lemma scaled_key_lt m n :
  0 <= m → m < n → n <= 65535 →
  float_key (Py.truediv_100 m) < float_key (Py.truediv_100 n).
Proof.
  intros Hm Hmn Hn.
  assert (∀ k : nat, m + 1 + Z.of_nat k <= 65535 →
            float_key (Py.truediv_100 m)
            < float_key (Py.truediv_100 (m + 1 + Z.of_nat k))) as Hk.
  { induction k as [|k IH]; intros Hle.
    - replace (m + 1 + Z.of_nat 0) with (m + 1) by lia.
      apply Z.ltb_lt.
      apply (all_from_spec scaled_key_grows 0 _ m scaled_key_grows_all). lia.
    - etrans; [apply IH; lia |].
      replace (m + 1 + Z.of_nat (S k)) with (m + 1 + Z.of_nat k + 1) by lia.
      apply Z.ltb_lt.
      apply (all_from_spec scaled_key_grows 0 _ _ scaled_key_grows_all). lia. }
  specialize (Hk (Z.to_nat (n - m - 1))).
  replace (m + 1 + Z.of_nat (Z.to_nat (n - m - 1))) with n in Hk by lia.
  apply Hk. lia.
Qed.

Lemma be16_bytes hi lo : is_byte hi → is_byte lo →
  be16 hi lo / 256 = hi ∧ be16 hi lo mod 256 = lo.
Proof.
  intros Hhi Hlo. rewrite be16_eq; [|apply Hhi | done].
  unfold is_byte in *. split.
  - rewrite Z.add_comm, Z.div_add by lia. rewrite Z.div_small by lia. lia.
  - rewrite Z.add_comm, Z.mod_add by lia. apply Z.mod_small. lia.
Qed.

(** X16: the decoding of a position loses nothing. Two pairs of bytes that
    give the same 16-bit value are the same pair, and two 16-bit values that
    give the same quotient by [100.0] are the same value: the bytes of the
    payload can be read back from the float. *)
Theorem scaled_position_lossless hi lo hi' lo' :
  is_byte hi → is_byte lo → is_byte hi' → is_byte lo' →
  Py.truediv_100 (be16 hi lo) = Py.truediv_100 (be16 hi' lo') →
  hi = hi' ∧ lo = lo'.
Proof.
  intros Hhi Hlo Hhi' Hlo' Heq.
  pose proof (be16_range hi lo Hhi Hlo) as Hr.
  pose proof (be16_range hi' lo' Hhi' Hlo') as Hr'.
  assert (be16 hi lo = be16 hi' lo') as Hbe.
  { destruct (Z.lt_trichotomy (be16 hi lo) (be16 hi' lo')) as [Hlt | [? | Hgt]];
      [| done |].
    - pose proof (scaled_key_lt _ _ (proj1 Hr) Hlt (proj2 Hr')) as Hkey.
      rewrite Heq in Hkey. lia.
    - pose proof (scaled_key_lt _ _ (proj1 Hr') Hgt (proj2 Hr)) as Hkey.
      rewrite Heq in Hkey. lia. }
  destruct (be16_bytes hi lo Hhi Hlo) as [H1 H2].
  destruct (be16_bytes hi' lo' Hhi' Hlo') as [H1' H2'].
  split; congruence.
Qed.

(** X16 on the bytes [01 02]: no other pair gives [2.58]. *)
Lemma scaled_position_lossless_witness :
  Py.truediv_100 (be16 1 2) = 2.58%float ∧ (1 = 1 ∧ 2 = 2).
Proof.
  split; [reflexivity |].
  apply (scaled_position_lossless 1 2 1 2); unfold is_byte; try lia. reflexivity.
Defined.

End Lossless.

(** ** What a line and a workbook are read for *)

Section Frame.

(** The outer [try] reads the tokens 0, 1, 3 and 4 and no other. *)
Lemma parse_line_tokens sch machine splits splits' :
  splits !! 0%nat = splits' !! 0%nat → splits !! 1%nat = splits' !! 1%nat →
  splits !! 3%nat = splits' !! 3%nat → splits !! 4%nat = splits' !! 4%nat →
  parse_line sch machine splits = parse_line sch machine splits'.
Proof.
  intros H0 H1 H3 H4. unfold parse_line, Py.getitem.
  by rewrite H0, H1, H3, H4.
Qed.

Lemma split_app_sep sep s t :
  Py.split sep (s +:+ String sep t) = Py.split sep s ++ Py.split sep t.
Proof.
  induction s as [|c s IH].
  - rewrite app_empty_l_str. cbn [Py.split]. by rewrite bool_decide_eq_true_2.
  - rewrite app_cons. cbn [Py.split]. case_bool_decide; [by rewrite IH |].
    rewrite IH. pose proof (split_nonempty sep s).
    by destruct (Py.split sep s).
Qed.

(** X17: what follows the fifth token of a line is not read: a candidate line
    of at least five tokens gives the same record or the same warning when
    further tokens are added after a blank. So of a payload whose bytes are
    set apart by blanks only the first byte is taken. *)
Theorem trailing_tokens_ignored sch machine line extra :
  "rcv" ∈ Py.split " " line → (5 ≤ length (Py.split " " line))%nat →
  Py.split " " (line +:+ " " +:+ extra) = Py.split " " line ++ Py.split " " extra ∧
  process_line sch machine (line +:+ " " +:+ extra) = process_line sch machine line.
Proof.
  intros Hrcv Hlen.
  assert (Py.split " " (line +:+ " " +:+ extra)
          = Py.split " " line ++ Py.split " " extra) as Hsplit
    by apply (split_app_sep " "%char line extra).
  split; [done |].
  unfold process_line, Py.contains_item. rewrite Hsplit.
  rewrite !bool_decide_eq_true_2; [| done | apply elem_of_app; by left].
  by rewrite (parse_line_tokens sch machine (Py.split " " line ++ Py.split " " extra)
                (Py.split " " line)) by (apply lookup_app_l; lia).
Qed.

(** X17 on the sample line followed by a comment. *)
Lemma trailing_tokens_ignored_witness :
  Py.split " " (sample_line +:+ " " +:+ "checksum ok")
    = Py.split " " sample_line ++ Py.split " " "checksum ok" ∧
  process_line sample_schema FLYER (sample_line +:+ " " +:+ "checksum ok")
    = process_line sample_schema FLYER sample_line.
Proof.
  apply (trailing_tokens_ignored sample_schema FLYER sample_line "checksum ok").
  - by_evaluation.
  - vm_compute. lia.
Defined.

Example payload_bytes_apart :
  ∃ r, process_line sample_schema FLYER
         "[2024-01-01 12:00:00] rcv 0x010203 01 02 03 04" = Emitted r [] ∧
       r !! "hexData" = Some (VStr "01").
Proof. eexists. split; vm_compute; reflexivity. Qed.

Lemma process_line_same_tables sch sch' machine line :
  functionIDs sch = functionIDs sch' →
  machineIDs sch machine = machineIDs sch' machine →
  Operations sch = Operations sch' → Errors sch = Errors sch' →
  process_line sch machine line = process_line sch' machine line.
Proof.
  intros Hf Hm Hop Herr.
  unfold process_line, parse_line, message_branch. by rewrite Hf, Hm, Hop, Herr.
Qed.

(** X18: a run reads the function table, the operation and the error table,
    and the address table of the selected machine only: two workbooks that
    agree on these give the same records and the same warnings, whatever the
    address tables of the other machines hold. *)
Theorem run_reads_its_tables sch sch' machine lines :
  functionIDs sch = functionIDs sch' →
  machineIDs sch machine = machineIDs sch' machine →
  Operations sch = Operations sch' → Errors sch = Errors sch' →
  decode_log sch machine lines = decode_log sch' machine lines.
Proof.
  intros Hf Hm Hop Herr. unfold decode_log.
  generalize ({| allDicts := []; warnings := [] |}).
  induction lines as [|line lines IH]; intros st; [reflexivity |].
  cbn [foldl]. rewrite IH. f_equal. unfold run_step.
  by rewrite (process_line_same_tables sch sch' machine line).
Qed.

(** X18 on a workbook without the tables of the other machines. *)
Lemma run_reads_its_tables_witness :
  let sch' := {| functionIDs := functionIDs sample_schema;
                 CardingAddressIDs := ∅; DFAddressIDs := ∅;
                 FlyerAddressIDs := FlyerAddressIDs sample_schema;
                 Operations := Operations sample_schema;
                 Errors := Errors sample_schema |} in
  decode_log sample_schema FLYER [sample_line; line_error_12]
  = decode_log sch' FLYER [sample_line; line_error_12].
Proof.
  apply (run_reads_its_tables sample_schema _ FLYER [sample_line; line_error_12]);
    reflexivity.
Defined.

End Frame.
